(** * TilliT extract: a shallow embedding of [Extract.py]

    The class [TilliT] pulls production-scheduling data out of two web
    services and reconciles it into flat tables with pandas.  This file
    embeds the class in Rocq:

    - JSON / Python cell values are the inductive type [value];
    - exceptions are the [Raise] branch of [result];
    - the network is a deterministic [server] that answers each request
      from the history of earlier requests; every method that talks to it
      lives in the monad [M], which threads the request [trace];
    - a pandas [DataFrame] is a header of column names with row-major
      cells ([frame]); the handful of pandas operations the class uses
      ([merge], [isin], [sort_values], ...) are written out as list
      programs.

    A number is the rational it denotes.  Arithmetic on a float column
    goes through the [float_mul] of the runtime, the product as binary64
    rounds it; the int64 wrap-around of NumPy is outside the model.
    [None], [NaN] and [pd.NA] are one value, [VNull]. *)

From Stdlib Require Import ZArith QArith Qround List String Ascii Bool Lia.
From Stdlib Require Import Permutation Sorted DecimalString OrderedTypeEx.
From stdpp Require Import base gmap strings list.

Local Open Scope string_scope.
Local Open Scope list_scope.
Local Open Scope Z_scope.

(** ** Values *)

#[warnings="-register-all"]
Inductive value : Type :=
| VNull                                  (* None, NaN, pd.NA *)
| VBool (b : bool)
| VNum (q : Q)                           (* int or float *)
| VStr (s : string)
| VTime (us : Z)                         (* datetime: microseconds since 1970-01-01 *)
| VList (l : list value)
| VObj (o : list (string * value)).      (* dict, in key order *)

Definition json_object : Type := list (string * value).

(** Equality of hashable values, as pandas uses it for [isin], [unique]
    and merge keys (missing values compare equal to each other there). *)
Definition value_eqb (a b : value) : bool :=
  match a, b with
  | VNull, VNull => true
  | VBool x, VBool y => Bool.eqb x y
  | VNum x, VNum y => Qeq_bool x y
  | VStr x, VStr y => String.eqb x y
  | VTime x, VTime y => Z.eqb x y
  | _, _ => false
  end.

Definition hashable (v : value) : bool :=
  match v with
  | VList _ | VObj _ => false
  | _ => true
  end.

Definition is_null (v : value) : bool :=
  match v with VNull => true | _ => false end.

(** Python truthiness, the [x] of [... if x else ...]. *)
Definition truthy (v : value) : bool :=
  match v with
  | VNull => false
  | VBool b => b
  | VNum q => negb (Qeq_bool q 0)
  | VStr s => negb (String.eqb s "")
  | VTime _ => true
  | VList l => match l with [] => false | _ => true end
  | VObj o => match o with [] => false | _ => true end
  end.

Definition VInt (z : Z) : value := VNum (inject_Z z).

(** ** Exceptions *)

Inductive error : Type :=
| KeyError (key : string)
| IndexError
| TypeError
| ValueError
| AttributeError
| HTTPError (code : Z)
| Exception (msg : string).

Inductive result (A : Type) : Type :=
| Ok (a : A)
| Raise (e : error).
Arguments Ok {A} a.
Arguments Raise {A} e.

Definition rbind {A B} (r : result A) (k : A -> result B) : result B :=
  match r with
  | Ok a => k a
  | Raise e => Raise e
  end.

Notation "'let?' x := r 'in' k" := (rbind r (fun x => k))
  (at level 10, x name, r at level 200, k at level 200).

Fixpoint rmap {A B} (f : A -> result B) (l : list A) : result (list B) :=
  match l with
  | [] => Ok []
  | x :: l' =>
      match f x with
      | Raise e => Raise e
      | Ok y => match rmap f l' with
                | Raise e => Raise e
                | Ok ys => Ok (y :: ys)
                end
      end
  end.

(** ** Subscripting *)

Fixpoint assoc {A} (k : string) (o : list (string * A)) : option A :=
  match o with
  | [] => None
  | (k', v) :: o' => if String.eqb k k' then Some v else assoc k o'
  end.

(** [v[key]] for a string key. *)
Definition getitem (v : value) (key : string) : result value :=
  match v with
  | VObj o => match assoc key o with
              | Some x => Ok x
              | None => Raise (KeyError key)
              end
  | _ => Raise TypeError
  end.

(** [v[0]]. *)
Definition getitem0 (v : value) : result value :=
  match v with
  | VList [] => Raise IndexError
  | VList (x :: _) => Ok x
  | VStr s => match s with
              | EmptyString => Raise IndexError
              | String c _ => Ok (VStr (String c EmptyString))
              end
  | VObj o => Raise (KeyError "0")
  | _ => Raise TypeError
  end.

(** ** Strings *)

Fixpoint join (sep : string) (l : list string) : string :=
  match l with
  | [] => ""
  | [s] => s
  | s :: l' => s +:+ sep +:+ join sep l'
  end.

Fixpoint contains_char (c : ascii) (s : string) : bool :=
  match s with
  | EmptyString => false
  | String c' s' => Ascii.eqb c c' || contains_char c s'
  end.

(** [s.split(sep)[0]] for a non-empty separator: the part of [s] before the
    first occurrence of [sep], all of [s] when there is none. *)
Fixpoint split_head (sep s : string) : string :=
  match s with
  | EmptyString => EmptyString
  | String c s' =>
      if String.prefix sep s then EmptyString else String c (split_head sep s')
  end.

Definition str_of_Z (z : Z) : string := NilZero.string_of_int (Z.to_int z).

(** [int(q)] on a number truncates toward zero. *)
Definition Qtrunc (q : Q) : Z :=
  if Qle_bool 0 q then Qfloor q else Qceiling q.

(** ** HTTP *)

Inductive http_method : Type := GET | POST.

Record request : Type := {
  req_method : http_method;
  req_url : string;
  req_headers : list (string * string);
  req_json : option value
}.

Record response : Type := {
  status_code : Z;
  body : option value     (* the decoded JSON body, [None] if it is not JSON *)
}.

Definition trace : Type := list request.

(** [Response.raise_for_status] raises on the client and server error
    codes, those for which [Response.ok] is false. *)
Definition is_error_status (code : Z) : bool :=
  (400 <=? code) && (code <? 600).

Definition raise_for_status (r : response) : result unit :=
  if is_error_status (status_code r) then Raise (HTTPError (status_code r))
  else Ok tt.

Definition response_json (r : response) : result value :=
  match body r with
  | Some v => Ok v
  | None => Raise ValueError
  end.

(** ** The monad of methods: a result and the requests issued so far *)

Definition M (A : Type) : Type := trace -> result A * trace.

Definition ret {A} (a : A) : M A := fun t => (Ok a, t).
Definition throw {A} (e : error) : M A := fun t => (Raise e, t).
Definition lift {A} (r : result A) : M A := fun t => (r, t).
Definition bind {A B} (m : M A) (k : A -> M B) : M B :=
  fun t => match m t with
           | (Ok a, t') => k a t'
           | (Raise e, t') => (Raise e, t')
           end.

Notation "'let*' x := m 'in' k" := (bind m (fun x => k))
  (at level 10, x name, m at level 200, k at level 200).

(** The class-level dictionaries. *)

Definition _schedulerEndpoints : gmap string string :=
  <["operations" := "/operations"]>
  (<["routes" := "/routes"]>
  (<["material_definitions" := "/material-definitions"]>
  (<["materials_properties" := "/material-properties"]>
  (<["segments" := "/segments"]>
  (<["segment_equipments" := "/segment-equipments"]>
  (<["segment_materials" := "/segment-materials"]> ∅)))))).

Definition _scheduler_priority_map : gmap Z string :=
  <[1 := "High"]> (<[2 := "Medium"]> (<[3 := "Low"]> ∅)).

(** [_scheduler_priority_map.get(x, '')] on an integer key. *)
Definition priority_label (x : Z) : string :=
  default "" (_scheduler_priority_map !! x).

(** [_scheduler_priority_map.get(x, '')] on a cell: a number hashes and
    compares like the integer it equals, [True] and [False] like 1 and 0;
    a list or dict is not hashable. *)
Definition priority_get (x : value) : result value :=
  match x with
  | VNum q => if Qeq_bool q (inject_Z (Qfloor q))
              then Ok (VStr (priority_label (Qfloor q)))
              else Ok (VStr "")
  | VBool b => Ok (VStr (priority_label (if b then 1 else 0)))
  | VList _ | VObj _ => Raise TypeError
  | _ => Ok (VStr "")
  end.

(** ** The object *)

Record TilliT : Type := {
  _site : string;
  _tenant : string;
  _baseURL : string;
  _baseURLScheduler : string;
  _baseURLSchedulerGraphQL : string;
  _scheduler_data_id : Z;
  _scheduler_scenario_id : Z;
  _headers : list (string * string)
}.

Definition set_ids (self : TilliT) (d s : Z) : TilliT :=
  {| _site := _site self; _tenant := _tenant self; _baseURL := _baseURL self;
     _baseURLScheduler := _baseURLScheduler self;
     _baseURLSchedulerGraphQL := _baseURLSchedulerGraphQL self;
     _scheduler_data_id := d; _scheduler_scenario_id := s;
     _headers := _headers self |}.

Definition set_baseURLScheduler (self : TilliT) (u : string) : TilliT :=
  {| _site := _site self; _tenant := _tenant self; _baseURL := _baseURL self;
     _baseURLScheduler := u;
     _baseURLSchedulerGraphQL := _baseURLSchedulerGraphQL self;
     _scheduler_data_id := _scheduler_data_id self;
     _scheduler_scenario_id := _scheduler_scenario_id self;
     _headers := _headers self |}.

Fixpoint replace_all_fuel (n : nat) (old new s : string) : string :=
  match n with
  | O => s
  | S n' =>
      match s with
      | EmptyString => EmptyString
      | String c s' =>
          if String.prefix old s
          then new +:+ replace_all_fuel n' old new
                         (substring (String.length old) (String.length s) s)
          else String c (replace_all_fuel n' old new s')
      end
  end.

(** [s.replace(old, new)] for a non-empty [old]. *)
Definition str_replace (old new s : string) : string :=
  replace_all_fuel (S (String.length s)) old new s.

(** ** Data frames *)

Record frame : Type := {
  columns : list string;
  rows : list (list value)
}.

Fixpoint index_of (c : string) (cols : list string) : option nat :=
  match cols with
  | [] => None
  | c' :: cols' =>
      if String.eqb c c' then Some O
      else match index_of c cols' with
           | Some i => Some (S i)
           | None => None
           end
  end.

Definition has_column (df : frame) (c : string) : bool :=
  match index_of c (columns df) with Some _ => true | None => false end.

(** The cell of [row] under column [c] of a header. *)
Definition cell (cols : list string) (c : string) (row : list value) : value :=
  match index_of c cols with
  | Some i => nth i row VNull
  | None => VNull
  end.

Fixpoint add_key (k : string) (ks : list string) : list string :=
  match ks with
  | [] => [k]
  | k' :: ks' => if String.eqb k k' then ks else k' :: add_key k ks'
  end.

(** Column labels of a list of records: every key, in order of first use. *)
Definition keys_union (recs : list json_object) : list string :=
  fold_left (fun acc r => fold_left (fun acc' kv => add_key (fst kv) acc') r acc)
            recs [].

Definition as_record (v : value) : result json_object :=
  match v with
  | VObj o => Ok o
  | _ => Raise (Exception "DataFrame: only lists of records are modelled")
  end.

Definition record_row (cols : list string) (r : json_object) : list value :=
  List.map (fun c => default VNull (assoc c r)) cols.

(** [pd.DataFrame(data)] for the decoded JSON the services return: a list
    of records becomes one row per record, a key missing from a record a
    missing cell; [None] is the empty frame. *)
Definition DataFrame (data : value) : result frame :=
  match data with
  | VNull => Ok {| columns := []; rows := [] |}
  | VList l =>
      let? recs := rmap as_record l in
      let cols := keys_union recs in
      Ok {| columns := cols; rows := List.map (record_row cols) recs |}
  | _ => Raise (Exception "DataFrame: only lists of records are modelled")
  end.

(** [df[c]] *)
Definition getcol (df : frame) (c : string) : result (list value) :=
  match index_of c (columns df) with
  | Some i => Ok (List.map (fun r => nth i r VNull) (rows df))
  | None => Raise (KeyError c)
  end.

Fixpoint set_nth (i : nat) (v : value) (row : list value) : list value :=
  match i, row with
  | O, _ :: row' => v :: row'
  | S i', x :: row' => x :: set_nth i' v row'
  | _, [] => []
  end.

Fixpoint zip_with {A B C} (f : A -> B -> C) (l : list A) (l' : list B) : list C :=
  match l, l' with
  | x :: l, y :: l' => f x y :: zip_with f l l'
  | _, _ => []
  end.

(** [df[c] = vals]: overwrite the column, or append it when it is new. *)
Definition setcol (df : frame) (c : string) (vals : list value) : frame :=
  match index_of c (columns df) with
  | Some i =>
      {| columns := columns df;
         rows := zip_with (fun r v => set_nth i v r) (rows df) vals |}
  | None =>
      {| columns := columns df ++ [c];
         rows := zip_with (fun r v => r ++ [v]) (rows df) vals |}
  end.

(** [df[dst] = df[src].apply(f)] *)
Definition assign_apply (df : frame) (dst src : string)
    (f : value -> result value) : result frame :=
  let? vals := getcol df src in
  let? new := rmap f vals in
  Ok (setcol df dst new).

(** [df[names]] *)
Definition select (df : frame) (names : list string) : result frame :=
  let? idx := rmap (fun c => match index_of c (columns df) with
                        | Some i => Ok i
                        | None => Raise (KeyError c)
                        end) names in
  Ok {| columns := names;
        rows := List.map (fun r => List.map (fun i => nth i r VNull) idx) (rows df) |}.

(** [df.rename(columns=mapping)] *)
Definition rename (df : frame) (mapping : list (string * string)) : frame :=
  {| columns := List.map (fun c => default c (assoc c mapping)) (columns df);
     rows := rows df |}.

Fixpoint remove_nth {A} (i : nat) (l : list A) : list A :=
  match i, l with
  | _, [] => []
  | O, _ :: l' => l'
  | S i', x :: l' => x :: remove_nth i' l'
  end.

Definition drop1 (df : frame) (c : string) : result frame :=
  match index_of c (columns df) with
  | Some i => Ok {| columns := remove_nth i (columns df);
                    rows := List.map (remove_nth i) (rows df) |}
  | None => Raise (KeyError c)
  end.

(** [df.drop(columns=names)] *)
Fixpoint drop (df : frame) (names : list string) : result frame :=
  match names with
  | [] => Ok df
  | c :: names' => let? df' := drop1 df c in drop df' names'
  end.

(** [df.columns = names] *)
Definition set_columns (df : frame) (names : list string) : result frame :=
  if Nat.eqb (List.length names) (List.length (columns df))
  then Ok {| columns := names; rows := rows df |}
  else Raise ValueError.

(** [v in l] as [Series.isin] decides it. *)
Definition isin (v : value) (l : list value) : bool :=
  existsb (value_eqb v) l.

(** [df[~df[c].isin(l)]] *)
Definition drop_isin (df : frame) (c : string) (l : list value) : result frame :=
  match index_of c (columns df) with
  | Some i => Ok {| columns := columns df;
                    rows := List.filter (fun r => negb (isin (nth i r VNull) l))
                                        (rows df) |}
  | None => Raise (KeyError c)
  end.

(** [Series.unique().tolist()]: first occurrences, in order. *)
Fixpoint unique_acc (seen l : list value) : list value :=
  match l with
  | [] => []
  | v :: l' =>
      if isin v seen then unique_acc seen l'
      else v :: unique_acc (v :: seen) l'
  end.

Definition unique (l : list value) : list value := unique_acc [] l.

(** [list(set(l))].  Python leaves the iteration order of a set open; the
    model lists first occurrences. *)
Definition list_set (l : list value) : result (list value) :=
  if forallb hashable l then Ok (unique l) else Raise TypeError.

(** *** merge *)

Inductive how : Type := Left | Inner.

Definition keys_eqb (k k' : list value) : bool :=
  Nat.eqb (List.length k) (List.length k') &&
  forallb (fun p => value_eqb (fst p) (snd p)) (combine k k').

Definition pick (idx : list nat) (row : list value) : list value :=
  List.map (fun i => nth i row VNull) idx.

(** The right key columns that carry the same label as the left key they
    are matched with: the merged frame keeps one column for them. *)
Fixpoint shared_keys (left_on right_on : list string) : list string :=
  match left_on, right_on with
  | l :: ls, r :: rs =>
      if String.eqb l r then r :: shared_keys ls rs else shared_keys ls rs
  | _, _ => []
  end.

Definition mem_str (c : string) (l : list string) : bool :=
  existsb (String.eqb c) l.

(** Keep the cells of [xs] whose label is not in [dropped]. *)
Fixpoint strip {A} (cols dropped : list string) (xs : list A) : list A :=
  match cols, xs with
  | c :: cols', x :: xs' =>
      if mem_str c dropped then strip cols' dropped xs'
      else x :: strip cols' dropped xs'
  | _, _ => []
  end.

Fixpoint has_dup (l : list string) : bool :=
  match l with
  | [] => false
  | c :: l' => mem_str c l' || has_dup l'
  end.

Definition matches (lidx ridx : list nat) (right_rows : list (list value))
    (l : list value) : list (list value) :=
  List.filter (fun r => keys_eqb (pick lidx l) (pick ridx r)) right_rows.

Definition merge_row (h : how) (lidx ridx : list nat)
    (rcols dropped : list string) (right_rows : list (list value))
    (l : list value) : list (list value) :=
  match matches lidx ridx right_rows l, h with
  | [], Left => [l ++ List.map (fun _ => VNull) (strip rcols dropped rcols)]
  | ms, _ => List.map (fun r => l ++ strip rcols dropped r) ms
  end.

Definition key_index (df : frame) (c : string) : result nat :=
  match index_of c (columns df) with
  | Some i => Ok i
  | None => Raise (KeyError c)
  end.

(** [left.merge(right, how=h, left_on=.., right_on=.., suffixes=('', sfx))].
    Rows come in the order of the left frame.  A right column whose label
    is also a left label gets the suffix; a right key with the label of its
    left key is not repeated. *)
Definition merge (h : how) (left right : frame) (left_on right_on : list string)
    (sfx : string) : result frame :=
  let? lidx := rmap (key_index left) left_on in
  let? ridx := rmap (key_index right) right_on in
  if negb (Nat.eqb (List.length left_on) (List.length right_on))
  then Raise ValueError
  else
    let dropped := shared_keys left_on right_on in
    let rkeep := strip (columns right) dropped (columns right) in
    let rlabels :=
      List.map (fun c => if mem_str c (columns left) then c +:+ sfx else c) rkeep in
    if has_dup rlabels && negb (has_dup rkeep)
    then Raise (Exception "MergeError")
    else if negb (forallb (fun l => forallb hashable (pick lidx l)) (rows left))
         || negb (forallb (fun r => forallb hashable (pick ridx r)) (rows right))
    then Raise TypeError
    else
      Ok {| columns := columns left ++ rlabels;
            rows := flat_map (merge_row h lidx ridx (columns right) dropped
                                        (rows right))
                             (rows left) |}.

(** *** sort_values *)

(** Ascending order of the cells of one sort column, missing values last. *)
Definition cell_leb (a b : value) : bool :=
  match a, b with
  | _, VNull => true
  | VNull, _ => false
  | VStr x, VStr y => String.leb x y
  | VNum x, VNum y => Qle_bool x y
  | _, _ => true
  end.

(** Lexicographic order of two sort keys. *)
Fixpoint key_leb (k k' : list value) : bool :=
  match k, k' with
  | a :: k1, b :: k1' =>
      if negb (cell_leb b a) then true
      else if negb (cell_leb a b) then false
      else key_leb k1 k1'
  | _, _ => true
  end.

Fixpoint insert_by (idx : list nat) (r : list value) (sorted : list (list value))
    : list (list value) :=
  match sorted with
  | [] => [r]
  | x :: sorted' =>
      if key_leb (pick idx r) (pick idx x) then r :: x :: sorted'
      else x :: insert_by idx r sorted'
  end.

Definition sort_rows (idx : list nat) (l : list (list value)) : list (list value) :=
  fold_right (insert_by idx) [] l.

Definition all_str (l : list value) : bool :=
  forallb (fun v => match v with VStr _ | VNull => true | _ => false end) l.

Definition all_num (l : list value) : bool :=
  forallb (fun v => match v with VNum _ | VNull => true | _ => false end) l.

(** A column can be ordered when its cells are all strings or all numbers
    (missing cells aside); Python refuses to compare across the two. *)
Definition sortable (df : frame) (i : nat) : bool :=
  let c := List.map (fun r => nth i r VNull) (rows df) in
  all_str c || all_num c.

(** [df.sort_values(by=by).reset_index(drop=True)]: ascending, stable,
    missing values last. *)
Definition sort_values (df : frame) (by_ : list string) : result frame :=
  let? idx := rmap (key_index df) by_ in
  if forallb (sortable df) idx
  then Ok {| columns := columns df; rows := sort_rows idx (rows df) |}
  else Raise TypeError.

(** *** Cell conversions *)

(** [Series.replace(olds, new)] on one cell. *)
Definition replace_cell (olds : list value) (new v : value) : value :=
  if isin v olds then new else v.

Definition map_col (df : frame) (c : string) (f : value -> result value)
    : result frame :=
  assign_apply df c c f.

(** [df.fillna('')] *)
Definition fillna_empty (df : frame) : frame :=
  {| columns := columns df;
     rows := List.map (List.map (fun v => if is_null v then VStr "" else v)) (rows df) |}.

(** ** The helpers [extract] and [extract_fields] *)

(** Modelled from the spec: the module-level helper [extract] is not part
    of the class source.  "returns obj[fieldName] if obj is present
    (non-null), else returns a null/empty marker.  Never raises." *)
Definition extract (obj : value) (fieldName : string) : value :=
  match obj with
  | VObj o => default VNull (assoc fieldName o)
  | _ => VNull
  end.

Definition project (fieldNames : list string) (item : value) : result value :=
  match item with
  | VObj o => Ok (VObj (List.map (fun f => (f, default VNull (assoc f o))) fieldNames))
  | _ => Raise TypeError
  end.

(** Modelled from the spec: the module-level helper [extract_fields] is not
    part of the class source.  "for a nullable list of nested objects,
    returns a same-order list of objects containing only the named fields;
    returns an empty list if the input is null or empty." *)
Definition extract_fields (x : value) (fieldNames : list string) : result value :=
  match x with
  | VNull => Ok (VList [])
  | VList l => let? l' := rmap (project fieldNames) l in Ok (VList l')
  | _ => Raise TypeError
  end.

(** ** The class *)

(** What the class runs on, beyond the source: the two web services, the
    three conversions of Python and pandas the methods call on strings, and
    the multiplication of floats. *)
Record runtime : Type := {
  (** the services, as one deterministic function of the requests made so
      far and the request at hand *)
  server : trace -> request -> response;
  (** [int(s)] on a string; [None] when Python raises [ValueError] *)
  py_int_str : string -> option Z;
  (** the number a string denotes for [pd.to_numeric] and [float]; [None]
      when it does not parse *)
  str_to_float : string -> option Q;
  (** [str(v)] on a value that is not a string *)
  py_str : value -> string;
  (** [x * y] on a float64 column: the product rounded to the nearest
      double, which is the exact product where that is a double *)
  float_mul : Q -> Q -> Q
}.

Section Methods.

Variable rt : runtime.

(** [int(v)] *)
Definition py_int (v : value) : result Z :=
  match v with
  | VNum q => Ok (Qtrunc q)
  | VBool b => Ok (if b then 1 else 0)
  | VStr s => match py_int_str rt s with
              | Some z => Ok z
              | None => Raise ValueError
              end
  | _ => Raise TypeError
  end.

(** One cell of [Series.astype(np.int64)]. *)
Definition astype_int64 (v : value) : result value :=
  let? z := py_int v in Ok (VInt z).

(** One cell of [Series.astype("string")]. *)
Definition astype_string (v : value) : result value :=
  match v with
  | VNull => Ok VNull
  | VStr s => Ok (VStr s)
  | _ => Ok (VStr (py_str rt v))
  end.

(** One cell of [Series.astype("float")]. *)
Definition astype_float (v : value) : result value :=
  match v with
  | VNull => Ok VNull
  | VNum q => Ok (VNum q)
  | VBool b => Ok (VInt (if b then 1 else 0))
  | VStr s => match str_to_float rt s with
              | Some q => Ok (VNum q)
              | None => Raise ValueError
              end
  | _ => Raise TypeError
  end.

(** One cell of [pd.to_numeric(series, errors='coerce')]: what does not
    parse becomes NaN. *)
Definition to_numeric_coerce (v : value) : result value :=
  match v with
  | VNull => Ok VNull
  | VNum q => Ok (VNum q)
  | VBool b => Ok (VInt (if b then 1 else 0))
  | VStr s => match str_to_float rt s with
              | Some q => Ok (VNum q)
              | None => Ok VNull
              end
  | _ => Raise TypeError
  end.

(** [requests.get] / [requests.post]: the request joins the trace. *)
Definition send (r : request) : M response :=
  fun t => (Ok (server rt t r), t ++ [r]).

Definition fetch_scheduler_graphql (self : TilliT) (payload : value) : M value :=
  let url := _baseURLSchedulerGraphQL self in
  let* response := send {| req_method := POST; req_url := url;
                           req_headers := _headers self;
                           req_json := Some payload |} in
  let* _ := lift (raise_for_status response) in
  lift (response_json response).

Definition paging : string := "page=0&size=100000&sort=id,asc".

Definition with_paging (url : string) : string :=
  url +:+ (if contains_char "?"%char url then "&" else "?") +:+ paging.

Definition fetch_scheduler (self : TilliT) (endpoint : string) : M value :=
  let url := _baseURLScheduler self +:+ endpoint in
  let url := with_paging url in
  let* response := send {| req_method := GET; req_url := url;
                           req_headers := _headers self; req_json := None |} in
  let* _ := lift (raise_for_status response) in
  lift (response_json response).

Definition fetch_DO (self : TilliT) (endpoint : string) : M value :=
  let url := _baseURL self +:+ "/" +:+ endpoint in
  let url := with_paging url in
  let* response := send {| req_method := GET; req_url := url;
                           req_headers := _headers self; req_json := None |} in
  let* _ := lift (raise_for_status response) in
  lift (response_json response).

(** *** Construction *)

Definition dquote : string := String "034"%char EmptyString.

Definition scenario_query (site : string) : value :=
  VObj [("query", VStr (str_replace "SiteCode" site
    ("query Scenarios { scenarios(where: { isLive: true, location: { code: "
     +:+ dquote +:+ "SiteCode" +:+ dquote
     +:+ " } }) { id dataTemplate { id }}}")))].

(** [_set_data_template]: the object with both ids assigned, and the flag
    the method returns. *)
Definition _set_data_template (self : TilliT) : M (TilliT * bool) :=
  let payload := scenario_query (_site self) in
  let* data := fetch_scheduler_graphql self payload in
  let* scenario := lift (let? d := getitem data "data" in
                         let? s := getitem d "scenarios" in
                         getitem0 s) in
  let* data_id := lift (if truthy data
                        then let? dt := getitem scenario "dataTemplate" in
                             let? i := getitem dt "id" in py_int i
                        else Ok 0) in
  let self := set_ids self data_id (_scheduler_scenario_id self) in
  let* scenario_id := lift (if truthy data
                            then let? i := getitem scenario "id" in py_int i
                            else Ok 0) in
  let self := set_ids self (_scheduler_data_id self) scenario_id in
  ret (self, (0 <? _scheduler_data_id self) && (0 <? _scheduler_scenario_id self)).

(** The attributes [__init__] assigns before it resolves the scenario. *)
Definition blank (site tenant authBase64 : string) (isStage : bool) : TilliT :=
  let baseURL := "https://" +:+ tenant +:+ ".tillit"
                 +:+ (if isStage then "-stage" else "") +:+ ".cloud/au/api" in
  {| _site := site; _tenant := tenant; _baseURL := baseURL;
     _baseURLScheduler := baseURL +:+ "/scheduler";
     _baseURLSchedulerGraphQL := baseURL +:+ "/scheduler/graphql";
     _scheduler_data_id := 0; _scheduler_scenario_id := 0;
     _headers := [("Authorization", "Basic " +:+ authBase64);
                  ("Content-Type", "application/json")] |}.

(** [TilliT(site, tenant, authBase64, isStage)]: the constructed object, or
    the exception that leaves the caller without one. *)
Definition __init__ (site tenant authBase64 : string) (isStage : option bool)
    : M TilliT :=
  let self := blank site tenant authBase64 (default false isStage) in
  let* sb := _set_data_template self in
  let self := fst sb in
  if (0 <? _scheduler_data_id self) && (0 <? _scheduler_scenario_id self)
  then ret (set_baseURLScheduler self
              (_baseURLScheduler self +:+ "/" +:+ _site self +:+ "/"
               +:+ str_of_Z (_scheduler_data_id self)))
  else throw (Exception "Failed to get Scheduler Data Template Id or Scenario Id").

(** *** Scheduler REST entities *)

Definition endpoint (name : string) : result string :=
  match _schedulerEndpoints !! name with
  | Some e => Ok e
  | None => Raise (KeyError name)
  end.

Definition fetch_frame (self : TilliT) (name : string) : M frame :=
  let* e := lift (endpoint name) in
  let* data := fetch_scheduler self e in
  lift (DataFrame data).

Definition _scheduler_get_operations (self : TilliT) : M frame :=
  fetch_frame self "operations".

Definition _scheduler_get_routes (self : TilliT) : M frame :=
  fetch_frame self "routes".

Definition _scheduler_get_segments (self : TilliT) : M frame :=
  fetch_frame self "segments".

Definition _scheduler_get_equipments (self : TilliT) : M frame :=
  fetch_frame self "segment_equipments".

Definition _scheduler_get_segment_materials (self : TilliT) : M frame :=
  fetch_frame self "segment_materials".

Definition materials_frame (data : frame) : result frame :=
  let? data := map_col data "materialGroup"
                 (fun x => astype_string (extract x "externalId")) in
  let? data := map_col data "externalId" astype_string in
  let? data := map_col data "description" astype_string in
  let selected_columns := ["externalId"; "description"; "materialGroup"] in
  let? data := select data selected_columns in
  Ok (fillna_empty data).

(** [_scheduler_get_materials()] with [includeProperties] left at its
    default [False], which is how [scheduler_get_bom_setup] calls it. *)
Definition _scheduler_get_materials (self : TilliT) : M frame :=
  let* data := fetch_frame self "material_definitions" in
  lift (materials_frame data).

(** *** Planned orders *)

Definition orders_query : string :=
  "query orders($scenarioId: Int!, $ids: [Int]!) {  getOrdersForScenario(scenarioId: $scenarioId, ids: $ids) {    id    externalId    earliestStartDate    dueDate    priority    notes    status {      status      alias      code    }    orderItems {      id      invalid      invalidReason      allocated      quantity      quantityUnitOfMeasure      operationsDefinitionClass    }    orderProperties {      externalId      value    }  }}".

Definition orders_payload (self : TilliT) : value :=
  VObj [("operationName", VStr "orders");
        ("variables", VObj [("scenarioId", VInt (_scheduler_scenario_id self));
                            ("ids", VList [])]);
        ("query", VStr orders_query)].

(** [f(x[0]) if x else None] *)
Definition first_item (f : value -> result value) (x : value) : result value :=
  if truthy x then let? i := getitem0 x in f i else Ok VNull.

(** [s.split(' - ')[0]] *)
Definition split_dash (v : value) : result value :=
  match v with
  | VStr s => Ok (VStr (split_head " - " s))
  | _ => Raise AttributeError
  end.

(** [pd.notna(x).any()]: only a list gives an array to call [any] on. *)
Definition notna_any (x : value) : result bool :=
  match x with
  | VList l => Ok (existsb (fun v => negb (is_null v)) l)
  | _ => Raise AttributeError
  end.

Definition excluded_statuses : list value :=
  [VStr "COMPLETED"; VStr "SUSPENDED"; VStr "CANCELLED"; VStr "READY";
   VStr "Complete"].

Definition planned_columns : list string :=
  ["id"; "externalId"; "earliestStartDate"; "dueDate"; "notes"; "status";
   "orderItems"; "orderProperties"; "priority"; "orderItemsId";
   "orderedQuantity"; "orderUOM"; "ProductCode"].

(** Lines 284-296 of [_scheduler_get_planned_order]: the derived columns. *)
Definition planned_derive (data : frame) : result frame :=
  let? data := map_col data "status" (fun x => Ok (extract x "status")) in
  let? data := map_col data "orderItems"
                 (fun x => extract_fields x ["id"; "quantity";
                             "quantityUnitOfMeasure"; "operationsDefinitionClass"]) in
  let? items := getcol data "orderItems" in
  let? ids := rmap (first_item (fun i => getitem i "id")) items in
  let? ids := rmap astype_int64 ids in
  let data := setcol data "orderItemsId" ids in
  let? data := assign_apply data "orderedQuantity" "orderItems"
                 (first_item (fun i => getitem i "quantity")) in
  let? data := assign_apply data "orderUOM" "orderItems"
                 (first_item (fun i => getitem i "quantityUnitOfMeasure")) in
  let? data := assign_apply data "ProductCode" "orderItems"
                 (first_item (fun i => let? c := getitem i "operationsDefinitionClass" in
                                       split_dash c)) in
  let? data := map_col data "orderProperties"
                 (fun x => let? b := notna_any x in
                           if b then extract_fields x ["externalId"; "value"]
                           else Ok VNull) in
  let? data := map_col data "priority" priority_get in
  let? data := map_col data "ProductCode" astype_string in
  let? data := map_col data "notes" astype_string in
  map_col data "externalId" astype_string.

(** Lines 300-304: the two optional row filters. *)
Definition planned_filter (excludeCompleted : bool) (excludeItems : list string)
    (data : frame) : result frame :=
  let? data := if excludeCompleted
               then drop_isin data "status" excluded_statuses
               else Ok data in
  if negb (Nat.eqb (List.length excludeItems) 0)
  then drop_isin data "ProductCode" (List.map VStr excludeItems)
  else Ok data.

(** Lines 306-308: the returned projection. *)
Definition planned_project (data : frame) : result frame :=
  let selected_columns := planned_columns in
  let? data := select data selected_columns in
  Ok (rename data [("externalId", "orderNumber")]).

(** The body of [_scheduler_get_planned_order] from [pd.DataFrame(data)] on. *)
Definition planned_frame (excludeCompleted : bool) (excludeItems : list string)
    (data : frame) : result frame :=
  let? data := planned_derive data in
  let? data := planned_filter excludeCompleted excludeItems data in
  planned_project data.

(** [_scheduler_get_planned_order]; both parameters are optional in the
    source ([False] and [[]]). *)
Definition _scheduler_get_planned_order (self : TilliT)
    (excludeCompleted : option bool) (excludeItems : option (list string))
    : M (option frame) :=
  let excludeCompleted := default false excludeCompleted in
  let excludeItems := default [] excludeItems in
  let payload := orders_payload self in
  let* body := fetch_scheduler_graphql self payload in
  let* data := lift (let? d := getitem body "data" in
                     getitem d "getOrdersForScenario") in
  if is_null data then ret None
  else
    let* data := lift (DataFrame data) in
    let* out := lift (planned_frame excludeCompleted excludeItems data) in
    ret (Some out).

(** *** Equipment *)

Definition equipments_query : string :=
  "query equipments($where: FilterEquipmentInput!, $orderBy: [String]) {  equipments(where: $where, orderBy: $orderBy) {    id    externalId    description  }}".

Definition equipments_payload (self : TilliT) : value :=
  VObj [("operationName", VStr "equipments");
        ("variables",
          VObj [("where",
            VObj [("dataTemplate",
              VObj [("id", VInt (_scheduler_data_id self))])])]);
        ("query", VStr equipments_query)].

Definition _scheduler_get_equipment (self : TilliT) : M (option frame) :=
  let payload := equipments_payload self in
  let* body := fetch_scheduler_graphql self payload in
  let* data := lift (let? d := getitem body "data" in getitem d "equipments") in
  if is_null data then ret None
  else
    let* data := lift (DataFrame data) in
    let* out := lift (sort_values data ["externalId"]) in
    ret (Some out).

(** *** Scheduled allocations *)

Definition allocations_query : string :=
  "query getAllocations($scenarioId: Int!, $fromDate: String, $toDate: String) {  getAllocations(scenarioId: $scenarioId, fromDate: $fromDate, toDate: $toDate) {    version    allocations {      id      profileId      start      end      segmentId      orderItemId      quantity      duration      expectedDuration      durationLocked      assignments {        id        resourceId        resourceType        requirementId      }      allocatedPeriods {        start        end      }      changeover {        id        profileId        start        end        segmentId        orderItemId        quantity        duration        expectedDuration        durationLocked        linkedSegmentId        assignments {          id          resourceId          resourceType          requirementId        }        allocatedPeriods {          start          end        }      }    }  }}".

Definition allocations_payload (self : TilliT) : value :=
  VObj [("operationName", VStr "getAllocations");
        ("variables", VObj [("scenarioId", VInt (_scheduler_scenario_id self));
                            ("fromDate", VNull); ("toDate", VNull)]);
        ("query", VStr allocations_query)].

(** [_schedulerStartDateEpoch + timedelta(seconds = int(x)/1000)] *)
Definition epoch_plus_ms (x : value) : result value :=
  let? ms := py_int x in Ok (VTime (ms * 1000)).

(** [[item["resourceId"] for item in x]] *)
Definition resource_ids (x : value) : result value :=
  match x with
  | VList l => let? ids := rmap (fun item => getitem item "resourceId") l in
               Ok (VList ids)
  | VStr EmptyString => Ok (VList [])
  | VObj [] => Ok (VList [])
  | _ => Raise TypeError
  end.

(** [equipment[equipment["id"].isin(x)]["externalId"].tolist()] *)
Definition equipment_codes (equipment : option frame) (x : value) : result value :=
  match equipment with
  | None => Raise TypeError
  | Some eq =>
      let? ids := getcol eq "id" in
      let? codes := getcol eq "externalId" in
      match x with
      | VList l =>
          Ok (VList (List.map snd
                (List.filter (fun p => isin (fst p) l) (combine ids codes))))
      | _ => Raise TypeError
      end
  end.

Definition as_str (v : value) : result string :=
  match v with
  | VStr s => Ok s
  | _ => Raise TypeError
  end.

(** [sep.join(l)] *)
Definition join_values (sep : string) (l : list value) : result string :=
  let? ss := rmap as_str l in Ok (join sep ss).

(** [','.join(x) if x else None] *)
Definition join_codes (x : value) : result value :=
  if truthy x
  then match x with
       | VList l => let? s := join_values "," l in Ok (VStr s)
       | _ => Raise TypeError
       end
  else Ok VNull.

Definition scheduled_columns : list string :=
  ["orderItemId"; "StartDateTime"; "EndDateTime"; "quantity"; "duration";
   "expectedDuration"; "durationLocked"; "Changeover_duration"; "Equipment"].

(** Lines 339-347 of [_scheduler_get_scheduled_order]: the derived columns. *)
Definition scheduled_derive (equipment : option frame) (data : frame)
    : result frame :=
  let? data := assign_apply data "StartDateTime" "start" epoch_plus_ms in
  let? data := assign_apply data "EndDateTime" "end" epoch_plus_ms in
  let? data := assign_apply data "Changeover_duration" "changeover"
                 (fun x => Ok (extract x "duration")) in
  let? data := assign_apply data "resourceIds" "assignments" resource_ids in
  let? data := assign_apply data "Equipment" "resourceIds"
                 (equipment_codes equipment) in
  let? data := map_col data "Equipment" join_codes in
  map_col data "orderItemId" astype_int64.

(** Lines 349-353: the returned projection. *)
Definition scheduled_project (data : frame) : result frame :=
  let selected_columns := scheduled_columns in
  let? data := select data selected_columns in
  Ok (rename data [("quantity", "ScheduledQuantity")]).

(** The body of [_scheduler_get_scheduled_order] after the equipment
    lookup. *)
Definition scheduled_frame (equipment : option frame) (data : frame)
    : result frame :=
  let? data := scheduled_derive equipment data in
  scheduled_project data.

Definition _scheduler_get_scheduled_order (self : TilliT) : M (option frame) :=
  let payload := allocations_payload self in
  let* body := fetch_scheduler_graphql self payload in
  let* data := lift (let? d := getitem body "data" in
                     let? a := getitem d "getAllocations" in
                     getitem a "allocations") in
  if is_null data then ret None
  else
    let* data := lift (DataFrame data) in
    let* equipment := _scheduler_get_equipment self in
    let* out := lift (scheduled_frame equipment data) in
    ret (Some out).

(** *** Completed orders of the execution service *)

Fixpoint range_from (fuel start stop step : nat) : list nat :=
  match fuel with
  | O => []
  | S fuel' =>
      if (start <? stop)%nat
      then start :: range_from fuel' (start + step) stop step
      else []
  end.

(** [range(start, stop, step)] for a positive step. *)
Definition range (start stop step : nat) : list nat :=
  range_from stop start stop step.

(** [[orderNumbers[i:i + 80] for i in range(0, len(orderNumbers), 80)]] *)
Definition batches {A} (orderNumbers : list A) : list (list A) :=
  List.map (fun i => firstn 80 (skipn i orderNumbers))
           (range 0 (List.length orderNumbers) 80).

(** [Series.unique()] hashes the cells. *)
Definition py_unique (l : list value) : result (list value) :=
  if forallb hashable l then Ok (unique l) else Raise TypeError.

Definition completed_endpoint (orderList : string) : string :=
  "core/order-instances?status.equals=COMPLETED&orderNumber.in=" +:+ orderList.

(** The loop of [_do_get_completed_orders]: one request per batch. *)
Fixpoint completed_loop (self : TilliT) (batches : list (list value))
    (orders : list value) : M (list value) :=
  match batches with
  | [] => ret orders
  | batch :: batches' =>
      let* orderList := lift (join_values "," batch) in
      let* response := fetch_DO self (completed_endpoint orderList) in
      let* df := lift (DataFrame response) in
      let* orders :=
        (if has_column df "orderNumber"
         then let* c := lift (getcol df "orderNumber") in
              let* u := lift (py_unique c) in
              ret (orders ++ u)
         else ret orders) in
      completed_loop self batches' orders
  end.

Definition _do_get_completed_orders (self : TilliT) (orderNumbers : list value)
    : M (list value) :=
  let orders := [] in
  let* orders := completed_loop self (batches orderNumbers) orders in
  lift (list_set orders).

(** *** The order view *)

(** [plannedOrders.merge(scheduledOrder, how="inner", ...)] *)
Definition merge_orders (plannedOrders scheduledOrder : option frame)
    : result frame :=
  match plannedOrders with
  | None => Raise AttributeError
  | Some planned =>
      match scheduledOrder with
      | None => Raise TypeError
      | Some scheduled =>
          merge Inner planned scheduled ["orderItemsId"] ["orderItemId"]
                "_scheduled"
      end
  end.

(** [df.loc[df[c].isin(l), target] = v] *)
Definition loc_set_isin (df : frame) (c : string) (l : list value)
    (target : string) (v : value) : result frame :=
  let? keys := getcol df c in
  let cur := match getcol df target with
             | Ok vals => vals
             | Raise _ => List.map (fun _ => VNull) (rows df)
             end in
  Ok (setcol df target
        (zip_with (fun k old => if isin k l then v else old) keys cur)).

Definition order_view_columns : list string :=
  ["Id"; "OrderNumber"; "EarliestStartDate"; "DueDate"; "Notes"; "Status";
   "OrderItems"; "OrderProperties"; "Priority"; "OrderedQuantity"; "OrderUOM";
   "ProductCode"; "StartDateTime"; "EndDateTime"; "ScheduledQuantity";
   "Duration_Minutes"; "ExpectedDuration_Minutes"; "DurationLocked";
   "ChangeoverDuration"; "Equipment"].

(** The status overlay of [scheduler_get_orders]. *)
Definition overlay (doOrders : list value) (merged_df : frame) : result frame :=
  loc_set_isin merged_df "orderNumber" doOrders "status" (VStr "COMPLETED").

(** What [scheduler_get_orders] does after the overlay. *)
Definition finish_orders (merged_df : frame) : result frame :=
  let? merged_df := drop merged_df ["orderItemId"; "orderItemsId"] in
  set_columns merged_df order_view_columns.

(** [scheduler_get_orders]; [excludeCompleted] defaults to [True] and
    [excludeItems] to [[]]. *)
Definition scheduler_get_orders (self : TilliT)
    (excludeCompleted : option bool) (excludeItems : option (list string))
    : M frame :=
  let excludeCompleted := default true excludeCompleted in
  let excludeItems := default [] excludeItems in
  let* plannedOrders :=
    _scheduler_get_planned_order self (Some excludeCompleted) (Some excludeItems) in
  let* scheduledOrder := _scheduler_get_scheduled_order self in
  let* merged_df := lift (merge_orders plannedOrders scheduledOrder) in
  let* orderNumbers := lift (let? c := getcol merged_df "orderNumber" in
                             py_unique c) in
  let* doOrders := _do_get_completed_orders self orderNumbers in
  let* merged_df := lift (overlay doOrders merged_df) in
  lift (finish_orders merged_df).

(** *** The BOM setup view *)

Definition key3 : list string := ["operationCode"; "routeCode"; "segmentCode"].

Record join_step : Type := {
  step_right : frame;
  step_left_on : list string;
  step_right_on : list string;
  step_suffix : string
}.

(** The five right-hand sides of the merge chain of [scheduler_get_bom_setup],
    each with its keys and suffix. *)
Definition bom_steps (routes_df materials_df segments_df equipments_df
    segment_materials_df : frame) : list join_step :=
  [{| step_right := routes_df; step_left_on := ["operationCode"];
      step_right_on := ["operationCode"]; step_suffix := "_route" |};
   {| step_right := materials_df; step_left_on := ["operationCode"];
      step_right_on := ["externalId"]; step_suffix := "_material" |};
   {| step_right := segments_df;
      step_left_on := ["operationCode"; "routeCode"];
      step_right_on := ["operationCode"; "routeCode"];
      step_suffix := "_segments" |};
   {| step_right := equipments_df; step_left_on := key3;
      step_right_on := key3; step_suffix := "_equipment" |};
   {| step_right := segment_materials_df; step_left_on := key3;
      step_right_on := key3; step_suffix := "_segmentMaterial" |}].

Definition merge_step (left : frame) (step : join_step) : result frame :=
  merge Left left (step_right step) (step_left_on step) (step_right_on step)
        (step_suffix step).

(** [a.merge(b, how="left", ...).merge(c, how="left", ...)...] *)
Fixpoint merge_chain (left : frame) (steps : list join_step) : result frame :=
  match steps with
  | [] => Ok left
  | step :: steps' =>
      let? m := merge_step left step in merge_chain m steps'
  end.

Definition null_tokens : list value := [VStr "NaN"; VStr "null"; VStr ""; VNull].

(** [pd.to_numeric(s.replace(["NaN", "null", "", np.nan], 0), errors='coerce')]
    on one cell. *)
Definition numeric_cell (v : value) : result value :=
  to_numeric_coerce (replace_cell null_tokens (VInt 0) v).

(** [x * k] on one cell of a numeric column. *)
Definition mul_cell (k : Q) (v : value) : result value :=
  match v with
  | VNull => Ok VNull
  | VNum q => Ok (VNum (float_mul rt q k))
  | VBool b => Ok (VNum (float_mul rt (if b then 1 else 0) k))
  | _ => Raise TypeError
  end.

(** Lines 417-424: the derived columns. *)
Definition bom_derive (merged_df : frame) : result frame :=
  let? merged_df := map_col merged_df "route"
                      (fun x => Ok (extract x "routeCode")) in
  let? merged_df := assign_apply merged_df "equipmentClassId" "equipmentClass"
                      (fun x => Ok (extract x "externalId")) in
  let? merged_df := map_col merged_df "equipmentClass"
                      (fun x => Ok (replace_cell
                                      [VStr "NaN"; VStr "null"; VStr ""; VNull; VNull]
                                      (VStr "") (extract x "description"))) in
  let? merged_df := assign_apply merged_df "materialId" "materialDefinition"
                      (fun x => Ok (extract x "externalId")) in
  let? merged_df := assign_apply merged_df "material" "materialDefinition"
                      (fun x => Ok (extract x "description")) in
  let? merged_df := map_col merged_df "fixedDuration" numeric_cell in
  let? merged_df := map_col merged_df "rate" numeric_cell in
  assign_apply merged_df "rateHour" "rate"
    (fun x => let? y := mul_cell 60 x in mul_cell 60 y).

Inductive dtype : Type := DString | DFloat.

Definition astype_cell (d : dtype) : value -> result value :=
  match d with
  | DString => astype_string
  | DFloat => astype_float
  end.

Definition bom_dtypes : list (string * dtype) :=
  [("operationCode", DString); ("externalId", DString);
   ("description", DString); ("materialGroup", DString);
   ("segmentCode", DString); ("route", DString); ("quantity", DFloat);
   ("quantity_segmentMaterial", DFloat); ("quantityUnitOfMeasure", DString);
   ("materialUse", DString); ("equipmentClass", DString);
   ("equipmentClassId", DString); ("materialId", DString);
   ("material", DString); ("fixedDuration", DFloat); ("rate", DFloat);
   ("rateHour", DFloat)].

(** [df.astype({column: dtype, ...})] *)
Fixpoint astype (df : frame) (dtypes : list (string * dtype)) : result frame :=
  match dtypes with
  | [] => Ok df
  | (c, d) :: dtypes' =>
      let? df' := map_col df c (astype_cell d) in astype df' dtypes'
  end.

Definition bom_selected_columns : list string :=
  ["quantity"; "operationCode"; "externalId"; "description"; "materialGroup";
   "segmentCode"; "route"; "equipmentClassId";
   "equipmentClass"; "materialId"; "material"; "quantity_segmentMaterial";
   "quantityUnitOfMeasure"; "materialUse"; "fixedDuration"; "rate"; "rateHour"].

Definition bom_labels : list (string * string) :=
  [("operationCode", "Operation Code");
   ("externalId", "Operation External ID");
   ("description", "Operation Description");
   ("materialGroup", "Operation Material Group");
   ("segmentCode", "Segment");
   ("route", "Route");
   ("quantity", "Quantity");
   ("quantity_segmentMaterial", "Material Quantity");
   ("quantityUnitOfMeasure", "Material Unit of Measure");
   ("materialUse", "Material Use");
   ("equipmentClass", "Equipment Class");
   ("equipmentClassId", "Equipment Class ID");
   ("materialId", "Material Code");
   ("material", "Material Description");
   ("fixedDuration", "Fixed Duration");
   ("rate", "Rate");
   ("rateHour", "Rate per Hour")].

Definition bom_sort_key : list string :=
  ["Operation Code"; "Segment"; "Route"; "Material Code"].

(** Lines 447-465: projection, labels and order of the view. *)
Definition bom_project (merged_df : frame) : result frame :=
  let? merged_df := select merged_df bom_selected_columns in
  sort_values (rename merged_df bom_labels) bom_sort_key.

(** Everything [scheduler_get_bom_setup] does with the six fetched frames. *)
Definition bom_view (operations_df routes_df materials_df segments_df
    equipments_df segment_materials_df : frame) : result frame :=
  let? merged_df := merge_chain operations_df
                      (bom_steps routes_df materials_df segments_df
                                 equipments_df segment_materials_df) in
  let? merged_df := bom_derive merged_df in
  let? merged_df := astype merged_df bom_dtypes in
  bom_project merged_df.

Definition scheduler_get_bom_setup (self : TilliT) : M frame :=
  let* operations_df := _scheduler_get_operations self in
  let* routes_df := _scheduler_get_routes self in
  let* materials_df := _scheduler_get_materials self in
  let* segments_df := _scheduler_get_segments self in
  let* equipments_df := _scheduler_get_equipments self in
  let* segment_materials_df := _scheduler_get_segment_materials self in
  lift (bom_view operations_df routes_df materials_df segments_df
                 equipments_df segment_materials_df).

End Methods.

(** * Specification vocabulary *)

(** No two entries are equal in the sense of [value_eqb]. *)
Definition distinct (l : list value) : Prop :=
  ForallOrdPairs (fun a b => value_eqb a b = false) l.

Section Vocabulary.

Variable rt : runtime.

(** Every request of [reqs], issued in turn after the trace [t], was answered
    with a status that [raise_for_status] lets through. *)
Fixpoint all_accepted (t : trace) (reqs : list request) : Prop :=
  match reqs with
  | [] => True
  | r :: reqs' =>
      is_error_status (status_code (server rt t r)) = false
      /\ all_accepted (t ++ [r]) reqs'
  end.

(** A method is [clean] when a run that returns has only seen accepted
    answers: an error status anywhere makes it raise. *)
Definition clean {A} (m : M A) : Prop :=
  forall t a t', m t = (Ok a, t') ->
    exists reqs, t' = t ++ reqs /\ all_accepted t reqs.

(** A request followed by [raise_for_status] and [json]. *)
Definition checked (r : request) : M value :=
  let* response := send rt r in
  let* _ := lift (raise_for_status response) in
  lift (response_json response).

Definition graphql_request (self : TilliT) (payload : value) : request :=
  {| req_method := POST; req_url := _baseURLSchedulerGraphQL self;
     req_headers := _headers self; req_json := Some payload |}.

Definition scheduler_request (self : TilliT) (endpoint : string) : request :=
  {| req_method := GET;
     req_url := with_paging (_baseURLScheduler self +:+ endpoint);
     req_headers := _headers self; req_json := None |}.

Definition do_request (self : TilliT) (endpoint : string) : request :=
  {| req_method := GET;
     req_url := with_paging (_baseURL self +:+ "/" +:+ endpoint);
     req_headers := _headers self; req_json := None |}.

(** Scenario resolution for the freshly initialised object [self] yields
    the data-template id [d] and the scenario id [s]. *)
Definition resolves (self : TilliT) (t : trace) (d s : Z) : Prop :=
  exists self' flag t',
    _set_data_template rt self t = (Ok (self', flag), t')
    /\ _scheduler_data_id self' = d
    /\ _scheduler_scenario_id self' = s.

(** The execution service answers every GET without an error status and
    with a list of records whose order numbers can be hashed. *)
Definition do_service_healthy : Prop :=
  forall t r,
    req_method r = GET ->
    is_error_status (status_code (server rt t r)) = false
    /\ exists recs,
         body (server rt t r) = Some (VList (List.map VObj recs))
         /\ Forall (fun o => forall v, assoc "orderNumber" o = Some v ->
                                       hashable v = true) recs.

End Vocabulary.

(** [requests m n]: a run of [m] issues at most [n] requests, and exactly
    [n] when it returns. *)
Definition requests {A} (m : M A) (n : nat) : Prop :=
  forall t,
    (List.length (snd (m t)) <= List.length t + n)%nat
    /\ (forall a, fst (m t) = Ok a ->
          List.length (snd (m t)) = (List.length t + n)%nat).

(** ** The order view *)

(** The header [_scheduler_get_planned_order] returns. *)
Definition planned_view_columns : list string :=
  ["id"; "orderNumber"; "earliestStartDate"; "dueDate"; "notes"; "status";
   "orderItems"; "orderProperties"; "priority"; "orderItemsId";
   "orderedQuantity"; "orderUOM"; "ProductCode"].

(** The header [_scheduler_get_scheduled_order] returns. *)
Definition scheduled_view_columns : list string :=
  ["orderItemId"; "StartDateTime"; "EndDateTime"; "ScheduledQuantity";
   "duration"; "expectedDuration"; "durationLocked"; "Changeover_duration";
   "Equipment"].

(** The allocations whose order-item id is that of the planned order [p]. *)
Definition allocations_of (planned scheduled : frame) (p : list value)
    : list (list value) :=
  List.filter
    (fun s => value_eqb (cell (columns planned) "orderItemsId" p)
                        (cell (columns scheduled) "orderItemId" s))
    (rows scheduled).

(** The rows of the order view that carry the order id [id]. *)
Definition rows_of_order (view : frame) (id : value) : list (list value) :=
  List.filter (fun r => value_eqb (cell (columns view) "Id" r) id) (rows view).

(** The planned order [p] is the only row of its order in [planned]. *)
Definition single_order (planned : frame) (p : list value) : Prop :=
  value_eqb (cell (columns planned) "id" p) (cell (columns planned) "id" p) = true
  /\ exists before after,
       rows planned = before ++ p :: after
       /\ forall q, In q (before ++ after) ->
            value_eqb (cell (columns planned) "id" q)
                      (cell (columns planned) "id" p) = false.

(** ** The BOM joins *)

(** The rows of the right frame of [step] whose key equals that of the left
    row [l]. *)
Definition join_matches (left : frame) (step : join_step) (l : list value)
    : list (list value) :=
  List.filter
    (fun r => keys_eqb
                (List.map (fun c => cell (columns left) c l) (step_left_on step))
                (List.map (fun c => cell (columns (step_right step)) c r)
                          (step_right_on step)))
    (rows (step_right step)).

(** What a left join promises about its output [out]: it has at least as
    many rows as the left frame; every left row is the left part of some
    output row; and a left row without a match is there with nothing but
    missing values in the columns the right frame contributed. *)
Definition left_join_holds (left : frame) (step : join_step) (out : frame)
    : Prop :=
  (List.length (rows left) <= List.length (rows out))%nat
  /\ Forall (fun l => exists tail, In (l ++ tail) (rows out)) (rows left)
  /\ Forall (fun l =>
               join_matches left step l = [] ->
               exists nulls,
                 Forall (fun v => v = VNull) nulls
                 /\ (List.length (columns left) + List.length nulls
                     = List.length (columns out))%nat
                 /\ In (l ++ nulls) (rows out))
            (rows left).

(** [left_join_holds] for every step of a chain that ends in [final]. *)
Fixpoint chain_holds (left : frame) (steps : list join_step) (final : frame)
    : Prop :=
  match steps with
  | [] => final = left
  | step :: steps' =>
      exists out,
        merge_step left step = Ok out
        /\ left_join_holds left step out
        /\ chain_holds out steps' final
  end.

(** Every row has one cell per column. *)
Definition well_formed (df : frame) : Prop :=
  Forall (fun r => List.length r = List.length (columns df)) (rows df).

(** What lines 422-423 make of one cell: "NaN", "null", the empty string
    and a missing value become 0, a number stays, a string becomes the
    number it parses to, and NaN when it does not parse. *)
Definition numeric_spec (rt : runtime) (v : value) : value :=
  match v with
  | VNull => VInt 0
  | VNum q => VNum q
  | VBool b => VInt (if b then 1 else 0)
  | VStr s =>
      if existsb (String.eqb s) ["NaN"; "null"; ""] then VInt 0
      else match str_to_float rt s with
           | Some q => VNum q
           | None => VNull
           end
  | _ => VNull
  end.

(** Line 424 on one cell of the converted [rate] column: the rate times
    60, and that product times 60, each product rounded as the column's
    float64 rounds it; NaN stays NaN. *)
Definition rate_hour_spec (rt : runtime) (rate hour : value) : Prop :=
  match rate with
  | VNum q => hour = VNum (float_mul rt (float_mul rt q 60) 60)
  | _ => hour = VNull
  end.

(** Three cells that one column of a sortable frame may hold together:
    strings or numbers, missing cells aside. *)
Definition same_kind (a b c : value) : Prop :=
  all_str [a; b; c] = true \/ all_num [a; b; c] = true.

(** The sort key of a row of the BOM view. *)
Definition bom_key (view : frame) (r : list value) : list value :=
  List.map (fun c => cell (columns view) c r)
           ["Operation Code"; "Segment"; "Route"; "Material Code"].

(** The header of the BOM view. *)
Definition bom_view_columns : list string :=
  ["Quantity"; "Operation Code"; "Operation External ID";
   "Operation Description"; "Operation Material Group"; "Segment"; "Route";
   "Equipment Class ID"; "Equipment Class"; "Material Code";
   "Material Description"; "Material Quantity"; "Material Unit of Measure";
   "Material Use"; "Fixed Duration"; "Rate"; "Rate per Hour"].

(** ** A small site

    One tenant with three orders, three allocations, two pieces of equipment
    and a two-operation bill of materials, behind a server that can be told
    to misbehave.  The examples below run the class on it. *)

Module Demo.

Fixpoint digits (s : string) (acc : Z) : option Z :=
  match s with
  | EmptyString => Some acc
  | String c s' =>
      let n := Z.of_nat (nat_of_ascii c) in
      if (48 <=? n) && (n <=? 57) then digits s' (10 * acc + (n - 48))
      else None
  end.

(** Decimal integers, with an optional minus sign. *)
Definition parse_int (s : string) : option Z :=
  match s with
  | EmptyString => None
  | String "-"%char (String c s') => option_map Z.opp (digits (String c s') 0)
  | _ => digits s 0
  end.

Definition parse_float (s : string) : option Q :=
  option_map inject_Z (parse_int s).

(** [n / d] rounded to the nearest integer, ties to the even one. *)
Definition round_div (n d : Z) : Z :=
  let q := n / d in
  let r := n mod d in
  if 2 * r <? d then q
  else if d <? 2 * r then q + 1
  else if Z.even q then q else q + 1.

(** [n / (d * 2 ^ e)] as a numerator and a denominator. *)
Definition scale (n d e : Z) : Z * Z :=
  if 0 <=? e then (n, d * 2 ^ e) else (n * 2 ^ (- e), d).

(** The double nearest to [n / d], for positive [n] and [d]: a mantissa of
    53 bits, rounded to nearest, ties to even.  Overflow and subnormal
    numbers are not modelled. *)
Definition round53_pos (n d : Z) : Q :=
  let e := Z.log2 n - Z.log2 d - 52 in
  let e := if fst (scale n d e) / snd (scale n d e) <? 2 ^ 52 then e - 1 else e in
  let m := round_div (fst (scale n d e)) (snd (scale n d e)) in
  Qred (if 0 <=? e then inject_Z (m * 2 ^ e)
        else Qmake m (Z.to_pos (2 ^ (- e)))).

Definition round53 (q : Q) : Q :=
  match Qnum q with
  | 0 => 0%Q
  | Zpos n => round53_pos (Zpos n) (Zpos (Qden q))
  | Zneg n => Qopp (round53_pos (Zpos n) (Zpos (Qden q)))
  end.

(** The product of two doubles as binary64 computes it. *)
Definition fmul (x y : Q) : Q := round53 (x * y).

(** The double that the literal 0.57 denotes. *)
Definition rate_057 : Q := round53 (57 # 100).

Definition show (v : value) : string :=
  match v with
  | VNum q => str_of_Z (Qfloor q)
  | VBool true => "True"
  | VBool false => "False"
  | _ => "?"
  end.

Definition self : TilliT :=
  {| _site := "S1"; _tenant := "acme";
     _baseURL := "https://acme.tillit.cloud/au/api";
     _baseURLScheduler := "https://acme.tillit.cloud/au/api/scheduler/S1/9";
     _baseURLSchedulerGraphQL :=
       "https://acme.tillit.cloud/au/api/scheduler/graphql";
     _scheduler_data_id := 9; _scheduler_scenario_id := 4;
     _headers := [("Authorization", "Basic QUJD");
                  ("Content-Type", "application/json")] |}.

Definition item (id : Z) (cls : string) : value :=
  VObj [("id", VInt id); ("invalid", VBool false); ("invalidReason", VNull);
        ("allocated", VBool true); ("quantity", VInt 10);
        ("quantityUnitOfMeasure", VStr "kg");
        ("operationsDefinitionClass", VStr cls)].

Definition order (id : Z) (number status : string) (priority itemId : Z)
    : value :=
  VObj [("id", VInt id); ("externalId", VStr number);
        ("earliestStartDate", VStr "2025-01-01");
        ("dueDate", VStr "2025-02-01");
        ("priority", VInt priority); ("notes", VNull);
        ("status", VObj [("status", VStr status); ("alias", VNull);
                         ("code", VStr status)]);
        ("orderItems", VList [item itemId "P1 - widget"]);
        ("orderProperties",
          VList [VObj [("externalId", VStr "line"); ("value", VStr "A")]])].

Definition allocation (id itemId resource : Z) : value :=
  VObj [("id", VInt id); ("profileId", VNull); ("start", VInt 1000);
        ("end", VInt 2000); ("segmentId", VInt 1);
        ("orderItemId", VInt itemId); ("quantity", VInt 5);
        ("duration", VInt 60); ("expectedDuration", VInt 60);
        ("durationLocked", VBool false);
        ("assignments",
          VList [VObj [("id", VInt 1); ("resourceId", VInt resource);
                       ("resourceType", VStr "EQUIPMENT");
                       ("requirementId", VNull)]]);
        ("allocatedPeriods", VList []); ("changeover", VNull)].

Definition equipment (id : Z) (code : string) : value :=
  VObj [("id", VInt id); ("externalId", VStr code);
        ("description", VStr "mixer")].

(** ORD-1 is in progress and has two allocations on its one item; ORD-2 is
    released and not scheduled; ORD-3 is completed on the planning side. *)
Definition orders : value :=
  VList [order 1 "ORD-1" "IN_PROGRESS" 1 11;
         order 2 "ORD-2" "RELEASED" 5 22;
         order 3 "ORD-3" "COMPLETED" 2 33].

Definition allocations : value :=
  VList [allocation 100 11 7; allocation 101 11 8; allocation 102 33 7].

Definition equipments : value :=
  VList [equipment 8 "MIX-B"; equipment 7 "MIX-A"].

Definition scenarios (scenarioId dataId : Z) : value :=
  VList [VObj [("id", VInt scenarioId);
               ("dataTemplate", VObj [("id", VInt dataId)])]].

Definition operations : value :=
  VList [VObj [("operationCode", VStr "OP2"); ("externalId", VStr "OP2");
               ("description", VStr "Pack"); ("quantity", VInt 1)];
         VObj [("operationCode", VStr "OP1"); ("externalId", VStr "OP1");
               ("description", VStr "Mix"); ("quantity", VInt 1)]].

Definition routes : value :=
  VList [VObj [("operationCode", VStr "OP1"); ("routeCode", VStr "R1")]].

Definition material_definitions : value :=
  VList [VObj [("externalId", VStr "OP1"); ("description", VStr "Dough");
               ("materialGroup", VObj [("externalId", VStr "G1")])]].

(** The second segment carries a rate that is not a number. *)
Definition segments : value :=
  VList [VObj [("operationCode", VStr "OP1"); ("routeCode", VStr "R1");
               ("segmentCode", VStr "S2");
               ("route", VObj [("routeCode", VStr "R1")]);
               ("fixedDuration", VStr "30"); ("rate", VStr "abc")];
         VObj [("operationCode", VStr "OP1"); ("routeCode", VStr "R1");
               ("segmentCode", VStr "S1");
               ("route", VObj [("routeCode", VStr "R1")]);
               ("fixedDuration", VStr ""); ("rate", VInt 2)]].

Definition segment_equipments : value :=
  VList [VObj [("operationCode", VStr "OP1"); ("routeCode", VStr "R1");
               ("segmentCode", VStr "S1");
               ("equipmentClass", VObj [("externalId", VStr "EC1");
                                        ("description", VStr "Mixers")])]].

Definition segment_materials : value :=
  VList [VObj [("operationCode", VStr "OP1"); ("routeCode", VStr "R1");
               ("segmentCode", VStr "S1");
               ("materialDefinition", VObj [("externalId", VStr "M1");
                                            ("description", VStr "Flour")]);
               ("quantity", VInt 2); ("quantityUnitOfMeasure", VStr "kg");
               ("materialUse", VStr "Consumed")]].

Definition operation_name (r : request) : string :=
  match req_json r with
  | Some (VObj o) => match assoc "operationName" o with
                     | Some (VStr s) => s
                     | _ => ""
                     end
  | _ => ""
  end.

Definition rest_data (url : string) : value :=
  let hit e := String.eqb url (req_url (scheduler_request self e)) in
  if hit "/operations" then operations
  else if hit "/routes" then routes
  else if hit "/material-definitions" then material_definitions
  else if hit "/segments" then segments
  else if hit "/segment-equipments" then segment_equipments
  else if hit "/segment-materials" then segment_materials
  else VList [VObj [("id", VInt 1); ("orderNumber", VStr "ORD-1")]].

(** The body the services answer a request with; [sc] is the scenario list
    and [nulls] makes every graph query resolve to null. *)
Definition answer (sc : value) (nulls : bool) (r : request) : value :=
  match req_method r with
  | POST =>
      let name := operation_name r in
      if String.eqb name "orders" then
        VObj [("data", VObj [("getOrdersForScenario",
                               if nulls then VNull else orders)])]
      else if String.eqb name "getAllocations" then
        VObj [("data", VObj [("getAllocations",
                 VObj [("version", VInt 1);
                       ("allocations", if nulls then VNull else allocations)])])]
      else if String.eqb name "equipments" then
        VObj [("data", VObj [("equipments",
                               if nulls then VNull else equipments)])]
      else VObj [("data", VObj [("scenarios", sc)])]
  | GET => rest_data (req_url r)
  end.

Definition runtime_of (status : Z) (sc : value) (nulls : bool) : runtime :=
  {| server := fun _ r => {| status_code := status;
                             body := Some (answer sc nulls r) |};
     py_int_str := parse_int;
     str_to_float := parse_float;
     py_str := show;
     float_mul := fmul |}.

(** The site in good health. *)
Definition rt : runtime := runtime_of 200 (scenarios 4 9) false.


(** Graph queries resolve to null. *)
Definition rt_null : runtime := runtime_of 200 (scenarios 4 9) true.

(** The live scenario has no data template yet. *)
Definition rt_unresolved : runtime := runtime_of 200 (scenarios 4 0) false.

Definition records_of (v : value) : list json_object :=
  match v with
  | VList l => List.map (fun x => match x with VObj o => o | _ => [] end) l
  | _ => []
  end.

Definition frame_of (v : value) : frame :=
  match DataFrame v with
  | Ok df => df
  | Raise _ => {| columns := []; rows := [] |}
  end.

Definition materials_df : frame :=
  match materials_frame rt (frame_of material_definitions) with
  | Ok df => df
  | Raise _ => {| columns := []; rows := [] |}
  end.

(** The right-hand sides of the five joins on the demo site. *)
Definition steps : list join_step :=
  bom_steps (frame_of routes) materials_df (frame_of segments)
            (frame_of segment_equipments) (frame_of segment_materials).

(** 161 order numbers: three batches. *)
Definition many_orders : list value :=
  List.map (fun k => VStr ("ORD-" +:+ str_of_Z (Z.of_nat k))) (seq 1 161).

End Demo.

(** ** Further sites

    The demo site with other answers to the three graph queries. *)

Module Cases.

Definition graph_answer (orders allocations equipments : value) (r : request)
    : value :=
  match req_method r with
  | POST =>
      let name := Demo.operation_name r in
      if String.eqb name "orders" then
        VObj [("data", VObj [("getOrdersForScenario", orders)])]
      else if String.eqb name "getAllocations" then
        VObj [("data", VObj [("getAllocations",
                 VObj [("version", VInt 1); ("allocations", allocations)])])]
      else if String.eqb name "equipments" then
        VObj [("data", VObj [("equipments", equipments)])]
      else VObj [("data", VObj [("scenarios", Demo.scenarios 4 9)])]
  | GET => Demo.rest_data (req_url r)
  end.

Definition runtime_with (orders allocations equipments : value) : runtime :=
  {| server := fun _ r =>
       {| status_code := 200;
          body := Some (graph_answer orders allocations equipments r) |};
     py_int_str := Demo.parse_int;
     str_to_float := Demo.parse_float;
     py_str := Demo.show;
     float_mul := Demo.fmul |}.

(** The scenario has no order yet. *)
Definition rt_no_orders : runtime :=
  runtime_with (VList []) Demo.allocations Demo.equipments.

(** Nothing is scheduled yet. *)
Definition rt_no_allocations : runtime :=
  runtime_with Demo.orders (VList []) Demo.equipments.

(** The data template has no equipment. *)
Definition rt_no_equipment : runtime :=
  runtime_with Demo.orders Demo.allocations (VList []).

(** The allocations resolve to null, the orders do not. *)
Definition rt_null_allocations : runtime :=
  runtime_with Demo.orders VNull Demo.equipments.

(** No scenario of the site is live. *)
Definition rt_no_scenario : runtime := Demo.runtime_of 200 (VList []) false.

(** The only allocation is for an order item no planned order has. *)
Definition rt_unscheduled : runtime :=
  runtime_with Demo.orders (VList [Demo.allocation 100 99 7]) Demo.equipments.

(** ORD-1 and ORD-2 are both scheduled, with one allocation each. *)
Definition rt_both_scheduled : runtime :=
  runtime_with Demo.orders
    (VList [Demo.allocation 100 11 7; Demo.allocation 103 22 8])
    Demo.equipments.

(** The execution service, asked about ORD-9. *)
Definition asked : list value := [VStr "ORD-9"].

End Cases.

(** ** Answers and request sequences *)

(** The service answers the request [q], made after the trace [t], with the
    JSON body [b] and a status that is no error. *)
Definition answers (rt : runtime) (t : trace) (q : request) (b : value) : Prop :=
  is_error_status (status_code (server rt t q)) = false
  /\ body (server rt t q) = Some b.

(** [issues m reqs]: a run of [m] makes the requests [reqs], in this order
    and no others; it gets through all of them when it returns, and stops
    after one of them when it raises. *)
Definition issues {A} (m : M A) (reqs : list request) : Prop :=
  forall t,
    (exists n, snd (m t) = t ++ firstn n reqs)
    /\ (forall a, fst (m t) = Ok a -> snd (m t) = t ++ reqs).

(** The six entity requests of [scheduler_get_bom_setup]. *)
Definition bom_requests (self : TilliT) : list request :=
  List.map (scheduler_request self)
    ["/operations"; "/routes"; "/material-definitions"; "/segments";
     "/segment-equipments"; "/segment-materials"].

(** The three graph queries of [scheduler_get_orders]. *)
Definition order_queries (self : TilliT) : list request :=
  [graphql_request self (orders_payload self);
   graphql_request self (allocations_payload self);
   graphql_request self (equipments_payload self)].

(** [merged_df] is the merged table of the call of
    [scheduler_get_bom_setup] that starts at the trace [t]: the call
    fetches the six frames one after the other, [operations_df] first and
    the last one leaving the trace at [t'], and [merged_df] is what the
    five left joins make of them. *)
Definition bom_merged (rt : runtime) (self : TilliT) (t t' : trace)
    (operations_df merged_df : frame) : Prop :=
  exists routes_df materials_df segments_df equipments_df segment_materials_df
         t1 t2 t3 t4 t5,
    _scheduler_get_operations rt self t = (Ok operations_df, t1)
    /\ _scheduler_get_routes rt self t1 = (Ok routes_df, t2)
    /\ _scheduler_get_materials rt self t2 = (Ok materials_df, t3)
    /\ _scheduler_get_segments rt self t3 = (Ok segments_df, t4)
    /\ _scheduler_get_equipments rt self t4 = (Ok equipments_df, t5)
    /\ _scheduler_get_segment_materials rt self t5
       = (Ok segment_materials_df, t')
    /\ merge_chain operations_df
         (bom_steps routes_df materials_df segments_df equipments_df
                    segment_materials_df) = Ok merged_df.

(** The row of the BOM view that the row [r] of the typed table gives. *)
Definition bom_view_row (typed : frame) (r : list value) : list value :=
  List.map (fun c => cell (columns typed) c r) bom_selected_columns.

(** ** Columns and their contents *)

(** Column [c] exists and all its cells satisfy [P]. *)
Definition column_all (df : frame) (c : string) (P : value -> Prop) : Prop :=
  has_column df c = true
  /\ Forall (fun r => P (cell (columns df) c r)) (rows df).

Definition is_int (v : value) : Prop := exists z, v = VInt z.

(** A string or a missing value: a cell of a "string" column. *)
Definition is_text (v : value) : Prop := v = VNull \/ exists s, v = VStr s.

(** A number or NaN: a cell of a "float" column. *)
Definition is_number (v : value) : Prop := v = VNull \/ exists q, v = VNum q.

Definition is_time (v : value) : Prop := exists us, v = VTime us.

Definition is_priority_label (v : value) : Prop :=
  v = VStr "High" \/ v = VStr "Medium" \/ v = VStr "Low" \/ v = VStr "".

(** What a cell of a column converted to the dtype [d] is. *)
Definition kind_of (d : dtype) : value -> Prop :=
  match d with
  | DString => is_text
  | DFloat => is_number
  end.

(** The value [v] is an order number the execution service reported to
    the call that took the trace from [t] to [t']: among the requests the
    call added there is a completed-orders lookup whose answer, read as a
    frame, has [v] in its [orderNumber] column. *)
Definition reported (rt : runtime) (self : TilliT) (t t' : trace) (v : value)
    : Prop :=
  exists mid post orderList b df numbers,
    t' = (t ++ mid) ++ do_request self (completed_endpoint orderList) :: post
    /\ answers rt (t ++ mid) (do_request self (completed_endpoint orderList)) b
    /\ DataFrame b = Ok df
    /\ getcol df "orderNumber" = Ok numbers
    /\ In v numbers.

(** * Properties *)

(** ** The model at work *)

Example paging_first_parameter :
  with_paging "https://acme.tillit.cloud/au/api/scheduler/S1/9/routes"
  = "https://acme.tillit.cloud/au/api/scheduler/S1/9/routes?page=0&size=100000&sort=id,asc".
Proof. reflexivity. Qed.

Example paging_further_parameter :
  with_paging "https://acme.tillit.cloud/au/api/core/order-instances?status.equals=COMPLETED"
  = "https://acme.tillit.cloud/au/api/core/order-instances?status.equals=COMPLETED&page=0&size=100000&sort=id,asc".
Proof. reflexivity. Qed.

Example product_code_prefix :
  split_dash (VStr "P1 - widget - large") = Ok (VStr "P1")
  /\ split_dash (VStr "P1-widget") = Ok (VStr "P1-widget").
Proof. split; reflexivity. Qed.

Example batch_sizes :
  List.map (@List.length nat) (batches (seq 0 161)) = [80; 80; 1]%nat
  /\ batches (@nil nat) = [].
Proof. split; reflexivity. Qed.

Example extract_null_safe :
  extract VNull "status" = VNull
  /\ extract (VObj [("status", VStr "READY")]) "status" = VStr "READY".
Proof. split; reflexivity. Qed.

Example unique_keeps_first :
  unique [VStr "A"; VStr "B"; VStr "A"; VNull; VNull] = [VStr "A"; VStr "B"; VNull].
Proof. reflexivity. Qed.

Example key_order :
  key_leb [VStr "OP1"; VStr "S2"] [VStr "OP2"; VStr "S1"] = true
  /\ key_leb [VStr "OP1"; VStr "S2"] [VStr "OP1"; VStr "S1"] = false
  /\ key_leb [VStr "OP1"; VNull] [VStr "OP1"; VStr "S1"] = false.
Proof. repeat split; reflexivity. Qed.

(** ** Running the monad *)

Lemma bind_ok {A B} (m : M A) (k : A -> M B) t b t' :
  bind m k t = (Ok b, t') ->
  exists a t1, m t = (Ok a, t1) /\ k a t1 = (Ok b, t').
Proof.
  unfold bind. destruct (m t) as [[a|e] t1]; intros H.
  - exists a, t1. split; [reflexivity | exact H].
  - discriminate H.
Qed.

Lemma bind_step {A B} (m : M A) (k : A -> M B) t a t1 :
  m t = (Ok a, t1) -> bind m k t = k a t1.
Proof. intros H. unfold bind. rewrite H. reflexivity. Qed.

Lemma bind_raise {A B} (m : M A) (k : A -> M B) t e t1 :
  m t = (Raise e, t1) -> bind m k t = (Raise e, t1).
Proof. intros H. unfold bind. rewrite H. reflexivity. Qed.

Lemma lift_ok {A} (r : result A) t a t' :
  lift r t = (Ok a, t') -> r = Ok a /\ t' = t.
Proof. unfold lift. intros H. inversion H. split; reflexivity. Qed.

Lemma ret_ok {A} (x : A) t a t' :
  ret x t = (Ok a, t') -> a = x /\ t' = t.
Proof. unfold ret. intros H. inversion H. split; reflexivity. Qed.

Lemma rbind_ok {A B} (r : result A) (k : A -> result B) b :
  rbind r k = Ok b -> exists a, r = Ok a /\ k a = Ok b.
Proof.
  destruct r as [a|e]; simpl; intros H; [|discriminate H].
  exists a. split; [reflexivity | exact H].
Qed.

(** Peel one layer of a successful run. *)
Ltac run_inv H :=
  lazymatch type of H with
  | bind _ _ _ = (Ok _, _) =>
      let a := fresh "a" in let t := fresh "t" in
      let H1 := fresh "Hrun" in let H2 := fresh "Hrun" in
      apply bind_ok in H; destruct H as (a & t & H1 & H2)
  | lift _ _ = (Ok _, _) =>
      let H1 := fresh "Hres" in let H2 := fresh "Htr" in
      apply lift_ok in H; destruct H as [H1 H2]
  | ret _ _ = (Ok _, _) =>
      let H1 := fresh "Hval" in let H2 := fresh "Htr" in
      apply ret_ok in H; destruct H as [H1 H2]
  | rbind _ _ = Ok _ =>
      let a := fresh "a" in
      let H1 := fresh "Hres" in let H2 := fresh "Hres" in
      apply rbind_ok in H; destruct H as (a & H1 & H2)
  end.

(** ** Frames *)

Lemma rmap_Forall2 {A B} (f : A -> result B) l l' :
  rmap f l = Ok l' -> Forall2 (fun x y => f x = Ok y) l l'.
Proof.
  revert l'. induction l as [|x l IH]; intros l' H; simpl in H.
  - injection H as <-. constructor.
  - destruct (f x) as [y|e] eqn:Hx; [|discriminate H].
    destruct (rmap f l) as [ys|e]; [|discriminate H].
    injection H as <-. constructor; [exact Hx | apply IH; reflexivity].
Qed.

Lemma select_spec df names out :
  select df names = Ok out ->
  columns out = names
  /\ rows out = List.map (fun r => List.map (fun c => cell (columns df) c r) names)
                         (rows df).
Proof.
  unfold select. intros H. apply rbind_ok in H as (idx & Hidx & H).
  injection H as <-. split; [reflexivity|]. cbn [rows].
  apply List.map_ext. intros r.
  apply rmap_Forall2 in Hidx. induction Hidx as [|c i names idx Hc _ IH].
  - reflexivity.
  - cbn [List.map]. rewrite IH. f_equal. unfold cell.
    destruct (index_of c (columns df)); [|discriminate Hc].
    injection Hc as ->. reflexivity.
Qed.

Lemma drop_isin_spec df c l out :
  drop_isin df c l = Ok out ->
  columns out = columns df
  /\ rows out = List.filter (fun r => negb (isin (cell (columns df) c r) l))
                            (rows df).
Proof.
  unfold drop_isin, cell. destruct (index_of c (columns df)); intros H;
    [|discriminate H].
  injection H as <-. split; reflexivity.
Qed.

Lemma strip_nil {A} cols (xs : list A) :
  List.length xs = List.length cols -> strip cols [] xs = xs.
Proof.
  revert xs. induction cols as [|c cols IH]; intros [|x xs] H;
    try discriminate H; try reflexivity.
  cbn. f_equal. apply IH. injection H as H. exact H.
Qed.

Lemma zip_with_map {A B C} (f : A -> B -> C) (g : A -> B) l :
  zip_with f l (List.map g l) = List.map (fun x => f x (g x)) l.
Proof. induction l as [|x l IH]; [reflexivity|]. cbn. rewrite IH. reflexivity. Qed.

Lemma zip_with_maps {A B C D} (f : B -> C -> D) (g : A -> B) (h : A -> C) l :
  zip_with f (List.map g l) (List.map h l) = List.map (fun x => f (g x) (h x)) l.
Proof. induction l as [|x l IH]; [reflexivity|]. cbn. rewrite IH. reflexivity. Qed.

(** ** Columns of well-formed frames *)

Lemma index_of_lt c cols i :
  index_of c cols = Some i -> (i < List.length cols)%nat.
Proof.
  revert i. induction cols as [|c' cols IH]; intros i H; cbn in H.
  - discriminate H.
  - destruct (String.eqb c c').
    + injection H as <-. cbn. lia.
    + destruct (index_of c cols) as [j|]; [|discriminate H].
      injection H as <-. specialize (IH j eq_refl). cbn. lia.
Qed.

Lemma index_of_app_new c cols :
  index_of c cols = None -> index_of c (cols ++ [c]) = Some (List.length cols).
Proof.
  induction cols as [|c' cols IH]; intros H; cbn in *.
  - rewrite String.eqb_refl. reflexivity.
  - destruct (String.eqb c c'); [discriminate H|].
    destruct (index_of c cols); [discriminate H|].
    rewrite IH by reflexivity. reflexivity.
Qed.

Lemma index_of_app_other c c' cols :
  c' <> c -> index_of c' cols = None -> index_of c' (cols ++ [c]) = None.
Proof.
  intros Hne. induction cols as [|x cols IH]; intros H; cbn in *.
  - destruct (String.eqb_spec c' c); [contradiction | reflexivity].
  - destruct (String.eqb c' x); [discriminate H|].
    destruct (index_of c' cols); [discriminate H|].
    rewrite IH by reflexivity. reflexivity.
Qed.

Lemma index_of_app_old c c' cols i :
  index_of c' cols = Some i -> index_of c' (cols ++ [c]) = Some i.
Proof.
  revert i. induction cols as [|x cols IH]; intros i H; cbn in *.
  - discriminate H.
  - destruct (String.eqb c' x); [exact H|].
    destruct (index_of c' cols) as [j|]; [|discriminate H].
    rewrite (IH j eq_refl). exact H.
Qed.

Lemma index_of_inj c c' cols i :
  index_of c cols = Some i -> index_of c' cols = Some i -> c = c'.
Proof.
  revert i. induction cols as [|x cols IH]; intros i H H'; cbn in *.
  - discriminate H.
  - destruct (String.eqb_spec c x) as [->|Hc], (String.eqb_spec c' x) as [->|Hc'].
    + reflexivity.
    + destruct (index_of c' cols); [|discriminate H'].
      injection H as <-. discriminate H'.
    + destruct (index_of c cols); [|discriminate H].
      injection H' as <-. discriminate H.
    + destruct (index_of c cols) as [j|]; [|discriminate H].
      destruct (index_of c' cols) as [j'|]; [|discriminate H'].
      injection H as <-. injection H' as H'. subst j'.
      apply (IH j); reflexivity.
Qed.

Lemma nth_set_nth_same i v (r : list value) :
  (i < List.length r)%nat -> nth i (set_nth i v r) VNull = v.
Proof.
  revert r. induction i as [|i IH]; intros [|x r] H; cbn in *; try lia.
  - reflexivity.
  - apply IH. lia.
Qed.

Lemma nth_set_nth_other i j v (r : list value) :
  i <> j -> nth j (set_nth i v r) VNull = nth j r VNull.
Proof.
  revert j r. induction i as [|i IH]; intros [|j] [|x r] H; cbn;
    try reflexivity; try contradiction.
  apply IH. congruence.
Qed.

Lemma length_set_nth i v (r : list value) :
  List.length (set_nth i v r) = List.length r.
Proof.
  revert r. induction i as [|i IH]; intros [|x r]; cbn; try reflexivity.
  rewrite IH. reflexivity.
Qed.

Lemma rmap_length {A B} (f : A -> result B) l l' :
  rmap f l = Ok l' -> List.length l' = List.length l.
Proof.
  intros H. apply rmap_Forall2 in H.
  induction H; cbn; [reflexivity | congruence].
Qed.

(** Assigning a column of the right height to a well-formed frame: the
    frame stays well-formed, the column reads back, the others are as they
    were. *)
Lemma setcol_spec df c vals :
  well_formed df ->
  List.length vals = List.length (rows df) ->
  well_formed (setcol df c vals)
  /\ getcol (setcol df c vals) c = Ok vals
  /\ (forall c', c' <> c -> getcol (setcol df c vals) c' = getcol df c')
  /\ List.length (rows (setcol df c vals)) = List.length (rows df).
Proof.
  destruct df as [cols rs]. unfold well_formed, setcol, getcol.
  cbn [columns rows]. intros Hwf Hlen.
  revert vals Hlen. induction Hwf as [|r rs Hr Hwf IH]; intros vals Hlen.
  - destruct vals; [|discriminate Hlen].
    destruct (index_of c cols) as [i|] eqn:Hc; cbn [columns rows zip_with].
    + rewrite Hc. repeat split; try constructor; reflexivity.
    + rewrite (index_of_app_new _ _ Hc). repeat split; try constructor.
      intros c' Hne. destruct (index_of c' cols) as [j|] eqn:Hc'.
      * rewrite (index_of_app_old _ _ _ _ Hc'). reflexivity.
      * rewrite (index_of_app_other _ _ _ Hne Hc'). reflexivity.
  - destruct vals as [|v vals]; [discriminate Hlen|].
    injection Hlen as Hlen. specialize (IH vals Hlen).
    destruct (index_of c cols) as [i|] eqn:Hc; cbn [columns rows zip_with] in *.
    + rewrite Hc in *. destruct IH as (IHwf & IHc & IHo & IHl).
      split; [|split; [|split]].
      * constructor; [rewrite length_set_nth; exact Hr | exact IHwf].
      * cbn [List.map]. injection IHc as IHc. rewrite IHc.
        rewrite nth_set_nth_same
          by (rewrite Hr; eapply index_of_lt; exact Hc).
        reflexivity.
      * intros c' Hne. specialize (IHo c' Hne).
        destruct (index_of c' cols) as [j|] eqn:Hc'; [|reflexivity].
        cbn [List.map]. injection IHo as IHo. rewrite IHo.
        rewrite nth_set_nth_other; [reflexivity|].
        intros ->. apply Hne. eapply index_of_inj; eassumption.
      * cbn. rewrite IHl. reflexivity.
    + rewrite (index_of_app_new _ _ Hc) in *.
      destruct IH as (IHwf & IHc & IHo & IHl).
      split; [|split; [|split]].
      * constructor; [|exact IHwf].
        rewrite !List.length_app, Hr. reflexivity.
      * cbn [List.map]. injection IHc as IHc. rewrite IHc.
        rewrite List.app_nth2 by lia. rewrite Hr, Nat.sub_diag. reflexivity.
      * intros c' Hne. specialize (IHo c' Hne).
        destruct (index_of c' cols) as [j|] eqn:Hc'.
        -- rewrite (index_of_app_old _ _ _ _ Hc') in *.
           cbn [List.map]. injection IHo as IHo. rewrite IHo.
           rewrite List.app_nth1
             by (rewrite Hr; eapply index_of_lt; exact Hc').
           reflexivity.
        -- rewrite (index_of_app_other _ _ _ Hne Hc'). reflexivity.
      * cbn. rewrite IHl. reflexivity.
Qed.

Lemma getcol_length df c vals :
  getcol df c = Ok vals -> List.length vals = List.length (rows df).
Proof.
  unfold getcol. destruct (index_of c (columns df)); intros H;
    [|discriminate H].
  injection H as <-. apply List.length_map.
Qed.

Lemma assign_apply_spec df dst src f out :
  well_formed df ->
  assign_apply df dst src f = Ok out ->
  well_formed out
  /\ (exists vals new,
        getcol df src = Ok vals /\ rmap f vals = Ok new
        /\ getcol out dst = Ok new)
  /\ (forall c, c <> dst -> getcol out c = getcol df c).
Proof.
  intros Hwf H. unfold assign_apply in H.
  apply rbind_ok in H as (vals & Hv & H).
  apply rbind_ok in H as (new & Hn & H). injection H as <-.
  assert (List.length new = List.length (rows df)) as Hlen
    by (rewrite (rmap_length _ _ _ Hn); eapply getcol_length; exact Hv).
  destruct (setcol_spec df dst new Hwf Hlen) as (H1 & H2 & H3 & _).
  split; [exact H1|]. split; [|exact H3].
  exists vals, new. repeat split; assumption.
Qed.

Lemma rmap_total {A B} (f : A -> result B) (g : A -> B) l :
  (forall x, In x l -> f x = Ok (g x)) -> rmap f l = Ok (List.map g l).
Proof.
  induction l as [|x l IH]; intros H; [reflexivity|]. cbn.
  rewrite (H x (or_introl eq_refl)), IH; [reflexivity|].
  intros y Hy. apply H. right. exact Hy.
Qed.

Lemma index_of_nth c cols i :
  index_of c cols = Some i -> nth i cols "" = c.
Proof.
  revert i. induction cols as [|c' cols IH]; intros i H; cbn in H.
  - discriminate H.
  - destruct (String.eqb_spec c c') as [->|Hne].
    + injection H as <-. reflexivity.
    + destruct (index_of c cols) as [j|]; [|discriminate H].
      injection H as <-. cbn. apply IH. reflexivity.
Qed.

Lemma record_row_nth cols o c i :
  index_of c cols = Some i ->
  nth i (record_row cols o) VNull = default VNull (assoc c o).
Proof.
  intros H. unfold record_row.
  rewrite (List.nth_indep _ VNull (default VNull (assoc "" o)))
    by (rewrite List.length_map; eapply index_of_lt; exact H).
  rewrite (List.map_nth (fun c0 => default VNull (assoc c0 o))).
  rewrite (index_of_nth _ _ _ H). reflexivity.
Qed.

(** ** The priority labels *)

(** C9.  The priority mapping is total over the integers: 1 gives "High",
    2 "Medium", 3 "Low" and every other integer the empty string; this
    is also what the planned-order column receives for an integer cell. *)
Theorem priority_map_total (x : Z) :
  priority_label x =
    match x with
    | 1 => "High"
    | 2 => "Medium"
    | 3 => "Low"
    | _ => ""
    end
  /\ priority_get (VInt x) = Ok (VStr (priority_label x)).
Proof.
  split.
  - unfold priority_label, _scheduler_priority_map.
    destruct (decide (x = 1)) as [->|H1]; [reflexivity|].
    destruct (decide (x = 2)) as [->|H2]; [reflexivity|].
    destruct (decide (x = 3)) as [->|H3]; [reflexivity|].
    rewrite !lookup_insert_ne by congruence.
    rewrite lookup_empty. simpl.
    destruct x as [|p|p]; try reflexivity.
    destruct p as [[p|p|]|[p|p|]|]; try reflexivity; congruence.
  - unfold priority_get, VInt. rewrite Qfloor_Z.
    assert (Qeq_bool (inject_Z x) (inject_Z x) = true) as ->
      by (apply Qeq_bool_iff; reflexivity).
    reflexivity.
Qed.

(** ** Batches of order numbers *)

Lemma range_from_seq fuel start stop :
  (stop - start <= fuel)%nat ->
  range_from fuel start stop 80 =
    List.map (fun k => (start + 80 * k)%nat)
             (seq 0 ((stop - start + 79) / 80)).
Proof.
  revert start. induction fuel as [|fuel IH]; intros start Hfuel.
  - assert ((stop - start + 79) / 80 = 0)%nat as ->
      by (apply Nat.div_small; lia).
    reflexivity.
  - cbn [range_from]. destruct (Nat.ltb_spec start stop) as [Hlt|Hge].
    + rewrite IH by lia.
      assert ((stop - start + 79) / 80 = S ((stop - (start + 80) + 79) / 80))%nat
        as ->.
      { destruct (Nat.le_gt_cases (start + 80) stop) as [Hbig|Hsmall].
        - replace (stop - start + 79)%nat
            with (stop - (start + 80) + 79 + 1 * 80)%nat by lia.
          rewrite Nat.div_add by lia. lia.
        - replace (stop - (start + 80) + 79)%nat with 79%nat by lia.
          replace (stop - start + 79)%nat
            with ((stop - start - 1) + 1 * 80)%nat by lia.
          rewrite Nat.div_add by lia.
          rewrite (Nat.div_small (stop - start - 1)) by lia.
          reflexivity. }
      cbn [seq List.map]. f_equal; [lia|].
      rewrite <- seq_shift, List.map_map.
      apply List.map_ext. intros k. lia.
    + assert ((stop - start + 79) / 80 = 0)%nat as ->
        by (apply Nat.div_small; lia).
      reflexivity.
Qed.

Lemma batches_seq {A} (l : list A) :
  batches l =
    List.map (fun k => firstn 80 (skipn (80 * k) l))
             (seq 0 ((List.length l + 79) / 80)).
Proof.
  unfold batches, range. rewrite range_from_seq by lia.
  rewrite List.map_map, Nat.sub_0_r. reflexivity.
Qed.

Lemma batches_count {A} (l : list A) :
  List.length (batches l) = ((List.length l + 79) / 80)%nat.
Proof. rewrite batches_seq, List.length_map, List.length_seq. reflexivity. Qed.

Lemma chunks_concat {A} (m : nat) :
  forall l : list A,
    (List.length l <= 80 * m)%nat ->
    concat (List.map (fun k => firstn 80 (skipn (80 * k) l)) (seq 0 m)) = l.
Proof.
  induction m as [|m IH]; intros l Hlen.
  - destruct l; [reflexivity | simpl in Hlen; lia].
  - cbn [seq List.map concat]. rewrite <- seq_shift, List.map_map.
    rewrite (List.map_ext _ (fun k => firstn 80 (skipn (80 * k) (skipn 80 l)))).
    + rewrite IH by (rewrite List.length_skipn; lia).
      replace (80 * 0)%nat with 0%nat by lia.
      change (skipn 0 l) with l. apply firstn_skipn.
    + intros k. rewrite List.skipn_skipn. f_equal. f_equal. lia.
Qed.

Lemma batches_concat {A} (l : list A) : concat (batches l) = l.
Proof.
  rewrite batches_seq. apply chunks_concat.
  pose proof (Nat.div_mod_eq (List.length l + 79) 80).
  pose proof (Nat.mod_upper_bound (List.length l + 79) 80). lia.
Qed.

Lemma batches_bounded {A} (l : list A) :
  Forall (fun b => (List.length b <= 80)%nat) (batches l).
Proof.
  rewrite batches_seq. apply List.Forall_forall. intros b Hb.
  apply List.in_map_iff in Hb. destruct Hb as (k & <- & _).
  apply List.firstn_le_length.
Qed.

(** ** Distinct values *)

Lemma value_eqb_sym a b : value_eqb a b = value_eqb b a.
Proof.
  destruct a, b; simpl; try reflexivity.
  - destruct b, b0; reflexivity.
  - apply Qeq_bool_comm.
  - apply String.eqb_sym.
  - apply Z.eqb_sym.
Qed.

Lemma unique_acc_spec seen l :
  Forall (fun v => isin v seen = false) (unique_acc seen l)
  /\ distinct (unique_acc seen l).
Proof.
  revert seen. induction l as [|v l IH]; intros seen; simpl.
  - split; constructor.
  - destruct (isin v seen) eqn:Hv.
    + apply IH.
    + destruct (IH (v :: seen)) as [Hout Hd]. split.
      * constructor; [exact Hv|].
        eapply List.Forall_impl; [|exact Hout].
        intros x Hx. simpl in Hx. apply orb_false_elim in Hx. apply Hx.
      * constructor; [|exact Hd].
        eapply List.Forall_impl; [|exact Hout].
        intros x Hx. simpl in Hx. apply orb_false_elim in Hx.
        rewrite value_eqb_sym. apply Hx.
Qed.

Lemma unique_distinct l : distinct (unique l).
Proof. apply unique_acc_spec. Qed.

Lemma list_set_distinct l out : list_set l = Ok out -> distinct out.
Proof.
  unfold list_set. destruct (forallb hashable l); intros H; inversion H.
  apply unique_distinct.
Qed.

(** ** Requests and their answers *)

Create HintDb clean.

Section Runs.

Variable rt : runtime.

Lemma all_accepted_app t reqs reqs' :
  all_accepted rt t reqs -> all_accepted rt (t ++ reqs) reqs' ->
  all_accepted rt t (reqs ++ reqs').
Proof.
  revert t. induction reqs as [|r reqs IH]; intros t H1 H2; simpl in *.
  - rewrite List.app_nil_r in H2. exact H2.
  - destruct H1 as [Hr H1]. split; [exact Hr|].
    apply IH; [exact H1|]. rewrite <- List.app_assoc. exact H2.
Qed.

Lemma clean_ret {A} (a : A) : clean rt (ret a).
Proof.
  intros t b t' H. run_inv H. subst. exists [].
  rewrite List.app_nil_r. split; [reflexivity | exact I].
Qed.

Lemma clean_lift {A} (r : result A) : clean rt (lift r).
Proof.
  intros t b t' H. run_inv H. subst. exists [].
  rewrite List.app_nil_r. split; [reflexivity | exact I].
Qed.

Lemma clean_throw {A} (e : error) : clean rt (@throw A e).
Proof. intros t b t' H. discriminate H. Qed.

Lemma clean_bind {A B} (m : M A) (k : A -> M B) :
  clean rt m -> (forall a, clean rt (k a)) -> clean rt (bind m k).
Proof.
  intros Hm Hk t b t' H. run_inv H.
  destruct (Hm _ _ _ Hrun) as (r1 & -> & Ha1).
  destruct (Hk _ _ _ _ Hrun0) as (r2 & -> & Ha2).
  exists (r1 ++ r2). rewrite List.app_assoc. split; [reflexivity|].
  apply all_accepted_app; assumption.
Qed.

Lemma checked_run r t :
  checked rt r t =
    (if is_error_status (status_code (server rt t r))
     then Raise (HTTPError (status_code (server rt t r)))
     else response_json (server rt t r),
     t ++ [r]).
Proof.
  unfold checked, bind, send, lift, raise_for_status.
  destruct (is_error_status (status_code (server rt t r))); reflexivity.
Qed.

Lemma clean_checked r : clean rt (checked rt r).
Proof.
  intros t a t' H. rewrite checked_run in H.
  destruct (is_error_status (status_code (server rt t r))) eqn:Hs;
    inversion H; subst.
  exists [r]. split; [reflexivity|]. simpl. split; [exact Hs | exact I].
Qed.

Lemma fetch_scheduler_graphql_checked self payload :
  fetch_scheduler_graphql rt self payload = checked rt (graphql_request self payload).
Proof. reflexivity. Qed.

Lemma fetch_scheduler_checked self endpoint :
  fetch_scheduler rt self endpoint = checked rt (scheduler_request self endpoint).
Proof. reflexivity. Qed.

Lemma fetch_DO_checked self endpoint :
  fetch_DO rt self endpoint = checked rt (do_request self endpoint).
Proof. reflexivity. Qed.

Lemma clean_fetch_scheduler_graphql self payload :
  clean rt (fetch_scheduler_graphql rt self payload).
Proof. rewrite fetch_scheduler_graphql_checked. apply clean_checked. Qed.

Lemma clean_fetch_scheduler self endpoint :
  clean rt (fetch_scheduler rt self endpoint).
Proof. rewrite fetch_scheduler_checked. apply clean_checked. Qed.

Lemma clean_fetch_DO self endpoint : clean rt (fetch_DO rt self endpoint).
Proof. rewrite fetch_DO_checked. apply clean_checked. Qed.

Lemma clean_if {A} (b : bool) (m m' : M A) :
  clean rt m -> clean rt m' -> clean rt (if b then m else m').
Proof. destruct b; auto. Qed.

End Runs.

#[global] Hint Resolve clean_ret clean_lift clean_throw
  clean_fetch_scheduler_graphql clean_fetch_scheduler clean_fetch_DO : clean.

(** Decompose a method into its binds and branches. *)
Ltac clean_tac :=
  repeat first
    [ solve [auto with clean]
    | apply clean_bind; [|intros ?]
    | apply clean_if ].

Section Lookup.

Variable rt : runtime.

Lemma clean_completed_loop self bs :
  forall orders, clean rt (completed_loop rt self bs orders).
Proof.
  induction bs as [|b bs IH]; intros orders; cbn [completed_loop].
  - apply clean_ret.
  - clean_tac.
Qed.

Lemma clean_do_get_completed_orders self orderNumbers :
  clean rt (_do_get_completed_orders rt self orderNumbers).
Proof.
  unfold _do_get_completed_orders. clean_tac. apply clean_completed_loop.
Qed.

Lemma requests_ret {A} (a : A) : requests (ret a) 0.
Proof. intros t. simpl. split; [lia | intros; lia]. Qed.

Lemma requests_lift {A} (r : result A) : requests (lift r) 0.
Proof. intros t. simpl. split; [lia | intros; lia]. Qed.

Lemma requests_bind {A B} (m : M A) (k : A -> M B) n n' :
  requests m n -> (forall a, requests (k a) n') ->
  requests (bind m k) (n + n').
Proof.
  intros Hm Hk t. unfold bind. specialize (Hm t).
  destruct (m t) as [[a|e] t1]; simpl in Hm.
  - destruct Hm as [_ Hm]. specialize (Hm a eq_refl).
    destruct (Hk a t1) as [Hk1 Hk2]. split; [lia|].
    intros b Hb. rewrite (Hk2 b Hb). lia.
  - simpl. destruct Hm as [Hm _]. split; [lia | intros b Hb; discriminate Hb].
Qed.

Lemma requests_checked r : requests (checked rt r) 1.
Proof.
  intros t. rewrite checked_run. simpl. rewrite List.length_app. simpl.
  split; [lia | intros; lia].
Qed.

Lemma requests_completed_loop self bs :
  forall orders, requests (completed_loop rt self bs orders) (List.length bs).
Proof.
  induction bs as [|b bs IH]; intros orders; cbn [completed_loop List.length].
  - apply requests_ret.
  - apply (requests_bind _ _ 0 (S (List.length bs))); [apply requests_lift|].
    intros orderList.
    apply (requests_bind _ _ 1 (List.length bs));
      [rewrite fetch_DO_checked; apply requests_checked|].
    intros response.
    apply (requests_bind _ _ 0 (List.length bs)); [apply requests_lift|].
    intros df.
    apply (requests_bind _ _ 0 (List.length bs)); [|intros o; apply IH].
    destruct (has_column df "orderNumber"); [|apply requests_ret].
    apply (requests_bind _ _ 0 0); [apply requests_lift|]. intros c.
    apply (requests_bind _ _ 0 0); [apply requests_lift|]. intros u.
    apply requests_ret.
Qed.

Lemma requests_do_get_completed_orders self orderNumbers :
  requests (_do_get_completed_orders rt self orderNumbers)
           ((List.length orderNumbers + 79) / 80).
Proof.
  unfold _do_get_completed_orders.
  rewrite <- (batches_count orderNumbers), <- (Nat.add_0_r (List.length _)).
  apply requests_bind; [apply requests_completed_loop|].
  intros orders. apply requests_lift.
Qed.

(** The requests of a completed loop: one per batch, in the order of the
    batches, each for the comma-joined order numbers of its batch. *)
Lemma completed_loop_trace self bs :
  forall orders t out t',
    completed_loop rt self bs orders t = (Ok out, t') ->
    exists lists,
      rmap (join_values ",") bs = Ok lists
      /\ t' = t ++ List.map (fun s => do_request self (completed_endpoint s)) lists.
Proof.
  induction bs as [|b bs IH]; intros orders t out t' H; cbn [completed_loop] in H.
  - run_inv H. subst. exists []. rewrite List.app_nil_r. split; reflexivity.
  - apply bind_ok in H as (orderList & t0 & Hjoin & H).
    apply lift_ok in Hjoin as [Hjoin ->].
    apply bind_ok in H as (response & t1 & Hfetch & H).
    rewrite fetch_DO_checked, checked_run in Hfetch.
    injection Hfetch as _ <-.
    apply bind_ok in H as (df & t2 & Hdf & H).
    apply lift_ok in Hdf as [_ ->].
    apply bind_ok in H as (orders' & t3 & Hadd & H).
    assert (t3 = t ++ [do_request self (completed_endpoint orderList)]) as ->.
    { destruct (has_column df "orderNumber").
      - apply bind_ok in Hadd as (c & t4 & Hc & Hadd).
        apply lift_ok in Hc as [_ ->].
        apply bind_ok in Hadd as (u & t5 & Hu & Hadd).
        apply lift_ok in Hu as [_ ->].
        apply ret_ok in Hadd as [_ ->]. reflexivity.
      - apply ret_ok in Hadd as [_ ->]. reflexivity. }
    destruct (IH _ _ _ _ H) as (lists & Hl & ->).
    exists (orderList :: lists). cbn [rmap]. rewrite Hjoin, Hl.
    split; [reflexivity|]. rewrite <- List.app_assoc. reflexivity.
Qed.

(** On a healthy execution service the loop runs to its end when the order
    numbers are strings. *)
Lemma completed_loop_returns self bs :
  do_service_healthy rt ->
  Forall (Forall (fun v => exists s, v = VStr s)) bs ->
  forall orders t,
    forallb hashable orders = true ->
    exists out t',
      completed_loop rt self bs orders t = (Ok out, t')
      /\ forallb hashable out = true.
Proof.
  intros Hsrv Hbs. induction Hbs as [|b bs Hb _ IH]; intros orders t Hh;
    cbn [completed_loop].
  - exists orders, t. split; [reflexivity | exact Hh].
  - assert (join_values "," b
            = Ok (join "," (List.map (fun v => match v with
                                               | VStr s => s
                                               | _ => ""
                                               end) b))) as Hjoin.
    { unfold join_values. erewrite rmap_total; [reflexivity|].
      intros v Hv. rewrite List.Forall_forall in Hb.
      destruct (Hb v Hv) as (s0 & ->). reflexivity. }
    rewrite (bind_step _ _ t _ t (f_equal (fun r => (r, t)) Hjoin)).
    match goal with
    | |- context [fetch_DO rt self ?e] => set (q := do_request self e)
    end.
    destruct (Hsrv t q eq_refl) as (Hstatus & recs & Hbody & Hrecs).
    assert (fetch_DO rt self
              (completed_endpoint
                 (join "," (List.map (fun v => match v with
                                               | VStr s => s
                                               | _ => ""
                                               end) b))) t
            = (Ok (VList (List.map VObj recs)), t ++ [q])) as Hfetch.
    { rewrite fetch_DO_checked, checked_run. fold q. rewrite Hstatus.
      unfold response_json. rewrite Hbody. reflexivity. }
    rewrite (bind_step _ _ _ _ _ Hfetch).
    assert (DataFrame (VList (List.map VObj recs))
            = Ok {| columns := keys_union recs;
                    rows := List.map (record_row (keys_union recs)) recs |})
      as Hdf.
    { unfold DataFrame.
      rewrite (rmap_total as_record (fun v => match v with
                                              | VObj o => o
                                              | _ => []
                                              end)).
      - rewrite List.map_map, List.map_id. reflexivity.
      - intros v Hv. apply List.in_map_iff in Hv as (o & <- & _). reflexivity. }
    rewrite (bind_step _ _ (t ++ [q]) _ (t ++ [q])
               (f_equal (fun r => (r, t ++ [q])) Hdf)).
    unfold has_column, getcol. cbn [columns rows].
    destruct (index_of "orderNumber" (keys_union recs)) as [i|] eqn:Hi.
    + unfold bind at 1. unfold bind at 1. unfold lift at 1.
      unfold py_unique. unfold bind at 1. unfold lift at 1.
      set (c := List.map (fun r => nth i r VNull)
                         (List.map (record_row (keys_union recs)) recs)).
      assert (forallb hashable c = true) as Hc.
      { apply List.forallb_forall. intros v Hv. unfold c in Hv.
        rewrite List.map_map in Hv.
        apply List.in_map_iff in Hv as (o & <- & Ho).
        rewrite (record_row_nth _ _ _ _ Hi).
        rewrite List.Forall_forall in Hrecs. specialize (Hrecs o Ho).
        destruct (assoc "orderNumber" o) as [v|]; [|reflexivity].
        apply Hrecs. reflexivity. }
      rewrite Hc. unfold ret at 1. apply IH.
      rewrite List.forallb_app, Hh. cbn.
      apply List.forallb_forall. intros v Hv.
      rewrite List.forallb_forall in Hc. apply Hc.
      clear -Hv. unfold unique in Hv. revert Hv. generalize (@nil value).
      induction c as [|x c IHc]; intros seen Hv; cbn in Hv; [contradiction|].
      destruct (isin x seen).
      * right. eapply IHc. exact Hv.
      * destruct Hv as [<-|Hv]; [left; reflexivity | right; eapply IHc; exact Hv].
    + unfold bind at 1. unfold ret at 1. apply IH. exact Hh.
Qed.

Lemma batches_Forall {A} (P : A -> Prop) (l : list A) :
  Forall P l -> Forall (Forall P) (batches l).
Proof.
  intros H. rewrite batches_seq. apply List.Forall_forall. intros b Hb.
  apply List.in_map_iff in Hb as (k & <- & _).
  apply Forall_take, Forall_drop. exact H.
Qed.

(** C6.  The completed-orders lookup cuts its [N] order numbers into
    consecutive slices of at most 80 (the slices put back together are the
    input), there are ceil(N/80) of them (none for the empty list), a
    lookup that returns has issued exactly one request per slice, in slice
    order, and no two order numbers it returns are equal; a lookup that
    raises has issued at most that many requests.  The lookup does return
    when the order numbers are strings and the execution service is
    healthy. *)
Theorem completed_lookup_batches self (orderNumbers : list value) (t : trace) :
  let n := List.length orderNumbers in
  let k := ((n + 79) / 80)%nat in
  (n <= 80 * k < n + 80)%nat
  /\ concat (batches orderNumbers) = orderNumbers
  /\ Forall (fun b => (List.length b <= 80)%nat) (batches orderNumbers)
  /\ List.length (batches orderNumbers) = k
  /\ (List.length (snd (_do_get_completed_orders rt self orderNumbers t))
      <= List.length t + k)%nat
  /\ (forall out t',
       _do_get_completed_orders rt self orderNumbers t = (Ok out, t') ->
       distinct out
       /\ List.length t' = (List.length t + k)%nat
       /\ exists lists,
            rmap (join_values ",") (batches orderNumbers) = Ok lists
            /\ t' = t ++ List.map (fun s => do_request self (completed_endpoint s))
                                  lists)
  /\ (do_service_healthy rt ->
      Forall (fun v => exists s, v = VStr s) orderNumbers ->
      exists out t',
        _do_get_completed_orders rt self orderNumbers t = (Ok out, t')).
Proof.
  intros n k. subst n k.
  split.
  { pose proof (Nat.div_mod_eq (List.length orderNumbers + 79) 80).
    pose proof (Nat.mod_upper_bound (List.length orderNumbers + 79) 80). lia. }
  split; [apply batches_concat|].
  split; [apply batches_bounded|].
  split; [apply batches_count|].
  destruct (requests_do_get_completed_orders self orderNumbers t) as [Hle Heq].
  split; [exact Hle|]. split.
  - intros out t' H. specialize (Heq out). rewrite H in Heq.
    split; [|split; [apply Heq; reflexivity|]].
    + unfold _do_get_completed_orders in H.
      apply bind_ok in H as (orders & t1 & _ & H).
      apply lift_ok in H as [H _].
      eapply list_set_distinct. eassumption.
    + unfold _do_get_completed_orders in H.
      apply bind_ok in H as (orders & t1 & Hloop & H).
      apply lift_ok in H as [_ ->].
      eapply completed_loop_trace. eassumption.
  - intros Hsrv Hstr.
    destruct (completed_loop_returns self (batches orderNumbers) Hsrv
                (batches_Forall _ _ Hstr) [] t eq_refl)
      as (orders & t' & Hloop & Hh).
    exists (unique orders), t'. unfold _do_get_completed_orders.
    rewrite (bind_step _ _ _ _ _ Hloop). unfold lift, list_set.
    rewrite Hh. reflexivity.
Qed.

End Lookup.

#[global] Hint Resolve clean_do_get_completed_orders : clean.


(** ** Construction *)

Section Construction.

Variable rt : runtime.

Lemma set_data_template_trace self t :
  snd (_set_data_template rt self t)
    = t ++ [graphql_request self (scenario_query (_site self))].
Proof.
  unfold _set_data_template. cbv zeta.
  rewrite fetch_scheduler_graphql_checked. unfold bind at 1.
  rewrite checked_run.
  destruct (is_error_status _); [reflexivity|].
  destruct (response_json _) as [data|e]; [|reflexivity].
  unfold bind at 1, lift at 1.
  destruct (rbind (getitem data "data") _) as [scenario|e]; [|reflexivity].
  unfold bind at 1, lift at 1.
  destruct (if truthy data then _ else _) as [d|e]; [|reflexivity].
  unfold bind at 1, lift at 1.
  destruct (if truthy data then _ else _) as [sc|e]; reflexivity.
Qed.

(** C7.  Construction is terminal on scenario resolution.  When resolving
    the live scenario does not yield a pair of strictly positive ids
    (because an id is missing, so that resolution itself raises, or because
    one is zero or negative), the constructor raises and hands no object
    back; the scenario query is the only request made by then.  Conversely
    an object that was handed back carries two strictly positive ids. *)
Theorem init_terminal_on_scenario (site tenant authBase64 : string)
    (isStage : option bool) (t : trace) :
  let self0 := blank site tenant authBase64 (default false isStage) in
  let query := graphql_request self0 (scenario_query site) in
  ((forall d s, resolves rt self0 t d s -> ~ (0 < d /\ 0 < s)) ->
   exists e, __init__ rt site tenant authBase64 isStage t
               = (Raise e, t ++ [query]))
  /\ (forall self t',
        __init__ rt site tenant authBase64 isStage t = (Ok self, t') ->
        0 < _scheduler_data_id self /\ 0 < _scheduler_scenario_id self
        /\ resolves rt self0 t (_scheduler_data_id self)
                    (_scheduler_scenario_id self)
        /\ t' = t ++ [query]).
Proof.
  intros self0 query.
  pose proof (set_data_template_trace self0 t) as Htr.
  unfold __init__. cbv zeta. fold self0. unfold bind.
  destruct (_set_data_template rt self0 t) as [[[self1 flag]|e] t1] eqn:Hset;
    simpl in Htr; subst t1.
  - cbn [fst].
    destruct ((0 <? _scheduler_data_id self1)
              && (0 <? _scheduler_scenario_id self1)) eqn:Hpos.
    + apply andb_true_iff in Hpos as [Hd Hs].
      apply Z.ltb_lt in Hd, Hs. split.
      * intros Hno. exfalso. apply (Hno _ _ (ex_intro _ self1 (ex_intro _ flag
          (ex_intro _ _ (conj Hset (conj eq_refl eq_refl)))))).
        split; assumption.
      * intros self t' H. unfold ret in H. injection H as <- <-.
        cbn. repeat split; try assumption.
        exists self1, flag, (t ++ [query]). repeat split. exact Hset.
    + split.
      * intros _. eexists. reflexivity.
      * intros self t' H. discriminate H.
  - split.
    + intros _. exists e. reflexivity.
    + intros self t' H. discriminate H.
Qed.

End Construction.

(** On the demo site whose live scenario has data template 0 the
    constructor raises after its one query. *)
Lemma init_terminal_on_scenario_demo :
  exists e,
    __init__ Demo.rt_unresolved "S1" "acme" "QUJD" None []
      = (Raise e,
         [graphql_request (blank "S1" "acme" "QUJD" false) (scenario_query "S1")]).
Proof.
  apply (proj1 (init_terminal_on_scenario Demo.rt_unresolved
                  "S1" "acme" "QUJD" None [])).
  intros d s (self' & flag & t' & Hrun & Hd & Hs) [Hpos _].
  vm_compute in Hrun. injection Hrun as <- _ _.
  simpl in Hd. subst d. lia.
Defined.

(** ** Graph queries: errors and empty answers *)

Section GraphQueries.

Variable rt : runtime.









End GraphQueries.


(** ** Planned and scheduled orders *)

Section Orders.

Variable rt : runtime.

Lemma planned_filter_spec ec ei data out :
  planned_filter ec ei data = Ok out ->
  columns out = columns data
  /\ incl (rows out) (rows data)
  /\ (ec = true ->
      Forall (fun r => isin (cell (columns data) "status" r) excluded_statuses
                       = false)
             (rows out)).
Proof.
  unfold planned_filter. intros H. apply rbind_ok in H as (d & Hd & H).
  assert (columns d = columns data
          /\ incl (rows d) (rows data)
          /\ (ec = true ->
              Forall (fun r => isin (cell (columns data) "status" r)
                                    excluded_statuses = false) (rows d)))
    as (Hc & Hi & Hs).
  { destruct ec.
    - apply drop_isin_spec in Hd as [Hc Hr]. rewrite Hr.
      split; [exact Hc|]. split; [apply List.incl_filter|].
      intros _. apply List.Forall_forall. intros r Hin.
      apply List.filter_In in Hin as [_ Hin].
      apply negb_true_iff in Hin. exact Hin.
    - injection Hd as <-. split; [reflexivity|].
      split; [apply List.incl_refl | discriminate]. }
  destruct (negb _).
  - apply drop_isin_spec in H as [Hc' Hr]. rewrite Hr, Hc'.
    split; [exact Hc|].
    split; [eapply List.incl_tran; [apply List.incl_filter | exact Hi]|].
    intros Hec. specialize (Hs Hec). rewrite List.Forall_forall in *.
    intros r Hin. apply List.filter_In in Hin as [Hin _]. auto.
  - injection H as <-. repeat split; assumption.
Qed.

(** What the planned-order frame looks like: its header, the width of its
    rows, and the statuses that are left when completed orders are
    excluded. *)
Lemma planned_frame_shape ec ei data planned :
  planned_frame rt ec ei data = Ok planned ->
  columns planned = planned_view_columns
  /\ Forall (fun r => List.length r = 13%nat) (rows planned)
  /\ (ec = true ->
      Forall (fun r => isin (cell (columns planned) "status" r)
                            excluded_statuses = false)
             (rows planned)).
Proof.
  unfold planned_frame. intros H.
  apply rbind_ok in H as (d1 & _ & H).
  apply rbind_ok in H as (d2 & Hf & H).
  apply planned_filter_spec in Hf as (Hc & _ & Hs).
  unfold planned_project in H. cbv zeta in H.
  apply rbind_ok in H as (d3 & Hsel & H). injection H as <-.
  apply select_spec in Hsel as [Hc3 Hr3].
  cbn [columns rows rename]. rewrite Hc3, Hr3.
  split; [reflexivity|]. split.
  - apply List.Forall_forall. intros r Hin.
    apply List.in_map_iff in Hin as (r0 & <- & _). reflexivity.
  - intros Hec. specialize (Hs Hec). rewrite List.Forall_forall in *.
    intros r Hin. apply List.in_map_iff in Hin as (r0 & <- & Hin).
    change (isin (cell (columns d2) "status" r0) excluded_statuses = false).
    rewrite Hc. exact (Hs r0 Hin).
Qed.

Lemma scheduled_frame_shape equipment data scheduled :
  scheduled_frame rt equipment data = Ok scheduled ->
  columns scheduled = scheduled_view_columns
  /\ Forall (fun r => List.length r = 9%nat) (rows scheduled).
Proof.
  unfold scheduled_frame. intros H.
  apply rbind_ok in H as (d1 & _ & H).
  unfold scheduled_project in H. cbv zeta in H.
  apply rbind_ok in H as (d3 & Hsel & H). injection H as <-.
  apply select_spec in Hsel as [Hc3 Hr3].
  cbn [columns rows rename]. rewrite Hc3, Hr3.
  split; [reflexivity|].
  apply List.Forall_forall. intros r Hin.
  apply List.in_map_iff in Hin as (r0 & <- & _). reflexivity.
Qed.

Lemma planned_run_shape self ec ei t planned t' :
  _scheduler_get_planned_order rt self ec ei t = (Ok (Some planned), t') ->
  exists data,
    planned_frame rt (default false ec) (default [] ei) data = Ok planned.
Proof.
  unfold _scheduler_get_planned_order. cbv zeta. intros H.
  apply bind_ok in H as (b & t1 & _ & H).
  apply bind_ok in H as (d & t2 & _ & H).
  destruct (is_null d); [apply ret_ok in H as [H _]; discriminate H|].
  apply bind_ok in H as (df & t3 & _ & H).
  apply bind_ok in H as (o & t4 & Ho & H).
  apply lift_ok in Ho as [Ho _]. apply ret_ok in H as [H _].
  injection H as <-. exists df. exact Ho.
Qed.

Lemma scheduled_run_shape self t scheduled t' :
  _scheduler_get_scheduled_order rt self t = (Ok (Some scheduled), t') ->
  exists equipment data, scheduled_frame rt equipment data = Ok scheduled.
Proof.
  unfold _scheduler_get_scheduled_order. cbv zeta. intros H.
  apply bind_ok in H as (b & t1 & _ & H).
  apply bind_ok in H as (d & t2 & _ & H).
  destruct (is_null d); [apply ret_ok in H as [H _]; discriminate H|].
  apply bind_ok in H as (df & t3 & _ & H).
  apply bind_ok in H as (eq & t4 & _ & H).
  apply bind_ok in H as (o & t5 & Ho & H).
  apply lift_ok in Ho as [Ho _]. apply ret_ok in H as [H _].
  injection H as <-. exists eq, df. exact Ho.
Qed.

(** The stages of a call of [scheduler_get_orders] that returned. *)
Lemma orders_run_inv self ec ei t out t' :
  scheduler_get_orders rt self ec ei t = (Ok out, t') ->
  exists planned scheduled merged numbers doOrders overlaid t1 t2,
    _scheduler_get_planned_order rt self (Some (default true ec))
        (Some (default [] ei)) t = (Ok (Some planned), t1)
    /\ _scheduler_get_scheduled_order rt self t1 = (Ok (Some scheduled), t2)
    /\ merge_orders (Some planned) (Some scheduled) = Ok merged
    /\ rbind (getcol merged "orderNumber") py_unique = Ok numbers
    /\ _do_get_completed_orders rt self numbers t2 = (Ok doOrders, t')
    /\ overlay doOrders merged = Ok overlaid
    /\ finish_orders overlaid = Ok out.
Proof.
  unfold scheduler_get_orders. cbv zeta. intros H.
  apply bind_ok in H as (po & t1 & Hp & H).
  apply bind_ok in H as (so & t2 & Hs & H).
  apply bind_ok in H as (merged & t3 & Hm & H).
  apply lift_ok in Hm as [Hm ->].
  apply bind_ok in H as (numbers & t4 & Hn & H).
  apply lift_ok in Hn as [Hn ->].
  apply bind_ok in H as (doOrders & t5 & Hd & H).
  apply bind_ok in H as (overlaid & t6 & Ho & H).
  apply lift_ok in Ho as [Ho ->].
  apply lift_ok in H as [H ->].
  destruct po as [planned|]; [|discriminate Hm].
  destruct so as [scheduled|]; [|discriminate Hm].
  exists planned, scheduled, merged, numbers, doOrders, overlaid, t1, t2.
  repeat split; assumption.
Qed.

(** The three pure stages of the view, row by row. *)
Lemma order_view_rows planned scheduled merged doOrders overlaid out :
  columns planned = planned_view_columns ->
  columns scheduled = scheduled_view_columns ->
  Forall (fun r => List.length r = 9%nat) (rows scheduled) ->
  merge_orders (Some planned) (Some scheduled) = Ok merged ->
  overlay doOrders merged = Ok overlaid ->
  finish_orders overlaid = Ok out ->
  (columns merged = planned_view_columns ++ scheduled_view_columns
   /\ rows merged =
        flat_map (fun p => List.map (fun s => p ++ s)
                                    (allocations_of planned scheduled p))
                 (rows planned))
  /\ (columns overlaid = columns merged
      /\ rows overlaid =
           List.map (fun m => set_nth 5 (if isin (nth 1 m VNull) doOrders
                                         then VStr "COMPLETED"
                                         else nth 5 m VNull) m)
                    (rows merged))
  /\ (columns out = order_view_columns
      /\ rows out = List.map (fun o => remove_nth 9 (remove_nth 13 o))
                             (rows overlaid)).
Proof.
  destruct planned as [pc pr], scheduled as [sc sr]. cbn [columns rows].
  intros -> -> Hlen Hm Ho Hf.
  assert (merged =
            {| columns := planned_view_columns ++ scheduled_view_columns;
               rows := flat_map
                 (fun p => List.map (fun s => p ++ s)
                    (allocations_of
                       {| columns := planned_view_columns; rows := pr |}
                       {| columns := scheduled_view_columns; rows := sr |} p))
                 pr |}) as ->.
  { unfold merge_orders, merge in Hm. cbn in Hm.
    destruct (negb _ || negb _); [discriminate Hm|]. injection Hm as <-.
    f_equal. apply List.flat_map_ext. intros p.
    unfold merge_row, matches, allocations_of. cbn [columns rows].
    assert (forall ms, incl ms sr ->
              List.map (fun r => p ++ strip scheduled_view_columns [] r) ms
              = List.map (fun s => p ++ s) ms) as Hstrip.
    { intros ms Hincl. apply List.map_ext_in. intros r Hr. f_equal.
      apply strip_nil. rewrite List.Forall_forall in Hlen.
      rewrite (Hlen r (Hincl r Hr)). reflexivity. }
    rewrite (List.filter_ext _
               (fun s => value_eqb (cell planned_view_columns "orderItemsId" p)
                                   (cell scheduled_view_columns "orderItemId" s))).
    2:{ intros s. unfold keys_eqb, pick. cbn. apply andb_true_r. }
    destruct (List.filter _ sr) as [|m ms] eqn:Hms.
    - reflexivity.
    - apply Hstrip. rewrite <- Hms. apply List.incl_filter. }
  split; [split; reflexivity|].
  unfold overlay, loc_set_isin in Ho. cbn in Ho. injection Ho as <-.
  split.
  { split; [reflexivity|]. cbn [rows].
    rewrite zip_with_maps, zip_with_map. reflexivity. }
  unfold finish_orders in Hf. cbn in Hf. injection Hf as <-.
  split; [reflexivity|]. cbn [rows].
  rewrite List.map_map. reflexivity.
Qed.

Ltac explode H :=
  match type of H with
  | List.length ?l = _ =>
      repeat (destruct l as [|? l]; [discriminate H|]);
      destruct l as [|? l]; [clear H | discriminate H]
  end.

(** The cells of one row on its way through the view: [p] is a planned
    order, [s] one of its allocations. *)
Lemma view_cells doOrders (p s : list value) :
  List.length p = 13%nat -> List.length s = 9%nat ->
  let cols := planned_view_columns ++ scheduled_view_columns in
  let m := p ++ s in
  let o := set_nth 5 (if isin (nth 1 m VNull) doOrders
                      then VStr "COMPLETED" else nth 5 m VNull) m in
  let r := remove_nth 9 (remove_nth 13 o) in
  cell cols "orderNumber" m = cell planned_view_columns "orderNumber" p
  /\ cell cols "status" m = cell planned_view_columns "status" p
  /\ cell cols "orderNumber" o = cell cols "orderNumber" m
  /\ cell cols "status" o =
       (if isin (cell cols "orderNumber" m) doOrders
        then VStr "COMPLETED" else cell cols "status" m)
  /\ cell order_view_columns "Status" r = cell cols "status" o
  /\ cell order_view_columns "OrderNumber" r = cell cols "orderNumber" o
  /\ cell order_view_columns "Id" r = cell planned_view_columns "id" p.
Proof.
  intros Hp Hs. explode Hp. explode Hs. repeat split; reflexivity.
Qed.

Lemma filter_none {A} (f : A -> bool) l :
  (forall x, In x l -> f x = false) -> List.filter f l = [].
Proof.
  induction l as [|x l IH]; intros H; [reflexivity|]. cbn.
  rewrite (H x (or_introl eq_refl)). apply IH. intros y Hy. apply H.
  right. exact Hy.
Qed.

Lemma filter_all {A} (f : A -> bool) l :
  (forall x, In x l -> f x = true) -> List.filter f l = l.
Proof.
  induction l as [|x l IH]; intros H; [reflexivity|]. cbn.
  rewrite (H x (or_introl eq_refl)). f_equal. apply IH. intros y Hy. apply H.
  right. exact Hy.
Qed.

Lemma Forall2_map_same {A B} (R : A -> B -> Prop) (f : A -> B) l :
  (forall x, In x l -> R x (f x)) -> Forall2 R l (List.map f l).
Proof.
  induction l as [|x l IH]; intros H; cbn; constructor.
  - apply H. left. reflexivity.
  - apply IH. intros y Hy. apply H. right. exact Hy.
Qed.

(** Everything the claims on the order view need, for one call that
    returned: the frames of the two stages, the completed set, and every
    row of the view traced back to a planned order and one allocation. *)
Lemma orders_run_rows self ec ei t out t' :
  scheduler_get_orders rt self ec ei t = (Ok out, t') ->
  exists planned scheduled merged numbers doOrders overlaid t1 t2,
    (_scheduler_get_planned_order rt self (Some (default true ec))
        (Some (default [] ei)) t = (Ok (Some planned), t1)
     /\ _scheduler_get_scheduled_order rt self t1 = (Ok (Some scheduled), t2)
     /\ merge_orders (Some planned) (Some scheduled) = Ok merged
     /\ rbind (getcol merged "orderNumber") py_unique = Ok numbers
     /\ _do_get_completed_orders rt self numbers t2 = (Ok doOrders, t')
     /\ overlay doOrders merged = Ok overlaid
     /\ finish_orders overlaid = Ok out)
    /\ (columns planned = planned_view_columns
        /\ Forall (fun r => List.length r = 13%nat) (rows planned)
        /\ (default true ec = true ->
            Forall (fun r => isin (cell (columns planned) "status" r)
                                  excluded_statuses = false) (rows planned)))
    /\ (columns scheduled = scheduled_view_columns
        /\ Forall (fun r => List.length r = 9%nat) (rows scheduled))
    /\ (columns merged = planned_view_columns ++ scheduled_view_columns
        /\ rows merged =
             flat_map (fun p => List.map (fun s => p ++ s)
                                         (allocations_of planned scheduled p))
                      (rows planned))
    /\ (columns overlaid = columns merged
        /\ rows overlaid =
             List.map (fun m => set_nth 5 (if isin (nth 1 m VNull) doOrders
                                           then VStr "COMPLETED"
                                           else nth 5 m VNull) m)
                      (rows merged))
    /\ (columns out = order_view_columns
        /\ rows out = List.map (fun o => remove_nth 9 (remove_nth 13 o))
                               (rows overlaid)).
Proof.
  intros H. apply orders_run_inv in H
    as (planned & scheduled & merged & numbers & doOrders & overlaid & t1 & t2
        & Hp & Hs & Hm & Hn & Hd & Ho & Hf).
  exists planned, scheduled, merged, numbers, doOrders, overlaid, t1, t2.
  destruct (planned_run_shape _ _ _ _ _ _ Hp) as (data & Hpf).
  destruct (scheduled_run_shape _ _ _ _ Hs) as (eq & sdata & Hsf).
  apply planned_frame_shape in Hpf as (Hpc & Hpl & Hps).
  apply scheduled_frame_shape in Hsf as (Hsc & Hsl).
  destruct (order_view_rows _ _ _ _ _ _ Hpc Hsc Hsl Hm Ho Hf)
    as (Hmr & Hor & Hfr).
  split; [repeat split; assumption|].
  split; [repeat split; assumption|].
  split; [split; assumption|].
  split; [exact Hmr|]. split; [exact Hor | exact Hfr].
Qed.

(** C1.  The order view is the inner join of planned orders and
    allocations on the order-item id.  For a call that returned, with
    [planned] and [scheduled] the frames of its two stages: every row of the
    view stems from a planned order that has an allocation with its
    order-item id; and a planned order that is the only row of its order has
    as many rows in the view as it has such allocations: none when it has
    none, exactly two when it has two. *)
Theorem orders_inner_join self ec ei t out t' :
  scheduler_get_orders rt self ec ei t = (Ok out, t') ->
  exists planned scheduled t1 t2,
    _scheduler_get_planned_order rt self (Some (default true ec))
        (Some (default [] ei)) t = (Ok (Some planned), t1)
    /\ _scheduler_get_scheduled_order rt self t1 = (Ok (Some scheduled), t2)
    /\ Forall (fun r => exists p,
                  In p (rows planned)
                  /\ allocations_of planned scheduled p <> []
                  /\ cell (columns out) "Id" r = cell (columns planned) "id" p)
              (rows out)
    /\ forall p, single_order planned p ->
         List.length (rows_of_order out (cell (columns planned) "id" p))
           = List.length (allocations_of planned scheduled p)
         /\ (allocations_of planned scheduled p = [] ->
             rows_of_order out (cell (columns planned) "id" p) = [])
         /\ (List.length (allocations_of planned scheduled p) = 2%nat ->
             List.length (rows_of_order out (cell (columns planned) "id" p))
               = 2%nat).
Proof.
  intros H. apply orders_run_rows in H
    as (planned & scheduled & merged & numbers & doOrders & overlaid & t1 & t2
        & (Hp & Hs & _) & (Hpc & Hpl & _) & (Hsc & Hsl) & (_ & Hmr)
        & (_ & Hor) & (Hoc & Hfr)).
  exists planned, scheduled, t1, t2.
  split; [exact Hp|]. split; [exact Hs|].
  rewrite Hor, Hmr, List.map_map in Hfr.
  set (F := fun m => remove_nth 9 (remove_nth 13
                (set_nth 5 (if isin (nth 1 m VNull) doOrders
                            then VStr "COMPLETED" else nth 5 m VNull) m))) in Hfr.
  assert (forall p s, In p (rows planned) ->
            In s (allocations_of planned scheduled p) ->
            cell (columns out) "Id" (F (p ++ s)) = cell (columns planned) "id" p)
    as Hid.
  { intros p s Hin Hal. rewrite Hoc, Hpc. apply view_cells.
    - rewrite List.Forall_forall in Hpl. apply Hpl. exact Hin.
    - apply List.filter_In in Hal as [Hal _].
      rewrite List.Forall_forall in Hsl. apply Hsl. exact Hal. }
  split.
  - apply List.Forall_forall. intros r Hr. rewrite Hfr in Hr.
    apply List.in_map_iff in Hr as (m & <- & Hm).
    apply List.in_flat_map in Hm as (p & Hin & Hm).
    apply List.in_map_iff in Hm as (s & <- & Hal).
    exists p. split; [exact Hin|]. split.
    + intros Hnil. rewrite Hnil in Hal. exact Hal.
    + apply Hid; assumption.
  - intros p (Hrefl & before & after & Hrows & Hother).
    assert (List.length (rows_of_order out (cell (columns planned) "id" p))
            = List.length (allocations_of planned scheduled p)) as Hcount.
    { unfold rows_of_order. rewrite Hfr, Hrows.
      rewrite List.flat_map_app. cbn [flat_map].
      rewrite !List.map_app, !List.filter_app, !List.length_app.
      assert (forall l, incl l (before ++ after) ->
                List.filter (fun r => value_eqb (cell (columns out) "Id" r)
                                        (cell (columns planned) "id" p))
                  (List.map F (flat_map (fun p0 => List.map (fun s => p0 ++ s)
                      (allocations_of planned scheduled p0)) l)) = [])
        as Hnone.
      { intros l Hl. apply filter_none. intros r Hr.
        apply List.in_map_iff in Hr as (m & <- & Hm).
        apply List.in_flat_map in Hm as (q & Hq & Hm).
        apply List.in_map_iff in Hm as (s & <- & Hal).
        rewrite Hid; [apply Hother, Hl, Hq | | exact Hal].
        rewrite Hrows. apply Hl in Hq. apply List.in_app_or in Hq.
        apply List.in_or_app. destruct Hq; [left | right; right]; assumption. }
      rewrite (Hnone before) by (apply List.incl_appl, List.incl_refl).
      rewrite (Hnone after) by (apply List.incl_appr, List.incl_refl).
      rewrite filter_all.
      - rewrite List.length_map. cbn. rewrite List.length_map. lia.
      - intros r Hr. apply List.in_map_iff in Hr as (m & <- & Hm).
        apply List.in_map_iff in Hm as (s & <- & Hal).
        rewrite Hid; [exact Hrefl | | exact Hal].
        rewrite Hrows. apply List.in_or_app. right. left. reflexivity. }
    split; [exact Hcount|]. split.
    + intros Hnil. rewrite Hnil in Hcount.
      destruct (rows_of_order _ _); [reflexivity | discriminate Hcount].
    + intros H2. rewrite Hcount. exact H2.
Qed.

(** C2.  The status overlay.  For a call that returned, with [planned]
    and [scheduled] the frames its two queries returned, [merged] their
    inner join and [doOrders] the set the completed lookup returned for the
    order numbers of the joined rows: the overlay gives each joined row the
    status COMPLETED when its order number is in [doOrders] and leaves its
    status as it was otherwise (it never writes anything else); dropping
    the two item-id columns and renaming the header afterwards changes
    neither the status nor the order number of any row.  So the rows of the
    view are the joined rows, one for one and in their order, each with the
    status of its joined row or COMPLETED; a row whose order number is in
    the set has Status COMPLETED; and every row of the view carries the
    order number of a planned order of the call and either COMPLETED or
    the status that order had. *)
Theorem status_overlay self ec ei t out t' :
  scheduler_get_orders rt self ec ei t = (Ok out, t') ->
  exists planned scheduled merged numbers doOrders overlaid t1 t2,
    _scheduler_get_planned_order rt self (Some (default true ec))
        (Some (default [] ei)) t = (Ok (Some planned), t1)
    /\ _scheduler_get_scheduled_order rt self t1 = (Ok (Some scheduled), t2)
    /\ merge_orders (Some planned) (Some scheduled) = Ok merged
    /\ rbind (getcol merged "orderNumber") py_unique = Ok numbers
    /\ _do_get_completed_orders rt self numbers t2 = (Ok doOrders, t')
    /\ overlay doOrders merged = Ok overlaid
    /\ finish_orders overlaid = Ok out
    /\ Forall2 (fun m o =>
                  cell (columns overlaid) "orderNumber" o
                    = cell (columns merged) "orderNumber" m
                  /\ cell (columns overlaid) "status" o
                     = (if isin (cell (columns merged) "orderNumber" m) doOrders
                        then VStr "COMPLETED"
                        else cell (columns merged) "status" m))
               (rows merged) (rows overlaid)
    /\ Forall2 (fun o r =>
                  cell (columns out) "Status" r
                    = cell (columns overlaid) "status" o
                  /\ cell (columns out) "OrderNumber" r
                     = cell (columns overlaid) "orderNumber" o)
               (rows overlaid) (rows out)
    /\ Forall2 (fun m r =>
                  cell (columns out) "OrderNumber" r
                    = cell (columns merged) "orderNumber" m
                  /\ cell (columns out) "Status" r
                     = (if isin (cell (columns merged) "orderNumber" m) doOrders
                        then VStr "COMPLETED"
                        else cell (columns merged) "status" m))
               (rows merged) (rows out)
    /\ Forall (fun r => isin (cell (columns out) "OrderNumber" r) doOrders = true ->
                        cell (columns out) "Status" r = VStr "COMPLETED")
              (rows out)
    /\ Forall (fun r =>
                 exists p,
                   In p (rows planned)
                   /\ cell (columns out) "Id" r = cell (columns planned) "id" p
                   /\ cell (columns out) "OrderNumber" r
                      = cell (columns planned) "orderNumber" p
                   /\ cell (columns out) "Status" r
                      = (if isin (cell (columns planned) "orderNumber" p) doOrders
                         then VStr "COMPLETED"
                         else cell (columns planned) "status" p))
              (rows out).
Proof.
  intros H. apply orders_run_rows in H
    as (planned & scheduled & merged & numbers & doOrders & overlaid & t1 & t2
        & (Hp & Hs & Hm & Hn & Hd & Ho & Hf) & (Hpc & Hpl & _) & (Hsc & Hsl)
        & (Hmc & Hmr) & (Hovc & Hor) & (Hoc & Hfr)).
  exists planned, scheduled, merged, numbers, doOrders, overlaid, t1, t2.
  do 7 (split; [assumption|]).
  assert (forall m, In m (rows merged) ->
            exists p s, In p (rows planned) /\ m = p ++ s
                        /\ List.length p = 13%nat
                        /\ List.length s = 9%nat) as Hshape.
  { intros m Hin. rewrite Hmr in Hin.
    apply List.in_flat_map in Hin as (p & Hp' & Hin).
    apply List.in_map_iff in Hin as (s & <- & Hal).
    exists p, s. split; [exact Hp'|]. split; [reflexivity|]. split.
    - rewrite List.Forall_forall in Hpl. apply Hpl. exact Hp'.
    - apply List.filter_In in Hal as [Hal _].
      rewrite List.Forall_forall in Hsl. apply Hsl. exact Hal. }
  rewrite Hovc, Hmc, Hoc.
  split; [|split; [|split; [|split]]].
  - rewrite Hor. apply Forall2_map_same. intros m Hin.
    destruct (Hshape m Hin) as (p & s & _ & -> & Hlp & Hls).
    destruct (view_cells doOrders p s Hlp Hls) as (_ & _ & H3 & H4 & _).
    split; assumption.
  - rewrite Hfr. apply Forall2_map_same. intros o Hin. rewrite Hor in Hin.
    apply List.in_map_iff in Hin as (m & <- & Hin).
    destruct (Hshape m Hin) as (p & s & _ & -> & Hlp & Hls).
    destruct (view_cells doOrders p s Hlp Hls) as (_ & _ & _ & _ & H5 & H6 & _).
    split; assumption.
  - rewrite Hfr, Hor, List.map_map. apply Forall2_map_same. intros m Hin.
    destruct (Hshape m Hin) as (p & s & _ & -> & Hlp & Hls).
    destruct (view_cells doOrders p s Hlp Hls) as (_ & _ & H3 & H4 & H5 & H6 & _).
    cbv zeta in *. rewrite H5, H6, H4, H3. split; reflexivity.
  - rewrite Hfr, Hor, List.map_map. apply List.Forall_forall. intros r Hin.
    apply List.in_map_iff in Hin as (m & <- & Hin).
    destruct (Hshape m Hin) as (p & s & _ & -> & Hlp & Hls).
    destruct (view_cells doOrders p s Hlp Hls) as (_ & _ & H3 & H4 & H5 & H6 & _).
    cbv zeta in *. rewrite H5, H6, H4, H3. intros ->. reflexivity.
  - rewrite Hfr, Hor, List.map_map. apply List.Forall_forall. intros r Hin.
    apply List.in_map_iff in Hin as (m & <- & Hin).
    destruct (Hshape m Hin) as (p & s & Hpin & -> & Hlp & Hls).
    destruct (view_cells doOrders p s Hlp Hls)
      as (H1 & H2 & H3 & H4 & H5 & H6 & H7).
    cbv zeta in *. rewrite Hpc. rewrite H5, H6, H7, H4, H3, H2, H1.
    exists p. repeat split. exact Hpin.
Qed.

(** C10.  A call that leaves [excludeCompleted] at its default filters
    with [True]: every planned order that reaches the join has a status
    outside the exclusion set, every row of the view stems from such an
    order, and a row of the view whose Status is COMPLETED has its order
    number in the set the completed lookup returned, that is, the overlay
    wrote it. *)
Theorem default_completed_only_by_overlay self ei t out t' :
  scheduler_get_orders rt self None ei t = (Ok out, t') ->
  exists planned numbers doOrders t1 t2,
    _scheduler_get_planned_order rt self (Some true) (Some (default [] ei)) t
      = (Ok (Some planned), t1)
    /\ _do_get_completed_orders rt self numbers t2 = (Ok doOrders, t')
    /\ Forall (fun p => isin (cell (columns planned) "status" p)
                             excluded_statuses = false)
              (rows planned)
    /\ Forall (fun r =>
                 (exists p, In p (rows planned)
                    /\ cell (columns out) "Id" r = cell (columns planned) "id" p
                    /\ cell (columns out) "OrderNumber" r
                       = cell (columns planned) "orderNumber" p
                    /\ cell (columns out) "Status" r
                       = (if isin (cell (columns planned) "orderNumber" p) doOrders
                          then VStr "COMPLETED"
                          else cell (columns planned) "status" p))
                 /\ (cell (columns out) "Status" r = VStr "COMPLETED" ->
                     isin (cell (columns out) "OrderNumber" r) doOrders = true))
              (rows out).
Proof.
  intros H. apply orders_run_rows in H
    as (planned & scheduled & merged & numbers & doOrders & overlaid & t1 & t2
        & (Hp & _ & _ & _ & Hd & _ & _) & (Hpc & Hpl & Hps) & (Hsc & Hsl)
        & (Hmc & Hmr) & (Hovc & Hor) & (Hoc & Hfr)).
  exists planned, numbers, doOrders, t1, t2.
  specialize (Hps eq_refl).
  split; [exact Hp|]. split; [exact Hd|]. split; [exact Hps|].
  rewrite Hfr, Hor, Hmr, List.map_map. apply List.Forall_forall. intros r Hin.
  apply List.in_map_iff in Hin as (m & <- & Hin).
  apply List.in_flat_map in Hin as (p & Hpin & Hin).
  apply List.in_map_iff in Hin as (s & <- & Hal).
  assert (List.length p = 13%nat) as Hlp
    by (rewrite List.Forall_forall in Hpl; apply Hpl; exact Hpin).
  assert (List.length s = 9%nat) as Hls.
  { apply List.filter_In in Hal as [Hal _].
    rewrite List.Forall_forall in Hsl. apply Hsl. exact Hal. }
  destruct (view_cells doOrders p s Hlp Hls)
    as (H1 & H2 & H3 & H4 & H5 & H6 & H7).
  cbv zeta in *. rewrite Hoc, Hpc. rewrite H5, H6, H7, H4, H3, H2, H1.
  rewrite List.Forall_forall in Hps. specialize (Hps p Hpin).
  rewrite Hpc in Hps. split.
  - exists p. repeat split. exact Hpin.
  - destruct (isin (cell planned_view_columns "orderNumber" p) doOrders);
      [reflexivity|].
    intros Hst. rewrite Hst in Hps. discriminate Hps.
Qed.

End Orders.


(** The inner join on the demo site, called with the defaults: order 1 has
    two allocations on its item and two rows in the view, order 2 has no
    allocation and no row. *)
Lemma orders_inner_join_demo :
  exists out t',
    scheduler_get_orders Demo.rt Demo.self None None [] = (Ok out, t')
    /\ List.length (rows_of_order out (VInt 1)) = 2%nat
    /\ rows_of_order out (VInt 2) = [].
Proof.
  assert (exists out t',
            scheduler_get_orders Demo.rt Demo.self None None [] = (Ok out, t'))
    as (out & t' & Hrun) by (vm_compute; eauto).
  exists out, t'. split; [exact Hrun|].
  destruct (orders_inner_join Demo.rt Demo.self None None _ _ _ Hrun)
    as (planned & scheduled & t1 & t2 & Hp & Hs & _ & Hcount).
  vm_compute in Hp. injection Hp as <- <-.
  vm_compute in Hs. injection Hs as <- <-.
  split.
  - match type of Hcount with
    | forall p, single_order ?P p -> _ =>
        destruct (Hcount (nth 0 (rows P) [])) as (_ & _ & H2)
    end.
    + split; [reflexivity|]. eexists [], _. split; [reflexivity|].
      intros q [<-|[]]; reflexivity.
    + apply H2. reflexivity.
  - match type of Hcount with
    | forall p, single_order ?P p -> _ =>
        destruct (Hcount (nth 1 (rows P) [])) as (_ & H0 & _)
    end.
    + split; [reflexivity|]. eexists [_], _. split; [reflexivity|].
      intros q [<-|[]]; reflexivity.
    + apply H0. reflexivity.
Defined.

(** The overlay on a site where ORD-1 and ORD-2 are both scheduled and
    the execution service reports ORD-1 as completed: ORD-1 becomes
    COMPLETED, ORD-2 stays RELEASED. *)
Lemma status_overlay_demo :
  exists out t',
    scheduler_get_orders Cases.rt_both_scheduled Demo.self None None []
      = (Ok out, t')
    /\ List.map (fun r => (cell (columns out) "OrderNumber" r,
                           cell (columns out) "Status" r)) (rows out)
       = [(VStr "ORD-1", VStr "COMPLETED"); (VStr "ORD-2", VStr "RELEASED")]
    /\ exists planned t1 doOrders,
         _scheduler_get_planned_order Cases.rt_both_scheduled Demo.self
             (Some true) (Some []) []
           = (Ok (Some planned), t1)
         /\ Forall (fun r =>
                      exists p,
                        In p (rows planned)
                        /\ cell (columns out) "Id" r
                           = cell (columns planned) "id" p
                        /\ cell (columns out) "OrderNumber" r
                           = cell (columns planned) "orderNumber" p
                        /\ cell (columns out) "Status" r
                           = (if isin (cell (columns planned) "orderNumber" p)
                                      doOrders
                              then VStr "COMPLETED"
                              else cell (columns planned) "status" p))
                   (rows out).
Proof.
  assert (exists out t',
            scheduler_get_orders Cases.rt_both_scheduled Demo.self None None []
              = (Ok out, t'))
    as (out & t' & Hrun) by (vm_compute; eauto).
  exists out, t'. split; [exact Hrun|].
  destruct (status_overlay Cases.rt_both_scheduled Demo.self None None _ _ _
              Hrun)
    as (planned & scheduled & merged & numbers & doOrders & overlaid & t1 & t2
        & Hp & _ & _ & _ & _ & _ & _ & _ & _ & _ & _ & Hall).
  split.
  - pose proof Hrun as Hrun'. vm_compute in Hrun'. injection Hrun' as <- _.
    reflexivity.
  - exists planned, t1, doOrders. split; [exact Hp | exact Hall].
Defined.

(** The default call on the demo site. *)
Lemma default_completed_only_by_overlay_demo :
  exists out t',
    scheduler_get_orders Demo.rt Demo.self None None [] = (Ok out, t')
    /\ (exists planned numbers doOrders t1 t2,
    _scheduler_get_planned_order Demo.rt Demo.self (Some true) (Some (default [] None)) []
      = (Ok (Some planned), t1)
    /\ _do_get_completed_orders Demo.rt Demo.self numbers t2 = (Ok doOrders, t')
    /\ Forall (fun p => isin (cell (columns planned) "status" p)
                             excluded_statuses = false)
              (rows planned)
    /\ Forall (fun r =>
                 (exists p, In p (rows planned)
                    /\ cell (columns out) "Id" r = cell (columns planned) "id" p
                    /\ cell (columns out) "OrderNumber" r
                       = cell (columns planned) "orderNumber" p
                    /\ cell (columns out) "Status" r
                       = (if isin (cell (columns planned) "orderNumber" p) doOrders
                          then VStr "COMPLETED"
                          else cell (columns planned) "status" p))
                 /\ (cell (columns out) "Status" r = VStr "COMPLETED" ->
                     isin (cell (columns out) "OrderNumber" r) doOrders = true))
              (rows out)).
Proof.
  assert (exists out t',
            scheduler_get_orders Demo.rt Demo.self None None [] = (Ok out, t'))
    as (out & t' & Hrun) by (vm_compute; eauto).
  exists out, t'. split; [exact Hrun|].
  exact (default_completed_only_by_overlay Demo.rt Demo.self None _ _ _ Hrun).
Defined.

(** ** Left joins *)

Lemma pick_cells df names idx r :
  rmap (key_index df) names = Ok idx ->
  pick idx r = List.map (fun c => cell (columns df) c r) names.
Proof.
  intros H. apply rmap_Forall2 in H. unfold pick.
  induction H as [|c i names idx Hc _ IH]; [reflexivity|].
  cbn [List.map]. rewrite IH. f_equal. unfold cell, key_index in *.
  destruct (index_of c (columns df)); [|discriminate Hc].
  injection Hc as ->. reflexivity.
Qed.

Lemma flat_map_length_le {A B} (f : A -> list B) l :
  (forall x, (1 <= List.length (f x))%nat) ->
  (List.length l <= List.length (flat_map f l))%nat.
Proof.
  intros H. induction l as [|x l IH]; [reflexivity|].
  cbn. rewrite List.length_app. specialize (H x). lia.
Qed.

Lemma merge_left_holds left step out :
  merge_step left step = Ok out -> left_join_holds left step out.
Proof.
  destruct step as [right left_on right_on sfx].
  unfold merge_step, merge, left_join_holds, join_matches. cbn [step_right
    step_left_on step_right_on step_suffix]. intros H.
  apply rbind_ok in H as (lidx & Hl & H).
  apply rbind_ok in H as (ridx & Hr & H).
  destruct (negb (Nat.eqb _ _)); [discriminate H|]. cbv zeta in H.
  destruct (has_dup _ && negb _); [discriminate H|].
  destruct (negb _ || negb _); [discriminate H|].
  injection H as <-. cbn [rows columns].
  set (dropped := shared_keys left_on right_on).
  set (rkeep := strip (columns right) dropped (columns right)).
  assert (forall l,
            List.filter (fun r => keys_eqb
                (List.map (fun c => cell (columns left) c l) left_on)
                (List.map (fun c => cell (columns right) c r) right_on))
              (rows right)
            = matches lidx ridx (rows right) l) as Hmatch.
  { intros l. unfold matches. apply List.filter_ext. intros r.
    rewrite (pick_cells _ _ _ _ Hl), (pick_cells _ _ _ _ Hr). reflexivity. }
  split; [|split].
  - apply flat_map_length_le. intros l. unfold merge_row.
    destruct (matches lidx ridx (rows right) l); cbn; lia.
  - apply List.Forall_forall. intros l Hin. unfold merge_row.
    destruct (matches lidx ridx (rows right) l) as [|m ms] eqn:Hm.
    + eexists. apply List.in_flat_map. exists l. split; [exact Hin|].
      unfold merge_row. rewrite Hm. left. reflexivity.
    + eexists. apply List.in_flat_map. exists l. split; [exact Hin|].
      unfold merge_row. rewrite Hm. left. reflexivity.
  - apply List.Forall_forall. intros l Hin Hnone. rewrite Hmatch in Hnone.
    exists (List.map (fun _ => VNull) rkeep). split; [|split].
    + apply List.Forall_forall. intros v Hv.
      apply List.in_map_iff in Hv as (c & <- & _). reflexivity.
    + rewrite List.length_app, !List.length_map. reflexivity.
    + apply List.in_flat_map. exists l. split; [exact Hin|].
      unfold merge_row. rewrite Hnone. left. reflexivity.
Qed.

Lemma merge_chain_holds steps :
  forall left final,
    merge_chain left steps = Ok final -> chain_holds left steps final.
Proof.
  induction steps as [|step steps IH]; intros left final H; cbn in *.
  - injection H as <-. reflexivity.
  - apply rbind_ok in H as (out & Hstep & H).
    exists out. split; [exact Hstep|].
    split; [apply merge_left_holds; exact Hstep | apply IH; exact H].
Qed.

Lemma chain_holds_survival steps :
  forall left final,
    chain_holds left steps final ->
    (List.length (rows left) <= List.length (rows final))%nat
    /\ Forall (fun l => exists tail, In (l ++ tail) (rows final)) (rows left).
Proof.
  induction steps as [|step steps IH]; intros left final H; cbn in H.
  - subst final. split; [reflexivity|].
    apply List.Forall_forall. intros l Hin. exists [].
    rewrite List.app_nil_r. exact Hin.
  - destruct H as (out & _ & (Hlen & Hall & _) & Hrest).
    destruct (IH _ _ Hrest) as [Hlen' Hall']. split; [lia|].
    rewrite List.Forall_forall in *. intros l Hin.
    destruct (Hall l Hin) as (tail & Htail).
    destruct (Hall' _ Htail) as (tail' & Htail').
    exists (tail ++ tail'). rewrite List.app_assoc. exact Htail'.
Qed.

(** C5.  Each of the five steps of the merge chain of
    [scheduler_get_bom_setup] is a left join: its output has at least as
    many rows as its left input, every left row is the left part of some
    output row, and a left row without a match on the step's key carries
    missing values in all the columns the right frame added.  Hence every
    Operation row survives to the end of the chain. *)
Theorem bom_left_join_chain (operations_df routes_df materials_df segments_df
    equipments_df segment_materials_df merged_df : frame) :
  let steps := bom_steps routes_df materials_df segments_df equipments_df
                         segment_materials_df in
  merge_chain operations_df steps = Ok merged_df ->
  List.length steps = 5%nat
  /\ chain_holds operations_df steps merged_df
  /\ (List.length (rows operations_df) <= List.length (rows merged_df))%nat
  /\ Forall (fun l => exists tail, In (l ++ tail) (rows merged_df))
            (rows operations_df).
Proof.
  intros steps H. split; [reflexivity|].
  pose proof (merge_chain_holds _ _ _ H) as Hc.
  split; [exact Hc|]. exact (chain_holds_survival _ _ _ Hc).
Qed.

(** ** Sorting *)

Lemma cell_leb_total a b : cell_leb a b = false -> cell_leb b a = true.
Proof.
  destruct a, b; cbn; intros H; try reflexivity; try discriminate H.
  - destruct (Qle_bool q0 q) eqn:Hq; [reflexivity|].
    assert (~ (q <= q0)%Q) as H1
      by (intros Hle; apply Qle_bool_iff in Hle; congruence).
    assert (~ (q0 <= q)%Q) as H2
      by (intros Hle; apply Qle_bool_iff in Hle; congruence).
    apply Qnot_le_lt in H1. apply Qlt_le_weak in H1. contradiction.
  - destruct (String.leb_total s s0) as [Hl|Hl]; congruence.
Qed.

Lemma key_leb_total k :
  forall k', key_leb k k' = false -> key_leb k' k = true.
Proof.
  induction k as [|a k IH]; intros [|b k'] H; cbn in *; try discriminate H;
    try reflexivity.
  destruct (cell_leb b a) eqn:Hba; cbn in *; [|discriminate H].
  destruct (cell_leb a b) eqn:Hab; cbn in *; [|reflexivity].
  apply IH. exact H.
Qed.

Lemma string_leb_trans x y z :
  String.leb x y = true -> String.leb y z = true -> String.leb x z = true.
Proof.
  unfold String.leb. intros Hxy Hyz.
  destruct (String.compare x y) eqn:Cxy; [| |discriminate Hxy].
  - apply String.compare_eq_iff in Cxy. subst y. exact Hyz.
  - destruct (String.compare y z) eqn:Cyz; [| |discriminate Hyz].
    + apply String.compare_eq_iff in Cyz. subst z. rewrite Cxy. reflexivity.
    + apply String_as_OT.cmp_lt in Cxy, Cyz.
      pose proof (String_as_OT.lt_trans _ _ _ Cxy Cyz) as Hxz.
      apply String_as_OT.cmp_lt in Hxz. unfold String_as_OT.cmp in Hxz.
      rewrite Hxz. reflexivity.
Qed.

Lemma cell_leb_trans a b c :
  same_kind a b c ->
  cell_leb a b = true -> cell_leb b c = true -> cell_leb a c = true.
Proof.
  intros [Hk|Hk]; destruct a, b, c; cbn in Hk; try discriminate Hk; cbn;
    intros Hab Hbc; try reflexivity; try discriminate Hab; try discriminate Hbc.
  - eapply string_leb_trans; eassumption.
  - apply Qle_bool_iff in Hab, Hbc. apply Qle_bool_iff.
    eapply Qle_trans; eassumption.
Qed.

Lemma same_kind_perm a b c :
  same_kind a b c ->
  same_kind b a c /\ same_kind a c b /\ same_kind c b a
  /\ same_kind b c a /\ same_kind c a b.
Proof.
  unfold same_kind, all_str, all_num. cbn.
  rewrite !andb_true_r. rewrite !andb_true_iff.
  intros [(Ha & Hb & Hc)|(Ha & Hb & Hc)]; repeat split; tauto.
Qed.

Lemma key_leb_trans idx a b c :
  (forall i, In i idx ->
     same_kind (nth i a VNull) (nth i b VNull) (nth i c VNull)) ->
  key_leb (pick idx a) (pick idx b) = true ->
  key_leb (pick idx b) (pick idx c) = true ->
  key_leb (pick idx a) (pick idx c) = true.
Proof.
  induction idx as [|i idx IH]; intros Hk Hab Hbc; [reflexivity|].
  cbn in *.
  pose proof (Hk i (or_introl eq_refl)) as Hi.
  destruct (same_kind_perm _ _ _ Hi) as (Hbac & Hacb & Hcba & Hbca & Hcab).
  set (x := nth i a VNull) in *. set (y := nth i b VNull) in *.
  set (z := nth i c VNull) in *.
  destruct (cell_leb z x) eqn:Hzx; cbn; [|reflexivity].
  destruct (cell_leb y x) eqn:Hyx; cbn in Hab.
  - destruct (cell_leb x y) eqn:Hxy; cbn in Hab; [|discriminate Hab].
    destruct (cell_leb z y) eqn:Hzy; cbn in Hbc.
    + destruct (cell_leb y z) eqn:Hyz; cbn in Hbc; [|discriminate Hbc].
      rewrite (cell_leb_trans x y z Hi Hxy Hyz). cbn.
      apply IH; [|exact Hab | exact Hbc].
      intros j Hj. apply Hk. right. exact Hj.
    + rewrite (cell_leb_trans z x y Hcab Hzx Hxy) in Hzy. discriminate Hzy.
  - destruct (cell_leb z y) eqn:Hzy; cbn in Hbc.
    + destruct (cell_leb y z) eqn:Hyz; cbn in Hbc; [|discriminate Hbc].
      rewrite (cell_leb_trans y z x Hbca Hyz Hzx) in Hyx. discriminate Hyx.
    + apply cell_leb_total in Hzy.
      rewrite (cell_leb_trans y z x Hbca Hzy Hzx) in Hyx. discriminate Hyx.
Qed.

Lemma Sorted_strongly {A} (R : A -> A -> Prop) l :
  (forall a b c, In a l -> In b l -> In c l -> R a b -> R b c -> R a c) ->
  Sorted R l -> StronglySorted R l.
Proof.
  intros Htrans Hs. induction Hs as [|x l Hs IH Hhd]; constructor.
  - apply IH. intros a b c Ha Hb Hc. apply Htrans; right; assumption.
  - assert (StronglySorted R l) as Hss
      by (apply IH; intros a b c Ha Hb Hc; apply Htrans; right; assumption).
    destruct Hhd as [|y l Hxy]; constructor; [exact Hxy|].
    inversion Hss as [|? ? _ Hall]; subst.
    apply List.Forall_forall. intros z Hz.
    rewrite List.Forall_forall in Hall.
    apply (Htrans x y z); [left; reflexivity | right; left; reflexivity
                           | right; right; exact Hz | exact Hxy | apply Hall, Hz].
Qed.

Lemma sortable_same_kind df i a b c :
  sortable df i = true ->
  In a (rows df) -> In b (rows df) -> In c (rows df) ->
  same_kind (nth i a VNull) (nth i b VNull) (nth i c VNull).
Proof.
  unfold sortable, same_kind, all_str, all_num. cbv zeta.
  rewrite orb_true_iff, !List.forallb_forall. intros Hs Ha Hb Hc.
  destruct Hs as [Hs|Hs]; [left | right];
    intros x [<-|[<-|[<-|[]]]]; apply Hs;
    apply (List.in_map (fun r => nth i r VNull)); assumption.
Qed.

Lemma Sorted_impl {A} (R R' : A -> A -> Prop) l :
  (forall a b, R a b -> R' a b) -> Sorted R l -> Sorted R' l.
Proof.
  intros H. induction 1 as [|x l Hs IH Hhd]; constructor; [exact IH|].
  destruct Hhd; constructor. apply H. assumption.
Qed.

Section Sorting.

Variable idx : list nat.

Let ordered (a b : list value) : Prop :=
  key_leb (pick idx a) (pick idx b) = true.

Lemma insert_by_perm r l : Permutation (insert_by idx r l) (r :: l).
Proof.
  induction l as [|x l IH]; cbn; [reflexivity|].
  destruct (key_leb _ _); [reflexivity|].
  rewrite IH. apply perm_swap.
Qed.

Lemma sort_rows_perm l : Permutation (sort_rows idx l) l.
Proof.
  induction l as [|r l IH]; cbn; [constructor|].
  rewrite insert_by_perm. constructor. exact IH.
Qed.

Lemma insert_by_sorted r l : Sorted ordered l -> Sorted ordered (insert_by idx r l).
Proof.
  induction 1 as [|x l Hs IH Hhd]; cbn.
  - repeat constructor.
  - destruct (key_leb (pick idx r) (pick idx x)) eqn:Hrx.
    + constructor; [constructor; assumption|]. constructor. exact Hrx.
    + constructor; [exact IH|].
      destruct l as [|y l]; cbn.
      * constructor. apply key_leb_total. exact Hrx.
      * destruct (key_leb (pick idx r) (pick idx y)).
        -- constructor. apply key_leb_total. exact Hrx.
        -- inversion Hhd; subst. constructor. assumption.
Qed.

Lemma sort_rows_sorted l : Sorted ordered (sort_rows idx l).
Proof.
  induction l as [|r l IH]; cbn; [constructor|].
  apply insert_by_sorted. exact IH.
Qed.

End Sorting.

(** ** The numeric columns of the BOM view *)

Section Bom.

Variable rt : runtime.

Lemma numeric_cell_spec v v' :
  numeric_cell rt v = Ok v' -> v' = numeric_spec rt v.
Proof.
  unfold numeric_cell, replace_cell, null_tokens, numeric_spec.
  destruct v as [|b|q|s| | |]; cbn; intros H; try discriminate H.
  - injection H as <-. reflexivity.
  - injection H as <-. reflexivity.
  - injection H as <-. reflexivity.
  - rewrite !orb_false_r in *.
    destruct (String.eqb s "NaN" || (String.eqb s "null" || String.eqb s ""));
      cbn in H.
    + injection H as <-. reflexivity.
    + destruct (str_to_float rt s); injection H as <-; reflexivity.
Qed.

Lemma numeric_spec_shape v :
  numeric_spec rt v = VNull \/ exists q, numeric_spec rt v = VNum q.
Proof.
  destruct v as [|b|q|s| | |]; cbn; eauto.
  destruct (String.eqb s "NaN" || _); [right; eexists; reflexivity|].
  destruct (str_to_float rt s); eauto.
Qed.

Lemma rate_hour_cell v r h :
  numeric_cell rt v = Ok r ->
  (let? y := mul_cell rt 60 r in mul_cell rt 60 y) = Ok h ->
  rate_hour_spec rt r h.
Proof.
  intros Hr Hh. apply numeric_cell_spec in Hr. subst r.
  destruct (numeric_spec_shape v) as [Hn|[q Hn]]; rewrite Hn in *; cbn in Hh.
  - injection Hh as <-. reflexivity.
  - injection Hh as <-. reflexivity.
Qed.

Lemma Forall2_weaken {A B} (R R' : A -> B -> Prop) l l' :
  (forall x y, R x y -> R' x y) -> Forall2 R l l' -> Forall2 R' l l'.
Proof. intros H HF. induction HF; constructor; auto. Qed.

(** Lines 422-424 on a well-formed merged table, column by column. *)
Lemma bom_derive_numeric (merged_df out : frame) :
  well_formed merged_df ->
  bom_derive rt merged_df = Ok out ->
  exists fixedDuration rate fixedDuration' rate' rateHour,
    getcol merged_df "fixedDuration" = Ok fixedDuration
    /\ getcol merged_df "rate" = Ok rate
    /\ getcol out "fixedDuration" = Ok fixedDuration'
    /\ getcol out "rate" = Ok rate'
    /\ getcol out "rateHour" = Ok rateHour
    /\ Forall2 (fun v v' => v' = numeric_spec rt v) fixedDuration fixedDuration'
    /\ Forall2 (fun v v' => v' = numeric_spec rt v) rate rate'
    /\ Forall2 (rate_hour_spec rt) rate' rateHour.
Proof.
  intros Hwf H. unfold bom_derive, map_col in H.
  apply rbind_ok in H as (d1 & H1 & H).
  apply (assign_apply_spec _ _ _ _ _ Hwf) in H1 as (Hwf1 & _ & Ho1).
  apply rbind_ok in H as (d2 & H2 & H).
  apply (assign_apply_spec _ _ _ _ _ Hwf1) in H2 as (Hwf2 & _ & Ho2).
  apply rbind_ok in H as (d3 & H3 & H).
  apply (assign_apply_spec _ _ _ _ _ Hwf2) in H3 as (Hwf3 & _ & Ho3).
  apply rbind_ok in H as (d4 & H4 & H).
  apply (assign_apply_spec _ _ _ _ _ Hwf3) in H4 as (Hwf4 & _ & Ho4).
  apply rbind_ok in H as (d5 & H5 & H).
  apply (assign_apply_spec _ _ _ _ _ Hwf4) in H5 as (Hwf5 & _ & Ho5).
  apply rbind_ok in H as (d6 & H6 & H).
  apply (assign_apply_spec _ _ _ _ _ Hwf5) in H6
    as (Hwf6 & (fd & fd' & Hfd & Hfd' & Hfd6) & Ho6).
  apply rbind_ok in H as (d7 & H7 & H).
  apply (assign_apply_spec _ _ _ _ _ Hwf6) in H7
    as (Hwf7 & (ra & ra' & Hra & Hra' & Hra7) & Ho7).
  apply (assign_apply_spec _ _ _ _ _ Hwf7) in H
    as (_ & (ra2 & hour & Hra2 & Hhour & Hh) & Ho8).
  rewrite Hra7 in Hra2. injection Hra2 as <-.
  exists fd, ra, fd', ra', hour.
  split.
  { rewrite <- Hfd, Ho5, Ho4, Ho3, Ho2, Ho1 by discriminate. reflexivity. }
  split.
  { rewrite <- Hra, Ho6, Ho5, Ho4, Ho3, Ho2, Ho1 by discriminate. reflexivity. }
  split; [rewrite Ho8, Ho7 by discriminate; exact Hfd6|].
  split; [rewrite Ho8 by discriminate; exact Hra7|].
  split; [exact Hh|].
  apply rmap_Forall2 in Hfd', Hra', Hhour.
  split; [|split].
  - eapply Forall2_weaken; [|exact Hfd']. intros v v'. apply numeric_cell_spec.
  - eapply Forall2_weaken; [|exact Hra']. intros v v'. apply numeric_cell_spec.
  - clear -Hra' Hhour. revert hour Hhour.
    induction Hra' as [|v r ra ra' Hv _ IH]; intros hour Hhour;
      inversion Hhour; subst; constructor.
    + eapply rate_hour_cell; eassumption.
    + apply IH. assumption.
Qed.

(** *** Well-formed frames along the pipeline *)

Lemma DataFrame_wf v df : DataFrame v = Ok df -> well_formed df.
Proof.
  unfold DataFrame, well_formed. destruct v; intros H; try discriminate H.
  - injection H as <-. constructor.
  - apply rbind_ok in H as (recs & _ & H). injection H as <-.
    cbn [rows columns]. apply List.Forall_forall. intros r Hin.
    apply List.in_map_iff in Hin as (o & <- & _).
    unfold record_row. apply List.length_map.
Qed.

Lemma select_wf df names out : select df names = Ok out -> well_formed out.
Proof.
  intros H. apply select_spec in H as [Hc Hr]. unfold well_formed.
  rewrite Hc, Hr. apply List.Forall_forall. intros r Hin.
  apply List.in_map_iff in Hin as (r0 & <- & _). apply List.length_map.
Qed.

Lemma strip_length {A B} cols dropped (xs : list A) (ys : list B) :
  List.length xs = List.length cols -> List.length ys = List.length cols ->
  List.length (strip cols dropped xs) = List.length (strip cols dropped ys).
Proof.
  revert xs ys. induction cols as [|c cols IH]; intros [|x xs] [|y ys] Hx Hy;
    try discriminate Hx; try discriminate Hy; try reflexivity.
  injection Hx as Hx. injection Hy as Hy. cbn.
  destruct (mem_str c dropped); cbn; rewrite (IH xs ys Hx Hy); reflexivity.
Qed.

Lemma merge_wf h left right left_on right_on sfx out :
  well_formed left -> well_formed right ->
  merge h left right left_on right_on sfx = Ok out -> well_formed out.
Proof.
  unfold merge, well_formed. intros Hl Hr H.
  apply rbind_ok in H as (lidx & _ & H).
  apply rbind_ok in H as (ridx & _ & H).
  destruct (negb (Nat.eqb _ _)); [discriminate H|]. cbv zeta in H.
  destruct (has_dup _ && negb _); [discriminate H|].
  destruct (negb _ || negb _); [discriminate H|].
  injection H as <-. cbn [rows columns].
  rewrite List.Forall_forall in *. intros r Hin.
  apply List.in_flat_map in Hin as (l & Hlin & Hin).
  rewrite List.length_app, List.length_map.
  assert (forall m, In m (rows right) ->
            List.length (l ++ strip (columns right)
                                    (shared_keys left_on right_on) m)
            = (List.length (columns left)
               + List.length (strip (columns right)
                                    (shared_keys left_on right_on)
                                    (columns right)))%nat) as Hrow.
  { intros m Hm. rewrite List.length_app, (Hl l Hlin). f_equal.
    apply strip_length; [apply Hr; exact Hm | reflexivity]. }
  unfold merge_row, matches in Hin.
  destruct (List.filter _ (rows right)) as [|m ms] eqn:Hms.
  - destruct h; cbn in Hin; [|contradiction].
    destruct Hin as [<-|[]].
    rewrite List.length_app, List.length_map, (Hl l Hlin). reflexivity.
  - assert (incl (m :: ms) (rows right)) as Hincl
      by (rewrite <- Hms; apply List.incl_filter).
    assert (In r (List.map (fun r0 => l ++ strip (columns right)
                                  (shared_keys left_on right_on) r0) (m :: ms)))
      as Hin' by (destruct h; exact Hin).
    apply List.in_map_iff in Hin' as (m' & <- & Hm').
    apply Hrow, Hincl, Hm'.
Qed.

Lemma merge_chain_wf steps :
  forall left final,
    well_formed left ->
    Forall (fun step => well_formed (step_right step)) steps ->
    merge_chain left steps = Ok final -> well_formed final.
Proof.
  induction steps as [|step steps IH]; intros left final Hl Hs H; cbn in H.
  - injection H as <-. exact Hl.
  - apply rbind_ok in H as (m & Hm & H).
    inversion Hs as [|? ? Hstep Hrest]; subst.
    eapply IH; [|exact Hrest | exact H].
    unfold merge_step in Hm. eapply merge_wf; [exact Hl | exact Hstep | exact Hm].
Qed.

Lemma fetch_frame_wf self name t df t' :
  fetch_frame rt self name t = (Ok df, t') -> well_formed df.
Proof.
  unfold fetch_frame. intros H.
  apply bind_ok in H as (e & t1 & _ & H).
  apply bind_ok in H as (data & t2 & _ & H).
  apply lift_ok in H as [H _]. eapply DataFrame_wf. exact H.
Qed.

Lemma materials_wf self t df t' :
  _scheduler_get_materials rt self t = (Ok df, t') -> well_formed df.
Proof.
  unfold _scheduler_get_materials. intros H.
  apply bind_ok in H as (data & t1 & _ & H).
  apply lift_ok in H as [H _]. unfold materials_frame in H.
  apply rbind_ok in H as (d1 & _ & H).
  apply rbind_ok in H as (d2 & _ & H).
  apply rbind_ok in H as (d3 & _ & H). cbv zeta in H.
  apply rbind_ok in H as (d4 & Hsel & H). injection H as <-.
  apply select_wf in Hsel. unfold well_formed, fillna_empty in *.
  cbn [rows columns]. rewrite List.Forall_forall in *. intros r Hin.
  apply List.in_map_iff in Hin as (r0 & <- & Hin).
  rewrite List.length_map. apply Hsel. exact Hin.
Qed.

(** The stages of a call of [scheduler_get_bom_setup] that returned. *)
Lemma bom_run_inv self t out t' :
  scheduler_get_bom_setup rt self t = (Ok out, t') ->
  exists operations_df routes_df materials_df segments_df equipments_df
         segment_materials_df merged_df derived typed,
    merge_chain operations_df
      (bom_steps routes_df materials_df segments_df equipments_df
                 segment_materials_df) = Ok merged_df
    /\ well_formed merged_df
    /\ bom_derive rt merged_df = Ok derived
    /\ astype rt derived bom_dtypes = Ok typed
    /\ bom_project typed = Ok out.
Proof.
  unfold scheduler_get_bom_setup, _scheduler_get_operations,
    _scheduler_get_routes, _scheduler_get_segments, _scheduler_get_equipments,
    _scheduler_get_segment_materials. intros H.
  apply bind_ok in H as (ops & t1 & H1 & H).
  apply bind_ok in H as (routes & t2 & H2 & H).
  apply bind_ok in H as (mats & t3 & H3 & H).
  apply bind_ok in H as (segs & t4 & H4 & H).
  apply bind_ok in H as (eqs & t5 & H5 & H).
  apply bind_ok in H as (smats & t6 & H6 & H).
  apply lift_ok in H as [H _]. unfold bom_view in H.
  apply rbind_ok in H as (merged & Hm & H).
  apply rbind_ok in H as (derived & Hd & H).
  apply rbind_ok in H as (typed & Ht & H).
  exists ops, routes, mats, segs, eqs, smats, merged, derived, typed.
  split; [exact Hm|]. split; [|repeat split; assumption].
  apply fetch_frame_wf in H1, H2, H4, H5, H6. apply materials_wf in H3.
  eapply merge_chain_wf; [exact H1 | | exact Hm].
  repeat constructor; assumption.
Qed.

(** C4, as the code has it.  The view [scheduler_get_bom_setup] returns
    has the 17 selected columns under their labels, in selection order; its
    rows are those of the typed table, projected to these columns and
    rearranged so that they ascend by (Operation Code, Segment, Route,
    Material Code), compared in this order, missing values last. *)
Theorem bom_view_columns_and_order self t out t' :
  scheduler_get_bom_setup rt self t = (Ok out, t') ->
  columns out = bom_view_columns
  /\ List.length (columns out) = 17%nat
  /\ columns out
     = List.map (fun c => default c (assoc c bom_labels)) bom_selected_columns
  /\ (exists typed,
        bom_project typed = Ok out
        /\ Permutation (rows out)
             (List.map (fun r => List.map (fun c => cell (columns typed) c r)
                                          bom_selected_columns)
                       (rows typed)))
  /\ StronglySorted
       (fun a b => key_leb (bom_key out a) (bom_key out b) = true) (rows out).
Proof.
  intros H. apply bom_run_inv in H
    as (ops & routes & mats & segs & eqs & smats & merged & derived & typed
        & _ & _ & _ & _ & Hp).
  assert (bom_project typed = Ok out) as Hproject by exact Hp.
  unfold bom_project in Hp. apply rbind_ok in Hp as (sel & Hsel & Hp).
  apply select_spec in Hsel as [Hc Hr].
  remember (rename sel bom_labels) as df eqn:Hdf.
  assert (columns df = bom_view_columns) as Hcols
    by (rewrite Hdf; unfold rename; cbn [columns]; rewrite Hc; reflexivity).
  assert (rows df = rows sel) as Hrows by (rewrite Hdf; reflexivity).
  clear Hdf.
  unfold sort_values in Hp. apply rbind_ok in Hp as (idx & Hidx & Hp).
  destruct (forallb (sortable df) idx) eqn:Hsortable; [|discriminate Hp].
  rewrite Hcols, Hrows in Hp. injection Hp as <-. cbn [columns rows].
  split; [reflexivity|]. split; [reflexivity|]. split; [reflexivity|].
  assert (forall a, bom_key {| columns := bom_view_columns;
                               rows := sort_rows idx (rows sel) |} a
                    = pick idx a) as Hkey.
  { intros a. rewrite (pick_cells _ _ _ _ Hidx), Hcols. reflexivity. }
  split.
  - exists typed. split; [exact Hproject|]. rewrite <- Hr.
    apply sort_rows_perm.
  - apply Sorted_strongly.
    + intros a b c Ha Hb Hc'. rewrite !Hkey.
      apply key_leb_trans. intros i Hi.
      rewrite List.forallb_forall in Hsortable.
      apply (sortable_same_kind _ _ _ _ _ (Hsortable i Hi)); rewrite Hrows;
        eapply Permutation_in; try apply sort_rows_perm; eassumption.
    + eapply Sorted_impl; [|apply (sort_rows_sorted idx)].
      intros a b. rewrite !Hkey. intros Hab. exact Hab.
Qed.

End Bom.

(** Header and order of the view on the demo site. *)
Lemma bom_view_columns_and_order_demo :
  exists out t',
    scheduler_get_bom_setup Demo.rt Demo.self [] = (Ok out, t')
    /\ (columns out = bom_view_columns
  /\ List.length (columns out) = 17%nat
  /\ columns out
     = List.map (fun c => default c (assoc c bom_labels)) bom_selected_columns
  /\ (exists typed,
        bom_project typed = Ok out
        /\ Permutation (rows out)
             (List.map (fun r => List.map (fun c => cell (columns typed) c r)
                                          bom_selected_columns)
                       (rows typed)))
  /\ StronglySorted
       (fun a b => key_leb (bom_key out a) (bom_key out b) = true) (rows out)).
Proof.
  assert (exists out t',
            scheduler_get_bom_setup Demo.rt Demo.self [] = (Ok out, t'))
    as (out & t' & Hrun) by (vm_compute; eauto).
  exists out, t'. split; [exact Hrun|].
  exact (bom_view_columns_and_order Demo.rt Demo.self _ _ _ Hrun).
Defined.

(** The chain on the demo site: two operations, three joined rows. *)
Lemma bom_left_join_chain_demo :
  exists merged_df,
    merge_chain (Demo.frame_of Demo.operations) Demo.steps = Ok merged_df
    /\ chain_holds (Demo.frame_of Demo.operations) Demo.steps merged_df
    /\ (List.length (rows (Demo.frame_of Demo.operations))
        <= List.length (rows merged_df))%nat
    /\ List.length (rows merged_df) = 3%nat.
Proof.
  assert (exists merged_df,
            merge_chain (Demo.frame_of Demo.operations) Demo.steps = Ok merged_df
            /\ List.length (rows merged_df) = 3%nat)
    as (merged_df & Hrun & Hlen)
    by (vm_compute; eexists; split; reflexivity).
  exists merged_df. split; [exact Hrun|].
  destruct (bom_left_join_chain _ _ _ _ _ _ _ Hrun) as (_ & Hc & Hl & _).
  split; [exact Hc|]. split; [exact Hl | exact Hlen].
Defined.

(** C3 as stated fails.  On the demo site the segment S2 has the rate "abc",
    which does not parse; its row in the view has NaN as Rate and as Rate
    per Hour, not 0. *)
Lemma bom_rate_unparsable_not_zero :
  str_to_float Demo.rt "abc" = None
  /\ numeric_cell Demo.rt (VStr "abc") = Ok VNull
  /\ exists out t',
       scheduler_get_bom_setup Demo.rt Demo.self [] = (Ok out, t')
       /\ exists r,
            In r (rows out)
            /\ cell (columns out) "Segment" r = VStr "S2"
            /\ cell (columns out) "Rate" r = VNull
            /\ cell (columns out) "Rate" r <> VInt 0
            /\ cell (columns out) "Rate per Hour" r = VNull.
Proof.
  split; [reflexivity|]. split; [reflexivity|].
  vm_compute. do 2 eexists. split; [reflexivity|].
  eexists. split; [right; left; reflexivity|].
  repeat split; try reflexivity. discriminate.
Qed.

(** C4 as stated fails: the view has 17 columns, not 13. *)
Lemma bom_view_not_13_columns :
  ~ (forall rt self t out t',
       scheduler_get_bom_setup rt self t = (Ok out, t') ->
       List.length (columns out) = 13%nat).
Proof.
  intros H.
  assert (exists out t',
            scheduler_get_bom_setup Demo.rt Demo.self [] = (Ok out, t')
            /\ List.length (columns out) = 17%nat)
    as (out & t' & Hrun & Hlen)
    by (vm_compute; do 2 eexists; split; reflexivity).
  specialize (H _ _ _ _ _ Hrun). rewrite Hlen in H. discriminate H.
Qed.

Lemma demo_service_healthy : do_service_healthy Demo.rt.
Proof.
  intros t [m url hs js] Hm. cbn in Hm. subst m.
  split; [reflexivity|]. cbn. unfold Demo.rest_data.
  repeat match goal with
         | |- context [if ?b then _ else _] => destruct b
         end;
    match goal with
    | |- exists recs, Some ?v = _ /\ _ => exists (Demo.records_of v)
    end;
    (split; [reflexivity|]);
    cbn; repeat constructor; cbn; intros v Hv; inversion Hv; reflexivity.
Qed.

(** The lookup on the demo site: 161 order numbers, three requests, one
    completed order. *)
Lemma completed_lookup_batches_demo :
  _do_get_completed_orders Demo.rt Demo.self Demo.many_orders []
    = (Ok [VStr "ORD-1"],
       List.map (fun b => do_request Demo.self
                            (completed_endpoint
                               (join "," (List.map (fun v => match v with
                                                             | VStr s => s
                                                             | _ => ""
                                                             end) b))))
                (batches Demo.many_orders))
  /\ distinct [VStr "ORD-1"]
  /\ List.length (batches Demo.many_orders) = 3%nat
  /\ exists out t',
       _do_get_completed_orders Demo.rt Demo.self Demo.many_orders []
         = (Ok out, t').
Proof.
  assert (_do_get_completed_orders Demo.rt Demo.self Demo.many_orders []
          = (Ok [VStr "ORD-1"],
             List.map (fun b => do_request Demo.self
                            (completed_endpoint
                               (join "," (List.map (fun v => match v with
                                                             | VStr s => s
                                                             | _ => ""
                                                             end) b))))
                (batches Demo.many_orders))) as Hrun
    by (vm_compute; reflexivity).
  split; [exact Hrun|].
  destruct (completed_lookup_batches Demo.rt Demo.self Demo.many_orders [])
    as (_ & _ & _ & Hk & _ & Hok & Hreturns).
  destruct (Hok _ _ Hrun) as (Hd & _ & _).
  split; [exact Hd|]. split; [rewrite Hk; reflexivity|].
  apply Hreturns; [exact demo_service_healthy|].
  apply List.Forall_forall. intros v Hv. unfold Demo.many_orders in Hv.
  apply List.in_map_iff in Hv as (k & <- & _). eexists. reflexivity.
Defined.

(** * Further properties *)

(** ** Columns through the steps of a pipeline *)

Lemma getcol_cells df c vals :
  getcol df c = Ok vals ->
  has_column df c = true
  /\ vals = List.map (cell (columns df) c) (rows df).
Proof.
  unfold getcol, has_column, cell.
  destruct (index_of c (columns df)); intros H; [|discriminate H].
  injection H as <-. split; reflexivity.
Qed.

Lemma has_column_getcol df c :
  has_column df c = true ->
  getcol df c = Ok (List.map (cell (columns df) c) (rows df)).
Proof.
  unfold getcol, has_column, cell.
  destruct (index_of c (columns df)); intros H; [reflexivity | discriminate H].
Qed.

Lemma column_all_getcol df c (P : value -> Prop) :
  column_all df c P <-> exists vals, getcol df c = Ok vals /\ Forall P vals.
Proof.
  unfold column_all. split.
  - intros [Hc Hall]. eexists. split; [apply has_column_getcol; exact Hc|].
    rewrite List.Forall_forall in *. intros v Hv.
    apply List.in_map_iff in Hv as (r & <- & Hr). apply Hall. exact Hr.
  - intros (vals & Hg & Hall). apply getcol_cells in Hg as [Hc ->].
    split; [exact Hc|]. rewrite List.Forall_forall in *. intros r Hr.
    apply Hall. apply List.in_map. exact Hr.
Qed.

Lemma rmap_Forall_out {A B} (f : A -> result B) (P : B -> Prop) l l' :
  (forall x y, f x = Ok y -> P y) -> rmap f l = Ok l' -> Forall P l'.
Proof.
  intros Hf H. apply rmap_Forall2 in H.
  induction H as [|x y l l' Hxy _ IH]; constructor; [eapply Hf; exact Hxy | exact IH].
Qed.

Lemma assign_apply_keeps df dst src f out c (P : value -> Prop) :
  well_formed df -> assign_apply df dst src f = Ok out ->
  c <> dst -> column_all df c P -> column_all out c P.
Proof.
  intros Hwf H Hne Hc. apply (assign_apply_spec _ _ _ _ _ Hwf) in H as (_ & _ & Ho).
  apply column_all_getcol in Hc as (vals & Hg & Hall).
  apply column_all_getcol. exists vals. rewrite (Ho c Hne). split; assumption.
Qed.

Lemma assign_apply_sets df dst src f out (P : value -> Prop) :
  well_formed df -> assign_apply df dst src f = Ok out ->
  (forall v v', f v = Ok v' -> P v') -> column_all out dst P.
Proof.
  intros Hwf H Hf.
  apply (assign_apply_spec _ _ _ _ _ Hwf) in H as (_ & (vals & new & _ & Hn & Hg) & _).
  apply column_all_getcol. exists new. split; [exact Hg|].
  eapply rmap_Forall_out; eassumption.
Qed.

Lemma assign_apply_wf df dst src f out :
  well_formed df -> assign_apply df dst src f = Ok out -> well_formed out.
Proof. intros Hwf H. apply (assign_apply_spec _ _ _ _ _ Hwf) in H. apply H. Qed.

Lemma assign_apply_rows df dst src f out :
  well_formed df -> assign_apply df dst src f = Ok out ->
  List.length (rows out) = List.length (rows df).
Proof.
  intros Hwf H. unfold assign_apply in H.
  apply rbind_ok in H as (vals & Hv & H).
  apply rbind_ok in H as (new & Hn & H). injection H as <-.
  apply setcol_spec; [exact Hwf|].
  rewrite (rmap_length _ _ _ Hn). eapply getcol_length. exact Hv.
Qed.

Lemma column_all_incl df out c (P : value -> Prop) :
  columns out = columns df -> incl (rows out) (rows df) ->
  column_all df c P -> column_all out c P.
Proof.
  unfold column_all, has_column. intros Hc Hi [Hh Hall]. rewrite Hc.
  split; [exact Hh|]. rewrite List.Forall_forall in *. auto.
Qed.

Lemma index_of_In c names : In c names -> index_of c names <> None.
Proof.
  induction names as [|x names IH]; intros Hin; [contradiction|]. cbn.
  destruct (String.eqb_spec c x) as [->|Hne]; [discriminate|].
  destruct Hin as [->|Hin]; [contradiction|]. specialize (IH Hin).
  destruct (index_of c names); [discriminate | contradiction].
Qed.

Lemma cell_of_map names c (f : string -> value) :
  In c names -> cell names c (List.map f names) = f c.
Proof.
  unfold cell. induction names as [|x names IH]; intros Hin; [contradiction|].
  cbn. destruct (String.eqb_spec c x) as [->|Hne]; [reflexivity|].
  destruct Hin as [->|Hin]; [contradiction|].
  pose proof (index_of_In _ _ Hin) as Hi. specialize (IH Hin).
  destruct (index_of c names); [exact IH | contradiction].
Qed.

Lemma select_column df names out c (P : value -> Prop) :
  select df names = Ok out -> In c names ->
  column_all df c P -> column_all out c P.
Proof.
  intros H Hin [_ Hall]. apply select_spec in H as [Hc Hr].
  unfold column_all, has_column. rewrite Hc, Hr. split.
  - pose proof (index_of_In _ _ Hin) as Hi.
    destruct (index_of c names); [reflexivity | contradiction].
  - rewrite List.Forall_forall in *. intros r Hr'.
    apply List.in_map_iff in Hr' as (r0 & <- & Hr0).
    rewrite cell_of_map by exact Hin. apply Hall. exact Hr0.
Qed.

Lemma rename_column df mapping cols c c' (P : value -> Prop) :
  columns df = cols ->
  index_of c' (List.map (fun x => default x (assoc x mapping)) cols)
    = index_of c cols ->
  column_all df c P -> column_all (rename df mapping) c' P.
Proof.
  unfold column_all, has_column, cell, rename. cbn [columns rows].
  intros -> Hi [Hh Hall]. rewrite Hi. split; assumption.
Qed.


(** ** What the planned-order and allocation frames hold *)

Lemma priority_label_range z :
  priority_label z = "High" \/ priority_label z = "Medium"
  \/ priority_label z = "Low" \/ priority_label z = "".
Proof.
  unfold priority_label, _scheduler_priority_map.
  destruct (decide (z = 1)) as [->|H1]; [left; reflexivity|].
  destruct (decide (z = 2)) as [->|H2]; [right; left; reflexivity|].
  destruct (decide (z = 3)) as [->|H3]; [right; right; left; reflexivity|].
  rewrite !lookup_insert_ne by congruence.
  rewrite lookup_empty. right. right. right. reflexivity.
Qed.

Lemma priority_get_label v v' :
  priority_get v = Ok v' -> is_priority_label v'.
Proof.
  assert (forall z, is_priority_label (VStr (priority_label z))) as Hz.
  { intros z. unfold is_priority_label.
    destruct (priority_label_range z) as [->|[->|[->| ->]]]; tauto. }
  unfold priority_get. destruct v; intros H; try discriminate H;
    try (injection H as <-; unfold is_priority_label; tauto).
  - injection H as <-. apply Hz.
  - destruct (Qeq_bool _ _); injection H as <-; [apply Hz|].
    unfold is_priority_label; tauto.
Qed.

Section Typed.

Variable rt : runtime.

Lemma astype_int64_int v v' : astype_int64 rt v = Ok v' -> is_int v'.
Proof.
  unfold astype_int64. intros H. apply rbind_ok in H as (z & _ & H).
  injection H as <-. exists z. reflexivity.
Qed.

Lemma astype_string_text v v' : astype_string rt v = Ok v' -> is_text v'.
Proof.
  unfold astype_string, is_text.
  destruct v; intros H; injection H as <-; eauto.
Qed.

Lemma astype_float_number v v' : astype_float rt v = Ok v' -> is_number v'.
Proof.
  unfold astype_float, is_number, VInt.
  destruct v; intros H; try discriminate H; try (injection H as <-; eauto).
  destruct (str_to_float rt s); [injection H as <-; eauto | discriminate H].
Qed.

(** The derived columns of the planned orders, by kind. *)
Lemma planned_derive_columns data d :
  well_formed data ->
  planned_derive rt data = Ok d ->
  well_formed d
  /\ column_all d "orderItemsId" is_int
  /\ column_all d "priority" is_priority_label
  /\ column_all d "ProductCode" is_text
  /\ column_all d "notes" is_text
  /\ column_all d "externalId" is_text.
Proof.
  intros Hwf H. unfold planned_derive, map_col in H.
  apply rbind_ok in H as (d1 & H1 & H).
  pose proof (assign_apply_wf _ _ _ _ _ Hwf H1) as Hwf1.
  apply rbind_ok in H as (d2 & H2 & H).
  pose proof (assign_apply_wf _ _ _ _ _ Hwf1 H2) as Hwf2.
  apply rbind_ok in H as (items & Hitems & H).
  apply rbind_ok in H as (ids0 & Hids0 & H).
  apply rbind_ok in H as (ids & Hids & H). cbv zeta in H.
  assert (List.length ids = List.length (rows d2)) as Hlen.
  { rewrite (rmap_length _ _ _ Hids), (rmap_length _ _ _ Hids0).
    eapply getcol_length. exact Hitems. }
  destruct (setcol_spec d2 "orderItemsId" ids Hwf2 Hlen) as (Hwf3 & Hg3 & _ & _).
  assert (column_all (setcol d2 "orderItemsId" ids) "orderItemsId" is_int) as Cid.
  { apply column_all_getcol. exists ids. split; [exact Hg3|].
    eapply rmap_Forall_out; [|exact Hids]. apply astype_int64_int. }
  set (d3 := setcol d2 "orderItemsId" ids) in *.
  apply rbind_ok in H as (d4 & H4 & H).
  pose proof (assign_apply_wf _ _ _ _ _ Hwf3 H4) as Hwf4.
  apply (assign_apply_keeps _ _ _ _ _ _ _ Hwf3 H4) in Cid; [|discriminate].
  apply rbind_ok in H as (d5 & H5 & H).
  pose proof (assign_apply_wf _ _ _ _ _ Hwf4 H5) as Hwf5.
  apply (assign_apply_keeps _ _ _ _ _ _ _ Hwf4 H5) in Cid; [|discriminate].
  apply rbind_ok in H as (d6 & H6 & H).
  pose proof (assign_apply_wf _ _ _ _ _ Hwf5 H6) as Hwf6.
  apply (assign_apply_keeps _ _ _ _ _ _ _ Hwf5 H6) in Cid; [|discriminate].
  apply rbind_ok in H as (d7 & H7 & H).
  pose proof (assign_apply_wf _ _ _ _ _ Hwf6 H7) as Hwf7.
  apply (assign_apply_keeps _ _ _ _ _ _ _ Hwf6 H7) in Cid; [|discriminate].
  apply rbind_ok in H as (d8 & H8 & H).
  pose proof (assign_apply_wf _ _ _ _ _ Hwf7 H8) as Hwf8.
  apply (assign_apply_keeps _ _ _ _ _ _ _ Hwf7 H8) in Cid; [|discriminate].
  pose proof (assign_apply_sets _ _ _ _ _ is_priority_label Hwf7 H8
                priority_get_label) as Cpr.
  apply rbind_ok in H as (d9 & H9 & H).
  pose proof (assign_apply_wf _ _ _ _ _ Hwf8 H9) as Hwf9.
  apply (assign_apply_keeps _ _ _ _ _ _ _ Hwf8 H9) in Cid; [|discriminate].
  apply (assign_apply_keeps _ _ _ _ _ _ _ Hwf8 H9) in Cpr; [|discriminate].
  pose proof (assign_apply_sets _ _ _ _ _ is_text Hwf8 H9
                astype_string_text) as Cpc.
  apply rbind_ok in H as (d10 & H10 & H).
  pose proof (assign_apply_wf _ _ _ _ _ Hwf9 H10) as Hwf10.
  apply (assign_apply_keeps _ _ _ _ _ _ _ Hwf9 H10) in Cid; [|discriminate].
  apply (assign_apply_keeps _ _ _ _ _ _ _ Hwf9 H10) in Cpr; [|discriminate].
  apply (assign_apply_keeps _ _ _ _ _ _ _ Hwf9 H10) in Cpc; [|discriminate].
  pose proof (assign_apply_sets _ _ _ _ _ is_text Hwf9 H10
                astype_string_text) as Cno.
  pose proof (assign_apply_wf _ _ _ _ _ Hwf10 H) as Hwfd.
  apply (assign_apply_keeps _ _ _ _ _ _ _ Hwf10 H) in Cid; [|discriminate].
  apply (assign_apply_keeps _ _ _ _ _ _ _ Hwf10 H) in Cpr; [|discriminate].
  apply (assign_apply_keeps _ _ _ _ _ _ _ Hwf10 H) in Cpc; [|discriminate].
  apply (assign_apply_keeps _ _ _ _ _ _ _ Hwf10 H) in Cno; [|discriminate].
  pose proof (assign_apply_sets _ _ _ _ _ is_text Hwf10 H
                astype_string_text) as Cex.
  split; [exact Hwfd|]. split; [exact Cid|]. split; [exact Cpr|].
  split; [exact Cpc|]. split; [exact Cno | exact Cex].
Qed.

Lemma planned_frame_columns ec ei data planned :
  well_formed data ->
  planned_frame rt ec ei data = Ok planned ->
  column_all planned "orderItemsId" is_int
  /\ column_all planned "priority" is_priority_label
  /\ column_all planned "ProductCode" is_text
  /\ column_all planned "notes" is_text
  /\ column_all planned "orderNumber" is_text.
Proof.
  intros Hwf H. unfold planned_frame in H.
  apply rbind_ok in H as (d1 & Hd & H).
  apply rbind_ok in H as (d2 & Hf & H).
  apply (planned_derive_columns _ _ Hwf) in Hd as (_ & Cid & Cpr & Cpc & Cno & Cex).
  apply planned_filter_spec in Hf as (Hc & Hi & _).
  apply (column_all_incl _ _ _ _ Hc Hi) in Cid, Cpr, Cpc, Cno, Cex.
  unfold planned_project in H. cbv zeta in H.
  apply rbind_ok in H as (d3 & Hsel & H). injection H as <-.
  apply select_spec in Hsel as [Hc3 Hr3].
  assert (forall c c' (P : value -> Prop),
            has_column {| columns := planned_view_columns; rows := [] |} c' = true ->
            (forall r0, cell planned_view_columns c'
                          (List.map (fun c0 => cell (columns d2) c0 r0) planned_columns)
                        = cell (columns d2) c r0) ->
            column_all d2 c P ->
            column_all (rename d3 [("externalId", "orderNumber")]) c' P) as Hmove.
  { intros c c' P Hhas Hcell [_ Hall]. unfold column_all, has_column, rename.
    cbn [columns rows]. rewrite Hc3, Hr3.
    split; [exact Hhas|].
    rewrite List.Forall_forall in *. intros r Hr.
    apply List.in_map_iff in Hr as (r0 & <- & Hr0).
    change (P (cell planned_view_columns c'
                 (List.map (fun c0 => cell (columns d2) c0 r0) planned_columns))).
    rewrite Hcell. apply Hall. exact Hr0. }
  split; [apply (Hmove "orderItemsId"); [reflexivity | reflexivity | exact Cid]|].
  split; [apply (Hmove "priority"); [reflexivity | reflexivity | exact Cpr]|].
  split; [apply (Hmove "ProductCode"); [reflexivity | reflexivity | exact Cpc]|].
  split; [apply (Hmove "notes"); [reflexivity | reflexivity | exact Cno]|].
  apply (Hmove "externalId"); [reflexivity | reflexivity | exact Cex].
Qed.

Lemma epoch_plus_ms_time v v' : epoch_plus_ms rt v = Ok v' -> is_time v'.
Proof.
  unfold epoch_plus_ms. intros H. apply rbind_ok in H as (ms & _ & H).
  injection H as <-. eexists. reflexivity.
Qed.

Lemma join_codes_text v v' : join_codes v = Ok v' -> is_text v'.
Proof.
  unfold join_codes, is_text. destruct (truthy v).
  - destruct v; intros H; try discriminate H.
    apply rbind_ok in H as (s & _ & H). injection H as <-. eauto.
  - intros H. injection H as <-. left. reflexivity.
Qed.

(** The derived columns of the allocations, by kind. *)
Lemma scheduled_frame_columns equipment data scheduled :
  well_formed data ->
  scheduled_frame rt equipment data = Ok scheduled ->
  column_all scheduled "orderItemId" is_int
  /\ column_all scheduled "StartDateTime" is_time
  /\ column_all scheduled "EndDateTime" is_time
  /\ column_all scheduled "Equipment" is_text.
Proof.
  intros Hwf H. unfold scheduled_frame in H.
  apply rbind_ok in H as (d & Hd & H).
  unfold scheduled_derive, map_col in Hd.
  apply rbind_ok in Hd as (d1 & H1 & Hd).
  pose proof (assign_apply_wf _ _ _ _ _ Hwf H1) as Hwf1.
  pose proof (assign_apply_sets _ _ _ _ _ is_time Hwf H1 epoch_plus_ms_time) as Cst.
  apply rbind_ok in Hd as (d2 & H2 & Hd).
  pose proof (assign_apply_wf _ _ _ _ _ Hwf1 H2) as Hwf2.
  apply (assign_apply_keeps _ _ _ _ _ _ _ Hwf1 H2) in Cst; [|discriminate].
  pose proof (assign_apply_sets _ _ _ _ _ is_time Hwf1 H2 epoch_plus_ms_time) as Cen.
  apply rbind_ok in Hd as (d3 & H3 & Hd).
  pose proof (assign_apply_wf _ _ _ _ _ Hwf2 H3) as Hwf3.
  apply (assign_apply_keeps _ _ _ _ _ _ _ Hwf2 H3) in Cst; [|discriminate].
  apply (assign_apply_keeps _ _ _ _ _ _ _ Hwf2 H3) in Cen; [|discriminate].
  apply rbind_ok in Hd as (d4 & H4 & Hd).
  pose proof (assign_apply_wf _ _ _ _ _ Hwf3 H4) as Hwf4.
  apply (assign_apply_keeps _ _ _ _ _ _ _ Hwf3 H4) in Cst; [|discriminate].
  apply (assign_apply_keeps _ _ _ _ _ _ _ Hwf3 H4) in Cen; [|discriminate].
  apply rbind_ok in Hd as (d5 & H5 & Hd).
  pose proof (assign_apply_wf _ _ _ _ _ Hwf4 H5) as Hwf5.
  apply (assign_apply_keeps _ _ _ _ _ _ _ Hwf4 H5) in Cst; [|discriminate].
  apply (assign_apply_keeps _ _ _ _ _ _ _ Hwf4 H5) in Cen; [|discriminate].
  apply rbind_ok in Hd as (d6 & H6 & Hd).
  pose proof (assign_apply_wf _ _ _ _ _ Hwf5 H6) as Hwf6.
  apply (assign_apply_keeps _ _ _ _ _ _ _ Hwf5 H6) in Cst; [|discriminate].
  apply (assign_apply_keeps _ _ _ _ _ _ _ Hwf5 H6) in Cen; [|discriminate].
  pose proof (assign_apply_sets _ _ _ _ _ is_text Hwf5 H6 join_codes_text) as Ceq.
  apply (assign_apply_keeps _ _ _ _ _ _ _ Hwf6 Hd) in Cst; [|discriminate].
  apply (assign_apply_keeps _ _ _ _ _ _ _ Hwf6 Hd) in Cen; [|discriminate].
  apply (assign_apply_keeps _ _ _ _ _ _ _ Hwf6 Hd) in Ceq; [|discriminate].
  pose proof (assign_apply_sets _ _ _ _ _ is_int Hwf6 Hd astype_int64_int) as Cid.
  unfold scheduled_project in H. cbv zeta in H.
  apply rbind_ok in H as (d7 & Hsel & H). injection H as <-.
  pose proof (select_spec _ _ _ Hsel) as [Hc7 _].
  apply (select_column _ _ _ _ _ Hsel) in Cid; [|cbn; tauto].
  apply (select_column _ _ _ _ _ Hsel) in Cst; [|cbn; tauto].
  apply (select_column _ _ _ _ _ Hsel) in Cen; [|cbn; tauto].
  apply (select_column _ _ _ _ _ Hsel) in Ceq; [|cbn; tauto].
  split; [apply (rename_column d7 _ _ "orderItemId" "orderItemId" _ Hc7);
          [reflexivity | exact Cid]|].
  split; [apply (rename_column d7 _ _ "StartDateTime" "StartDateTime" _ Hc7);
          [reflexivity | exact Cst]|].
  split; [apply (rename_column d7 _ _ "EndDateTime" "EndDateTime" _ Hc7);
          [reflexivity | exact Cen]|].
  apply (rename_column d7 _ _ "Equipment" "Equipment" _ Hc7);
    [reflexivity | exact Ceq].
Qed.

Lemma shape_wf df cols n :
  columns df = cols -> List.length cols = n ->
  Forall (fun r => List.length r = n) (rows df) -> well_formed df.
Proof.
  unfold well_formed. intros -> <- H. exact H.
Qed.

(** A call of [_scheduler_get_planned_order] that returned a frame built
    it from the frame of the answer. *)
Lemma planned_run_frame self ec ei t planned t' :
  _scheduler_get_planned_order rt self ec ei t = (Ok (Some planned), t') ->
  exists data,
    well_formed data
    /\ planned_frame rt (default false ec) (default [] ei) data = Ok planned.
Proof.
  unfold _scheduler_get_planned_order. cbv zeta. intros H.
  apply bind_ok in H as (b & t1 & _ & H).
  apply bind_ok in H as (d & t2 & _ & H).
  destruct (is_null d); [apply ret_ok in H as [H _]; discriminate H|].
  apply bind_ok in H as (df & t3 & Hdf & H).
  apply lift_ok in Hdf as [Hdf _].
  apply bind_ok in H as (o & t4 & Ho & H).
  apply lift_ok in Ho as [Ho _]. apply ret_ok in H as [H _].
  injection H as <-. exists df. split; [|exact Ho].
  eapply DataFrame_wf. exact Hdf.
Qed.

Lemma scheduled_run_frame self t scheduled t' :
  _scheduler_get_scheduled_order rt self t = (Ok (Some scheduled), t') ->
  exists equipment data,
    well_formed data /\ scheduled_frame rt equipment data = Ok scheduled.
Proof.
  unfold _scheduler_get_scheduled_order. cbv zeta. intros H.
  apply bind_ok in H as (b & t1 & _ & H).
  apply bind_ok in H as (d & t2 & _ & H).
  destruct (is_null d); [apply ret_ok in H as [H _]; discriminate H|].
  apply bind_ok in H as (df & t3 & Hdf & H).
  apply lift_ok in Hdf as [Hdf _].
  apply bind_ok in H as (eq & t4 & _ & H).
  apply bind_ok in H as (o & t5 & Ho & H).
  apply lift_ok in Ho as [Ho _]. apply ret_ok in H as [H _].
  injection H as <-. exists eq, df. split; [|exact Ho].
  eapply DataFrame_wf. exact Hdf.
Qed.

(** X1.  The frame [_scheduler_get_planned_order] returns has the thirteen
    columns of its projection, one cell per column in every row, and typed
    columns: the item id of every order is an integer, its priority one of
    the labels High, Medium, Low or the empty string, and its product code,
    notes and order number strings or missing. *)
Theorem planned_order_columns self ec ei t planned t' :
  _scheduler_get_planned_order rt self ec ei t = (Ok (Some planned), t') ->
  columns planned = planned_view_columns
  /\ well_formed planned
  /\ column_all planned "orderItemsId" is_int
  /\ column_all planned "priority" is_priority_label
  /\ column_all planned "ProductCode" is_text
  /\ column_all planned "notes" is_text
  /\ column_all planned "orderNumber" is_text.
Proof.
  intros H. apply planned_run_frame in H as (data & Hwf & H).
  pose proof (planned_frame_shape rt _ _ _ _ H) as (Hc & Hlen & _).
  split; [exact Hc|].
  split; [exact (shape_wf _ _ _ Hc eq_refl Hlen)|].
  exact (planned_frame_columns _ _ _ _ Hwf H).
Qed.

(** X2.  The frame [_scheduler_get_scheduled_order] returns has the nine
    columns of its projection, one cell per column in every row, and typed
    columns: the order-item id of every allocation is an integer, its start
    and end are points in time, and its equipment is a string or missing. *)
Theorem scheduled_order_columns self t scheduled t' :
  _scheduler_get_scheduled_order rt self t = (Ok (Some scheduled), t') ->
  columns scheduled = scheduled_view_columns
  /\ well_formed scheduled
  /\ column_all scheduled "orderItemId" is_int
  /\ column_all scheduled "StartDateTime" is_time
  /\ column_all scheduled "EndDateTime" is_time
  /\ column_all scheduled "Equipment" is_text.
Proof.
  intros H. apply scheduled_run_frame in H as (equipment & data & Hwf & H).
  pose proof (scheduled_frame_shape rt _ _ _ H) as (Hc & Hlen).
  split; [exact Hc|].
  split; [exact (shape_wf _ _ _ Hc eq_refl Hlen)|].
  exact (scheduled_frame_columns _ _ _ Hwf H).
Qed.

(** ** The order view cannot fail between its queries and its projection *)

Lemma bind_lift_ok {A B} (r : result A) (k : A -> M B) a t :
  r = Ok a -> bind (lift r) k t = k a t.
Proof. intros ->. reflexivity. Qed.

Lemma bind_lift_raise {A B} (r : result A) (k : A -> M B) e t :
  r = Raise e -> bind (lift r) k t = (Raise e, t).
Proof. intros ->. reflexivity. Qed.

Lemma zip_with_length {A B C} (f : A -> B -> C) l l' :
  List.length (zip_with f l l') = Nat.min (List.length l) (List.length l').
Proof.
  revert l'. induction l as [|x l IH]; intros [|y l']; cbn; try reflexivity.
  rewrite IH. reflexivity.
Qed.

Lemma is_int_hashable v : is_int v -> hashable v = true.
Proof. intros [z ->]. reflexivity. Qed.

Lemma is_text_hashable v : is_text v -> hashable v = true.
Proof. intros [->|[s ->]]; reflexivity. Qed.

(** With typed keys and order numbers, the join, the overlay, the drop and
    the relabelling all go through. *)
Lemma order_view_total planned scheduled :
  columns planned = planned_view_columns ->
  columns scheduled = scheduled_view_columns ->
  well_formed planned ->
  column_all planned "orderItemsId" is_int ->
  column_all planned "orderNumber" is_text ->
  column_all scheduled "orderItemId" is_int ->
  exists merged numbers,
    merge_orders (Some planned) (Some scheduled) = Ok merged
    /\ rbind (getcol merged "orderNumber") py_unique = Ok numbers
    /\ Forall is_text numbers
    /\ forall doOrders, exists overlaid out,
         overlay doOrders merged = Ok overlaid
         /\ finish_orders overlaid = Ok out
         /\ columns out = order_view_columns
         /\ List.length (rows out) = List.length (rows merged).
Proof.
  destruct planned as [pc pr], scheduled as [sc sr]. cbn [columns rows].
  intros -> -> Hwf [_ Hid] [_ Hno] [_ Hsid].
  unfold well_formed in Hwf. cbn [columns rows] in Hwf, Hid, Hno, Hsid.
  rewrite List.Forall_forall in Hwf, Hid, Hno, Hsid.
  unfold merge_orders, merge. cbn.
  match goal with
  | |- context [negb (forallb ?F ?L) || negb (forallb ?G ?K)] =>
      assert (forallb F L = true) as ->;
      [|assert (forallb G K = true) as ->]
  end.
  { apply forallb_forall. intros l Hl. destruct (Hid l Hl) as [z Hz].
    change (cell planned_view_columns "orderItemsId" l) with (nth 9 l VNull) in Hz.
    cbn. rewrite Hz. reflexivity. }
  { apply forallb_forall. intros l Hl. destruct (Hsid l Hl) as [z Hz].
    change (cell scheduled_view_columns "orderItemId" l) with (nth 0 l VNull) in Hz.
    cbn. cbn in Hz. rewrite Hz. reflexivity. }
  cbn [negb orb].
  eexists. eexists. split; [reflexivity|].
  unfold getcol. cbn [columns rows index_of String.eqb Ascii.eqb Bool.eqb
                      planned_view_columns scheduled_view_columns app rbind].
  set (mrows := flat_map _ pr).
  assert (Forall is_text (List.map (fun r => nth 1 r VNull) mrows)) as Htext.
  { apply List.Forall_forall. intros v Hv.
    apply List.in_map_iff in Hv as (r & <- & Hr).
    apply List.in_flat_map in Hr as (l & Hl & Hr).
    assert (exists x, r = l ++ x) as [x ->].
    { unfold merge_row in Hr. destruct (matches _ _ _ _) as [|m ms].
      - destruct Hr.
      - apply List.in_map_iff in Hr as (y & <- & _). eexists. reflexivity. }
    rewrite List.app_nth1 by (rewrite (Hwf l Hl); cbn; lia).
    exact (Hno l Hl). }
  unfold py_unique.
  assert (forallb hashable (List.map (fun r => nth 1 r VNull) mrows) = true) as ->.
  { apply forallb_forall. intros v Hv. apply is_text_hashable.
    rewrite List.Forall_forall in Htext. apply Htext. exact Hv. }
  split; [reflexivity|]. split.
  { apply List.Forall_forall. intros v Hv.
    rewrite List.Forall_forall in Htext. apply Htext.
    clear - Hv. unfold unique in Hv.
    assert (forall seen l, In v (unique_acc seen l) -> In v l) as Hsub.
    { intros seen l. revert seen. induction l as [|y l IH]; intros seen Hin;
        [exact Hin|]. cbn in Hin. destruct (isin y seen).
      - right. eapply IH. exact Hin.
      - destruct Hin as [->|Hin]; [left; reflexivity | right; eapply IH; exact Hin]. }
    eapply Hsub. exact Hv. }
  intros doOrders. unfold overlay, loc_set_isin. cbn.
  eexists. eexists. split; [reflexivity|].
  unfold finish_orders. cbn. split; [reflexivity|].
  split; [reflexivity|]. cbn [rows].
  rewrite !List.length_map, !zip_with_length, !List.length_map.
  rewrite !Nat.min_id. reflexivity.
Qed.

(** X3.  Once its two queries have returned frames, [scheduler_get_orders]
    can only fail in the completed-orders lookup: the join, the list of
    order numbers, the overlay, the drop of the two key columns and the
    relabelling never raise.  The call returns exactly when the lookup
    does, with the trace of the lookup, and raises what the lookup raises
    otherwise. *)
Theorem orders_fail_only_in_lookup self ec ei t planned scheduled t1 t2 :
  _scheduler_get_planned_order rt self (Some (default true ec))
      (Some (default [] ei)) t = (Ok (Some planned), t1) ->
  _scheduler_get_scheduled_order rt self t1 = (Ok (Some scheduled), t2) ->
  exists merged numbers,
    merge_orders (Some planned) (Some scheduled) = Ok merged
    /\ rbind (getcol merged "orderNumber") py_unique = Ok numbers
    /\ (forall e t3,
          _do_get_completed_orders rt self numbers t2 = (Raise e, t3) ->
          scheduler_get_orders rt self ec ei t = (Raise e, t3))
    /\ (forall doOrders t3,
          _do_get_completed_orders rt self numbers t2 = (Ok doOrders, t3) ->
          exists out,
            scheduler_get_orders rt self ec ei t = (Ok out, t3)
            /\ columns out = order_view_columns
            /\ List.length (rows out) = List.length (rows merged)).
Proof.
  intros Hp Hs.
  pose proof (planned_run_frame _ _ _ _ _ _ Hp) as (pdata & Hpwf & Hpf).
  pose proof (scheduled_run_frame _ _ _ _ Hs) as (eq & sdata & Hswf & Hsf).
  pose proof (planned_frame_shape rt _ _ _ _ Hpf) as (Hpc & Hpl & _).
  pose proof (scheduled_frame_shape rt _ _ _ Hsf) as (Hsc & _).
  pose proof (planned_frame_columns _ _ _ _ Hpwf Hpf) as (Cid & _ & _ & _ & Cno).
  pose proof (scheduled_frame_columns _ _ _ Hswf Hsf) as (Csid & _).
  destruct (order_view_total planned scheduled Hpc Hsc
              (shape_wf _ _ _ Hpc eq_refl Hpl) Cid Cno Csid)
    as (merged & numbers & Hm & Hn & _ & Hrest).
  exists merged, numbers. split; [exact Hm|]. split; [exact Hn|].
  unfold scheduler_get_orders. cbv zeta.
  rewrite (bind_step _ _ _ _ _ Hp), (bind_step _ _ _ _ _ Hs).
  rewrite (bind_lift_ok _ _ _ _ Hm), (bind_lift_ok _ _ _ _ Hn).
  split.
  - intros e t3 Hd. rewrite (bind_raise _ _ _ _ _ Hd). reflexivity.
  - intros doOrders t3 Hd. rewrite (bind_step _ _ _ _ _ Hd).
    destruct (Hrest doOrders) as (overlaid & out & Ho & Hf & Hc & Hlen).
    exists out. rewrite (bind_lift_ok _ _ _ _ Ho).
    unfold lift. rewrite Hf. split; [reflexivity|]. split; assumption.
Qed.

End Typed.

(** The planned orders of the demo site, unfiltered. *)
Lemma planned_order_columns_demo :
  exists planned t',
    _scheduler_get_planned_order Demo.rt Demo.self None None []
      = (Ok (Some planned), t')
    /\ columns planned = planned_view_columns
    /\ column_all planned "orderItemsId" is_int
    /\ column_all planned "priority" is_priority_label
    /\ column_all planned "orderNumber" is_text.
Proof.
  assert (exists planned t',
            _scheduler_get_planned_order Demo.rt Demo.self None None []
              = (Ok (Some planned), t'))
    as (planned & t' & Hrun) by (vm_compute; eauto).
  exists planned, t'. split; [exact Hrun|].
  destruct (planned_order_columns Demo.rt Demo.self None None _ _ _ Hrun)
    as (Hc & _ & Cid & Cpr & _ & _ & Cno).
  split; [exact Hc|]. split; [exact Cid|]. split; [exact Cpr | exact Cno].
Defined.

(** The allocations of the demo site. *)
Lemma scheduled_order_columns_demo :
  exists scheduled t',
    _scheduler_get_scheduled_order Demo.rt Demo.self [] = (Ok (Some scheduled), t')
    /\ columns scheduled = scheduled_view_columns
    /\ column_all scheduled "orderItemId" is_int
    /\ column_all scheduled "StartDateTime" is_time
    /\ column_all scheduled "EndDateTime" is_time
    /\ column_all scheduled "Equipment" is_text.
Proof.
  assert (exists scheduled t',
            _scheduler_get_scheduled_order Demo.rt Demo.self []
              = (Ok (Some scheduled), t'))
    as (scheduled & t' & Hrun) by (vm_compute; eauto).
  exists scheduled, t'. split; [exact Hrun|].
  destruct (scheduled_order_columns Demo.rt Demo.self _ _ _ Hrun)
    as (Hc & _ & Cid & Cst & Cen & Ceq).
  split; [exact Hc|]. split; [exact Cid|]. split; [exact Cst|].
  split; [exact Cen | exact Ceq].
Defined.

(** On the demo site both queries and the lookup return, and so does the
    call. *)
Lemma orders_fail_only_in_lookup_demo :
  exists out t',
    scheduler_get_orders Demo.rt Demo.self None None [] = (Ok out, t')
    /\ columns out = order_view_columns.
Proof.
  assert (exists planned t1,
            _scheduler_get_planned_order Demo.rt Demo.self
              (Some (default true None)) (Some (default [] None)) []
              = (Ok (Some planned), t1))
    as (planned & t1 & Hp) by (vm_compute; eauto).
  assert (exists scheduled t2,
            _scheduler_get_scheduled_order Demo.rt Demo.self t1
              = (Ok (Some scheduled), t2))
    as (scheduled & t2 & Hs) by (vm_compute; eauto).
  destruct (orders_fail_only_in_lookup Demo.rt Demo.self None None _ _ _ _ _
              Hp Hs)
    as (merged & numbers & Hm & Hn & _ & Hok).
  pose proof Hp as Hp'. vm_compute in Hp'. injection Hp' as Ep Et. subst planned.
  pose proof Hs as Hs'. vm_compute in Hs'. injection Hs' as Es Et'.
  subst scheduled t2 t1.
  vm_compute in Hm. injection Hm as <-.
  vm_compute in Hn. injection Hn as <-.
  edestruct Hok as (out & Hrun & Hc & _); [vm_compute; reflexivity|].
  eexists out, _. split; [exact Hrun | exact Hc].
Defined.

(** ** The requests of a call, in order *)

Section Sequences.

Variable rt : runtime.

Lemma issues_ret {A} (a : A) : issues (ret a) [].
Proof.
  intros t. cbn. split; [exists 0%nat | intros _ _]; rewrite List.app_nil_r;
    reflexivity.
Qed.

Lemma issues_lift {A} (r : result A) : issues (lift r) [].
Proof.
  intros t. cbn. split; [exists 0%nat | intros _ _]; rewrite List.app_nil_r;
    reflexivity.
Qed.

Lemma issues_bind {A B} (m : M A) (k : A -> M B) reqs reqs' :
  issues m reqs -> (forall a, issues (k a) reqs') ->
  issues (bind m k) (reqs ++ reqs').
Proof.
  intros Hm Hk t. unfold bind. destruct (Hm t) as [[n Hn] Hok].
  destruct (m t) as [[a|e] t1]; cbn in Hn, Hok.
  - clear n Hn. specialize (Hok a eq_refl). subst t1.
    destruct (Hk a (t ++ reqs)) as [[n' Hn'] Hok']. split.
    + exists (List.length reqs + n')%nat.
      rewrite List.firstn_app_2, List.app_assoc. exact Hn'.
    + intros b Hb. rewrite List.app_assoc. exact (Hok' b Hb).
  - split; [|intros b Hb; discriminate Hb]. cbn.
    exists (Nat.min n (List.length reqs)). rewrite Hn. f_equal.
    rewrite List.firstn_app.
    replace (Nat.min n (List.length reqs) - List.length reqs)%nat with 0%nat
      by lia.
    cbn [firstn]. rewrite List.app_nil_r, <- List.firstn_firstn,
      List.firstn_all. reflexivity.
Qed.

Lemma issues_checked r : issues (checked rt r) [r].
Proof.
  intros t. rewrite checked_run. cbn [snd fst].
  split; [exists 1%nat; reflexivity | intros _ _; reflexivity].
Qed.

(** A query followed by steps that make no request. *)
Lemma issues_then_pure {A B} (m : M A) (k : A -> M B) reqs :
  issues m reqs -> (forall a, issues (k a) []) -> issues (bind m k) reqs.
Proof.
  intros Hm Hk. rewrite <- (List.app_nil_r reqs).
  apply issues_bind; assumption.
Qed.

Lemma issues_lift_ok {A B} (a : A) (k : A -> M B) reqs :
  issues (k a) reqs -> issues (bind (lift (Ok a)) k) reqs.
Proof. intros H t. exact (H t). Qed.

Lemma issues_fetch_frame self name e :
  endpoint name = Ok e ->
  issues (fetch_frame rt self name) [scheduler_request self e].
Proof.
  intros He. unfold fetch_frame. rewrite He. apply issues_lift_ok.
  apply issues_then_pure; [|intros a; apply issues_lift].
  rewrite fetch_scheduler_checked. apply issues_checked.
Qed.

(** X4.  [scheduler_get_bom_setup] asks for the six entities in the order
    operations, routes, material definitions, segments, segment equipments,
    segment materials, each with one GET on the scheduler base URL, and makes
    no other request: a call that returns has made all six, a call that
    raises has made the first few of them. *)
Theorem bom_request_sequence self t :
  (exists n,
     snd (scheduler_get_bom_setup rt self t) = t ++ firstn n (bom_requests self))
  /\ (forall out t',
        scheduler_get_bom_setup rt self t = (Ok out, t') ->
        t' = t ++ bom_requests self).
Proof.
  assert (issues (scheduler_get_bom_setup rt self) (bom_requests self)) as H.
  { unfold scheduler_get_bom_setup, _scheduler_get_operations,
      _scheduler_get_routes, _scheduler_get_segments, _scheduler_get_equipments,
      _scheduler_get_segment_materials, _scheduler_get_materials, bom_requests.
    cbn [List.map].
    apply (issues_bind _ _ [_] _); [apply issues_fetch_frame; reflexivity|].
    intros operations_df.
    apply (issues_bind _ _ [_] _); [apply issues_fetch_frame; reflexivity|].
    intros routes_df.
    apply (issues_bind _ _ [_] _).
    { apply issues_then_pure; [apply issues_fetch_frame; reflexivity|].
      intros data. apply issues_lift. }
    intros materials_df.
    apply (issues_bind _ _ [_] _); [apply issues_fetch_frame; reflexivity|].
    intros segments_df.
    apply (issues_bind _ _ [_] _); [apply issues_fetch_frame; reflexivity|].
    intros equipments_df.
    apply issues_then_pure; [apply issues_fetch_frame; reflexivity|].
    intros segment_materials_df. apply issues_lift. }
  destruct (H t) as [Hn Hok]. split; [exact Hn|].
  intros out t' Hrun. rewrite Hrun in Hok. exact (Hok out eq_refl).
Qed.

End Sequences.

(** The six requests on the demo site. *)
Lemma bom_request_sequence_demo :
  exists out t',
    scheduler_get_bom_setup Demo.rt Demo.self [] = (Ok out, t')
    /\ t' = bom_requests Demo.self.
Proof.
  assert (exists out t',
            scheduler_get_bom_setup Demo.rt Demo.self [] = (Ok out, t'))
    as (out & t' & Hrun) by (vm_compute; eauto).
  exists out, t'. split; [exact Hrun|].
  exact (proj2 (bom_request_sequence Demo.rt Demo.self []) out t' Hrun).
Defined.

(** ** The order view: its requests, and answers it cannot use *)

Ltac issues_pure :=
  repeat first
    [ apply issues_ret
    | apply issues_lift
    | apply issues_then_pure; [|intros ?]
    | match goal with
      | |- issues (if ?b then _ else _) _ => destruct b
      end ].

Section Edges.

Variable rt : runtime.

Lemma issues_planned self ec ei :
  issues (_scheduler_get_planned_order rt self ec ei)
         [graphql_request self (orders_payload self)].
Proof.
  unfold _scheduler_get_planned_order. cbv zeta.
  apply issues_then_pure.
  - rewrite fetch_scheduler_graphql_checked. apply issues_checked.
  - intros body. issues_pure.
Qed.

Lemma issues_equipment self :
  issues (_scheduler_get_equipment rt self)
         [graphql_request self (equipments_payload self)].
Proof.
  unfold _scheduler_get_equipment. cbv zeta.
  apply issues_then_pure.
  - rewrite fetch_scheduler_graphql_checked. apply issues_checked.
  - intros body. issues_pure.
Qed.

Lemma issues_returned {A} (m : M A) reqs t a t' :
  issues m reqs -> m t = (Ok a, t') -> t' = t ++ reqs.
Proof.
  intros H Hrun. destruct (H t) as [_ Hok]. rewrite Hrun in Hok.
  exact (Hok a eq_refl).
Qed.

Lemma scheduled_trace self t scheduled t' :
  _scheduler_get_scheduled_order rt self t = (Ok (Some scheduled), t') ->
  t' = t ++ [graphql_request self (allocations_payload self);
             graphql_request self (equipments_payload self)].
Proof.
  unfold _scheduler_get_scheduled_order. cbv zeta. intros H.
  apply bind_ok in H as (b & t1 & Hb & H).
  rewrite fetch_scheduler_graphql_checked in Hb.
  apply (issues_returned _ _ _ _ _ (issues_checked rt _)) in Hb. subst t1.
  apply bind_ok in H as (d & t2 & Hd & H). apply lift_ok in Hd as [_ ->].
  destruct (is_null d); [apply ret_ok in H as [H _]; discriminate H|].
  apply bind_ok in H as (df & t3 & Hdf & H). apply lift_ok in Hdf as [_ ->].
  apply bind_ok in H as (eq & t4 & Heq & H).
  apply (issues_returned _ _ _ _ _ (issues_equipment self)) in Heq. subst t4.
  apply bind_ok in H as (o & t5 & Ho & H). apply lift_ok in Ho as [_ ->].
  apply ret_ok in H as [_ ->]. rewrite <- List.app_assoc. reflexivity.
Qed.

(** X5.  A call of [scheduler_get_orders] that returns has made, in this
    order and nothing else: the orders query, the allocations query, the
    equipment query, and then one GET on the execution service for each
    batch of 80 of the distinct order numbers of the joined rows, where the
    joined rows are the inner join of the two frames these queries
    returned to this call. *)
Theorem orders_request_sequence self ec ei t out t' :
  scheduler_get_orders rt self ec ei t = (Ok out, t') ->
  exists planned scheduled merged numbers lists,
    _scheduler_get_planned_order rt self (Some (default true ec))
        (Some (default [] ei)) t
      = (Ok (Some planned), t ++ [graphql_request self (orders_payload self)])
    /\ _scheduler_get_scheduled_order rt self
         (t ++ [graphql_request self (orders_payload self)])
       = (Ok (Some scheduled), t ++ order_queries self)
    /\ merge_orders (Some planned) (Some scheduled) = Ok merged
    /\ rbind (getcol merged "orderNumber") py_unique = Ok numbers
    /\ rmap (join_values ",") (batches numbers) = Ok lists
    /\ List.length lists = ((List.length numbers + 79) / 80)%nat
    /\ t' = t ++ order_queries self
              ++ List.map (fun s => do_request self (completed_endpoint s)) lists.
Proof.
  intros H. apply orders_run_inv in H
    as (planned & scheduled & merged & numbers & doOrders & overlaid & t1 & t2
        & Hp & Hs & Hm & Hn & Hd & _ & _).
  pose proof (issues_returned _ _ _ _ _ (issues_planned self _ _) Hp) as E1.
  subst t1.
  pose proof (scheduled_trace _ _ _ _ Hs) as E2. subst t2.
  rewrite <- List.app_assoc in Hs, Hd. cbn [app] in Hs, Hd.
  unfold _do_get_completed_orders in Hd. cbv zeta in Hd.
  apply bind_ok in Hd as (o & t3 & Hloop & Hl). apply lift_ok in Hl as [_ ->].
  apply completed_loop_trace in Hloop as (lists & Hlists & ->).
  exists planned, scheduled, merged, numbers, lists.
  split; [exact Hp|]. split; [exact Hs|].
  split; [exact Hm|]. split; [exact Hn|]. split; [exact Hlists|]. split.
  - rewrite (rmap_length _ _ _ Hlists). apply batches_count.
  - unfold order_queries. rewrite <- !List.app_assoc. reflexivity.
Qed.

Lemma checked_answers t q b :
  answers rt t q b -> checked rt q t = (Ok b, t ++ [q]).
Proof.
  intros [Hs Hb]. rewrite checked_run, Hs. unfold response_json. rewrite Hb.
  reflexivity.
Qed.

(** X6.  An empty list where the scheduler could have answered null is an
    error, not an empty result: the frame of an empty list has no columns,
    so [_scheduler_get_planned_order] raises KeyError 'status',
    [_scheduler_get_equipment] raises KeyError 'externalId', and
    [_scheduler_get_scheduled_order] raises KeyError 'start', the last one
    only after the equipment query has been made and has returned. *)
Theorem empty_answers_raise self t :
  (forall ec ei b d,
     let q := graphql_request self (orders_payload self) in
     answers rt t q b ->
     getitem b "data" = Ok d ->
     getitem d "getOrdersForScenario" = Ok (VList []) ->
     _scheduler_get_planned_order rt self ec ei t
       = (Raise (KeyError "status"), t ++ [q]))
  /\ (forall b d,
        let q := graphql_request self (equipments_payload self) in
        answers rt t q b ->
        getitem b "data" = Ok d ->
        getitem d "equipments" = Ok (VList []) ->
        _scheduler_get_equipment rt self t
          = (Raise (KeyError "externalId"), t ++ [q]))
  /\ (forall b d a eq t2,
        let q := graphql_request self (allocations_payload self) in
        answers rt t q b ->
        getitem b "data" = Ok d ->
        getitem d "getAllocations" = Ok a ->
        getitem a "allocations" = Ok (VList []) ->
        _scheduler_get_equipment rt self (t ++ [q]) = (Ok eq, t2) ->
        _scheduler_get_scheduled_order rt self t
          = (Raise (KeyError "start"), t2)).
Proof.
  split; [|split].
  - intros ec ei b d q Hans Hd Hempty.
    unfold _scheduler_get_planned_order. cbv zeta.
    rewrite fetch_scheduler_graphql_checked.
    rewrite (bind_step _ _ _ _ _ (checked_answers _ _ _ Hans)).
    unfold bind at 1, lift at 1. rewrite Hd. cbn [rbind]. rewrite Hempty.
    reflexivity.
  - intros b d q Hans Hd Hempty.
    unfold _scheduler_get_equipment. cbv zeta.
    rewrite fetch_scheduler_graphql_checked.
    rewrite (bind_step _ _ _ _ _ (checked_answers _ _ _ Hans)).
    unfold bind at 1, lift at 1. rewrite Hd. cbn [rbind]. rewrite Hempty.
    reflexivity.
  - intros b d a eq t2 q Hans Hd Ha Hempty Heq.
    unfold _scheduler_get_scheduled_order. cbv zeta.
    rewrite fetch_scheduler_graphql_checked.
    rewrite (bind_step _ _ _ _ _ (checked_answers _ _ _ Hans)).
    unfold bind at 1, lift at 1. rewrite Hd. cbn [rbind]. rewrite Ha.
    cbn [rbind]. rewrite Hempty. cbn [is_null].
    unfold bind at 1, lift at 1. cbn [DataFrame rmap rbind].
    rewrite (bind_step _ _ _ _ _ Heq). reflexivity.
Qed.

(** X7.  [scheduler_get_orders] needs a frame from both of its queries.
    When the orders resolve to null ([_scheduler_get_planned_order] returns
    [None]) it raises AttributeError, and only after the allocations have
    been queried as well; when the orders are there and the allocations
    resolve to null it raises TypeError.  It never returns an empty view
    in their place. *)
Theorem orders_need_both_frames self ec ei t :
  (forall t1 scheduledOrder t2,
     _scheduler_get_planned_order rt self (Some (default true ec))
         (Some (default [] ei)) t = (Ok None, t1) ->
     _scheduler_get_scheduled_order rt self t1 = (Ok scheduledOrder, t2) ->
     scheduler_get_orders rt self ec ei t = (Raise AttributeError, t2))
  /\ (forall planned t1 t2,
        _scheduler_get_planned_order rt self (Some (default true ec))
            (Some (default [] ei)) t = (Ok (Some planned), t1) ->
        _scheduler_get_scheduled_order rt self t1 = (Ok None, t2) ->
        scheduler_get_orders rt self ec ei t = (Raise TypeError, t2)).
Proof.
  split.
  - intros t1 so t2 Hp Hs. unfold scheduler_get_orders. cbv zeta.
    rewrite (bind_step _ _ _ _ _ Hp), (bind_step _ _ _ _ _ Hs). reflexivity.
  - intros planned t1 t2 Hp Hs. unfold scheduler_get_orders. cbv zeta.
    rewrite (bind_step _ _ _ _ _ Hp), (bind_step _ _ _ _ _ Hs). reflexivity.
Qed.

End Edges.

(** The requests of the default call on the demo site: three queries and
    one lookup for its single order number. *)
Lemma orders_request_sequence_demo :
  exists out t',
    scheduler_get_orders Demo.rt Demo.self None None [] = (Ok out, t')
    /\ t' = order_queries Demo.self
            ++ [do_request Demo.self (completed_endpoint "ORD-1")].
Proof.
  assert (exists out t',
            scheduler_get_orders Demo.rt Demo.self None None [] = (Ok out, t'))
    as (out & t' & Hrun) by (vm_compute; eauto).
  exists out, t'. split; [exact Hrun|].
  destruct (orders_request_sequence Demo.rt Demo.self None None _ _ _ Hrun)
    as (planned & scheduled & merged & numbers & lists
        & _ & _ & _ & _ & _ & _ & Ht).
  vm_compute in Hrun. injection Hrun as _ Et. rewrite <- Et in Ht |- *.
  vm_compute. reflexivity.
Defined.

(** The three empty answers, each on a site of its own. *)
Lemma empty_answers_raise_demo :
  _scheduler_get_planned_order Cases.rt_no_orders Demo.self None None []
    = (Raise (KeyError "status"),
       [graphql_request Demo.self (orders_payload Demo.self)])
  /\ _scheduler_get_equipment Cases.rt_no_equipment Demo.self []
     = (Raise (KeyError "externalId"),
        [graphql_request Demo.self (equipments_payload Demo.self)])
  /\ _scheduler_get_scheduled_order Cases.rt_no_allocations Demo.self []
     = (Raise (KeyError "start"),
        [graphql_request Demo.self (allocations_payload Demo.self);
         graphql_request Demo.self (equipments_payload Demo.self)]).
Proof.
  split; [|split].
  - eapply (proj1 (empty_answers_raise Cases.rt_no_orders Demo.self []));
      [split; reflexivity | reflexivity | reflexivity].
  - eapply (proj1 (proj2 (empty_answers_raise Cases.rt_no_equipment
                            Demo.self [])));
      [split; reflexivity | reflexivity | reflexivity].
  - eapply (proj2 (proj2 (empty_answers_raise Cases.rt_no_allocations
                            Demo.self [])));
      [split; reflexivity | reflexivity | reflexivity | reflexivity
       | vm_compute; reflexivity].
Defined.

(** Null orders, and null allocations under orders that are there. *)
Lemma orders_need_both_frames_demo :
  scheduler_get_orders Demo.rt_null Demo.self None None []
    = (Raise AttributeError,
       [graphql_request Demo.self (orders_payload Demo.self);
        graphql_request Demo.self (allocations_payload Demo.self)])
  /\ scheduler_get_orders Cases.rt_null_allocations Demo.self None None []
     = (Raise TypeError,
        [graphql_request Demo.self (orders_payload Demo.self);
         graphql_request Demo.self (allocations_payload Demo.self)]).
Proof.
  split.
  - eapply (proj1 (orders_need_both_frames Demo.rt_null Demo.self None None []));
      vm_compute; reflexivity.
  - eapply (proj2 (orders_need_both_frames Cases.rt_null_allocations Demo.self
                     None None []));
      vm_compute; reflexivity.
Defined.

(** ** Construction and addresses *)

Lemma append_assoc (a b c : string) : (a +:+ b) +:+ c = a +:+ (b +:+ c).
Proof.
  induction a as [|x a IH]; [reflexivity|].
  change (String x ((a +:+ b) +:+ c) = String x (a +:+ (b +:+ c))).
  f_equal. exact IH.
Qed.

Lemma contains_char_app c (a b : string) :
  contains_char c (a +:+ b) = contains_char c a || contains_char c b.
Proof.
  induction a as [|x a IH]; [reflexivity|].
  change (Ascii.eqb c x || contains_char c (a +:+ b)
          = (Ascii.eqb c x || contains_char c a) || contains_char c b).
  rewrite IH, orb_assoc. reflexivity.
Qed.

Lemma digits_no_question (d : Decimal.uint) :
  contains_char "?" (NilEmpty.string_of_uint d) = false.
Proof. induction d; cbn; assumption || reflexivity. Qed.

Lemma str_of_Z_no_question z : contains_char "?" (str_of_Z z) = false.
Proof.
  unfold str_of_Z, NilZero.string_of_int, NilZero.string_of_uint.
  destruct (Z.to_int z) as [d|d]; destruct d; cbn;
    try reflexivity; apply digits_no_question.
Qed.

Lemma endpoint_no_question name e :
  endpoint name = Ok e -> contains_char "?" e = false.
Proof.
  unfold endpoint, _schedulerEndpoints. intros H.
  destruct (_ !! name) as [e'|] eqn:Hl; [|discriminate H].
  injection H as ->.
  repeat (apply lookup_insert_Some in Hl as [[_ <-]|[_ Hl]]; [reflexivity|]).
  rewrite lookup_empty in Hl. discriminate Hl.
Qed.

Section Addresses.

Variable rt : runtime.

(** X8.  Whenever [_set_data_template] returns, both ids were read from
    the first scenario of a non-error, non-empty answer: the [0] of
    [... if data else 0] is never used, since an answer that is falsy has
    already failed in [data["data"]].  Nothing else of the object changes,
    the flag says whether both ids are positive, and one request was made. *)
Theorem scenario_ids_from_answer self t self' flag t' :
  _set_data_template rt self t = (Ok (self', flag), t') ->
  exists data d scenarios scenario dataTemplate i j,
    answers rt t (graphql_request self (scenario_query (_site self))) data
    /\ truthy data = true
    /\ getitem data "data" = Ok d
    /\ getitem d "scenarios" = Ok scenarios
    /\ getitem0 scenarios = Ok scenario
    /\ getitem scenario "dataTemplate" = Ok dataTemplate
    /\ getitem dataTemplate "id" = Ok i
    /\ getitem scenario "id" = Ok j
    /\ py_int rt i = Ok (_scheduler_data_id self')
    /\ py_int rt j = Ok (_scheduler_scenario_id self')
    /\ self' = set_ids self (_scheduler_data_id self')
                       (_scheduler_scenario_id self')
    /\ flag = (0 <? _scheduler_data_id self')
              && (0 <? _scheduler_scenario_id self')
    /\ t' = t ++ [graphql_request self (scenario_query (_site self))].
Proof.
  unfold _set_data_template. cbv zeta. intros H.
  apply bind_ok in H as (data & t1 & Hf & H).
  rewrite fetch_scheduler_graphql_checked, checked_run in Hf.
  destruct (is_error_status _) eqn:Hst; [discriminate Hf|].
  injection Hf as Hbody <-. unfold response_json in Hbody.
  destruct (body _) as [b|] eqn:Hb; [|discriminate Hbody].
  injection Hbody as ->.
  apply bind_ok in H as (scenario & t2 & Hs & H). apply lift_ok in Hs as [Hs ->].
  apply rbind_ok in Hs as (d & Hd & Hs).
  apply rbind_ok in Hs as (scenarios & Hss & Hs).
  assert (truthy data = true) as Htruthy.
  { unfold getitem in Hd. destruct data as [| | | | | |o]; try discriminate Hd.
    destruct o; [discriminate Hd | reflexivity]. }
  rewrite Htruthy in H.
  apply bind_ok in H as (data_id & t3 & Hi & H). apply lift_ok in Hi as [Hi ->].
  apply rbind_ok in Hi as (dataTemplate & Hdt & Hi).
  apply rbind_ok in Hi as (i & Hi & Hpi).
  apply bind_ok in H as (scenario_id & t4 & Hj & H). apply lift_ok in Hj as [Hj ->].
  apply rbind_ok in Hj as (j & Hj & Hpj).
  apply ret_ok in H as [H ->]. injection H as Hself Hflag. subst self' flag.
  exists data, d, scenarios, scenario, dataTemplate, i, j.
  cbn [_scheduler_data_id _scheduler_scenario_id set_ids].
  split; [split; assumption|].
  repeat (split; [assumption || reflexivity|]). reflexivity.
Qed.

Lemma scenario_ids_shape self t self' flag t' :
  _set_data_template rt self t = (Ok (self', flag), t') ->
  self' = set_ids self (_scheduler_data_id self') (_scheduler_scenario_id self').
Proof.
  unfold _set_data_template. cbv zeta. intros H.
  apply bind_ok in H as (data & t1 & _ & H).
  apply bind_ok in H as (scenario & t2 & _ & H).
  apply bind_ok in H as (data_id & t3 & _ & H).
  apply bind_ok in H as (scenario_id & t4 & _ & H).
  apply ret_ok in H as [H _]. injection H as Hself _. subst self'. reflexivity.
Qed.

(** X9.  The object a successful construction returns: site and tenant as
    given, the execution base URL built from the tenant (with [-stage] for
    a stage tenant), the graph endpoint below it, and a scheduler base URL
    that ends in the site and the positive data-template id; every entity
    request of the object goes below that URL.  The scheduler base URL
    holds a question mark only if the tenant or the site does. *)
Theorem init_addresses site tenant authBase64 isStage t self t' :
  __init__ rt site tenant authBase64 isStage t = (Ok self, t') ->
  let base := "https://" +:+ tenant +:+ ".tillit"
              +:+ (if default false isStage then "-stage" else "")
              +:+ ".cloud/au/api" in
  _site self = site /\ _tenant self = tenant
  /\ _baseURL self = base
  /\ _baseURLSchedulerGraphQL self = base +:+ "/scheduler/graphql"
  /\ 0 < _scheduler_data_id self
  /\ _baseURLScheduler self
     = base +:+ "/scheduler/" +:+ site +:+ "/"
       +:+ str_of_Z (_scheduler_data_id self)
  /\ _headers self = [("Authorization", "Basic " +:+ authBase64);
                      ("Content-Type", "application/json")]
  /\ contains_char "?" (_baseURLScheduler self)
     = contains_char "?" tenant || contains_char "?" site.
Proof.
  unfold __init__. cbv zeta. intros H.
  apply bind_ok in H as ([self' flag] & t1 & Hs & H).
  apply scenario_ids_shape in Hs. cbn [fst] in H.
  destruct ((0 <? _scheduler_data_id self') && _) eqn:Hpos; [|discriminate H].
  apply ret_ok in H as [H _]. subst self.
  apply andb_true_iff in Hpos as [Hd _]. apply Z.ltb_lt in Hd.
  set (d := _scheduler_data_id self') in *.
  set (s := _scheduler_scenario_id self') in *. rewrite Hs.
  cbn [_site _tenant _baseURL _baseURLScheduler _baseURLSchedulerGraphQL
       _scheduler_data_id _headers set_baseURLScheduler set_ids blank] in *.
  repeat (split; [reflexivity || assumption|]).
  assert (forall a b c d : string, (a +:+ b) +:+ c +:+ d = a +:+ b +:+ c +:+ d)
    as Hassoc by (intros; apply append_assoc).
  split.
  { rewrite !append_assoc. reflexivity. }
  split; [reflexivity|].
  rewrite !contains_char_app, str_of_Z_no_question.
  destruct (default false isStage); cbn;
    destruct (contains_char "?" tenant), (contains_char "?" site); reflexivity.
Qed.

(** X10.  The separator before the paging parameters.  The completed-orders
    lookup always joins them with [&], since its endpoint carries a query;
    an entity endpoint of the table is fetched with [?] when the scheduler
    base URL holds no question mark, and with [&] when it does. *)
Theorem paging_separators self t :
  (forall orderList,
     snd (fetch_DO rt self (completed_endpoint orderList) t)
     = t ++ [{| req_method := GET;
                req_url := _baseURL self
                  +:+ "/core/order-instances?status.equals=COMPLETED&orderNumber.in="
                  +:+ orderList +:+ "&page=0&size=100000&sort=id,asc";
                req_headers := _headers self; req_json := None |}])
  /\ (forall name e,
        endpoint name = Ok e ->
        snd (fetch_scheduler rt self e t)
        = t ++ [{| req_method := GET;
                   req_url := _baseURLScheduler self +:+ e
                     +:+ (if contains_char "?" (_baseURLScheduler self)
                          then "&" else "?")
                     +:+ "page=0&size=100000&sort=id,asc";
                   req_headers := _headers self; req_json := None |}]).
Proof.
  split.
  - intros orderList. rewrite fetch_DO_checked, checked_run. cbn [snd].
    unfold do_request, with_paging, completed_endpoint, paging.
    rewrite !contains_char_app. cbn [contains_char Ascii.eqb Bool.eqb orb].
    rewrite orb_true_r. cbn [orb]. rewrite !append_assoc. reflexivity.
  - intros name e He. rewrite fetch_scheduler_checked, checked_run. cbn [snd].
    unfold scheduler_request, with_paging, paging.
    rewrite contains_char_app, (endpoint_no_question _ _ He), orb_false_r.
    rewrite !append_assoc. reflexivity.
Qed.

End Addresses.

(** Scenario 4 with data template 9, on the demo site. *)
Lemma scenario_ids_from_answer_demo :
  exists self' flag t',
    _set_data_template Demo.rt (blank "S1" "acme" "QUJD" false) []
      = (Ok (self', flag), t')
    /\ self' = set_ids (blank "S1" "acme" "QUJD" false)
                       (_scheduler_data_id self') (_scheduler_scenario_id self')
    /\ flag = (0 <? _scheduler_data_id self')
              && (0 <? _scheduler_scenario_id self').
Proof.
  assert (exists self' flag t',
            _set_data_template Demo.rt (blank "S1" "acme" "QUJD" false) []
              = (Ok (self', flag), t'))
    as (self' & flag & t' & Hrun) by (vm_compute; eauto).
  exists self', flag, t'. split; [exact Hrun|].
  destruct (scenario_ids_from_answer Demo.rt _ _ _ _ _ Hrun)
    as (data & d & scenarios & scenario & dataTemplate & i & j & _ & _ & _ & _
        & _ & _ & _ & _ & _ & _ & Hself & Hflag & _).
  split; [exact Hself | exact Hflag].
Defined.

(** The object of the demo site. *)
Lemma init_addresses_demo :
  exists self t',
    __init__ Demo.rt "S1" "acme" "QUJD" None [] = (Ok self, t')
    /\ _baseURL self = "https://acme.tillit.cloud/au/api"
    /\ _baseURLScheduler self
       = "https://acme.tillit.cloud/au/api/scheduler/S1/"
         +:+ str_of_Z (_scheduler_data_id self).
Proof.
  assert (exists self t',
            __init__ Demo.rt "S1" "acme" "QUJD" None [] = (Ok self, t'))
    as (self & t' & Hrun) by (vm_compute; eauto).
  exists self, t'. split; [exact Hrun|].
  destruct (init_addresses Demo.rt _ _ _ _ _ _ _ Hrun)
    as (_ & _ & Hbase & _ & _ & Hurl & _).
  split; [exact Hbase | exact Hurl].
Defined.

(** The operations of the demo site are fetched with a question mark. *)
Lemma paging_separators_demo :
  snd (fetch_scheduler Demo.rt Demo.self "/operations" [])
  = [{| req_method := GET;
        req_url := "https://acme.tillit.cloud/au/api/scheduler/S1/9/operations?page=0&size=100000&sort=id,asc";
        req_headers := _headers Demo.self; req_json := None |}].
Proof.
  rewrite (proj2 (paging_separators Demo.rt Demo.self []) "operations"
             "/operations" eq_refl).
  reflexivity.
Defined.

(** ** Materials, equipment and the filters of the planned orders *)

Section Frames.

Variable rt : runtime.

Lemma fetch_frame_data self name t df t' :
  fetch_frame rt self name t = (Ok df, t') ->
  exists e v,
    endpoint name = Ok e
    /\ fetch_scheduler rt self e t = (Ok v, t')
    /\ DataFrame v = Ok df.
Proof.
  unfold fetch_frame. intros H.
  apply bind_ok in H as (e & t1 & He & H). apply lift_ok in He as [He ->].
  apply bind_ok in H as (v & t2 & Hv & H). apply lift_ok in H as [H ->].
  exists e, v. repeat split; assumption.
Qed.

(** X11.  The frame of material definitions [_scheduler_get_materials]
    returns by default has the three columns externalId, description and
    materialGroup, in this order, and every cell of it is a string: what was
    missing has become the empty string. *)
Theorem materials_all_strings self t df t' :
  _scheduler_get_materials rt self t = (Ok df, t') ->
  columns df = ["externalId"; "description"; "materialGroup"]
  /\ Forall (fun r => List.length r = 3%nat
                      /\ Forall (fun v => exists s, v = VStr s) r)
            (rows df).
Proof.
  unfold _scheduler_get_materials. intros H.
  apply bind_ok in H as (data & t1 & Hd & H).
  apply fetch_frame_wf in Hd. apply lift_ok in H as [H _].
  unfold materials_frame, map_col in H.
  apply rbind_ok in H as (d1 & H1 & H).
  pose proof (assign_apply_wf _ _ _ _ _ Hd H1) as Hwf1.
  assert (column_all d1 "materialGroup" is_text) as Cg.
  { apply (assign_apply_sets _ _ _ _ _ is_text Hd H1).
    intros v v' Hv. eapply astype_string_text. exact Hv. }
  apply rbind_ok in H as (d2 & H2 & H).
  pose proof (assign_apply_wf _ _ _ _ _ Hwf1 H2) as Hwf2.
  apply (assign_apply_keeps _ _ _ _ _ _ _ Hwf1 H2) in Cg; [|discriminate].
  pose proof (assign_apply_sets _ _ _ _ _ is_text Hwf1 H2
                (astype_string_text rt)) as Ce.
  apply rbind_ok in H as (d3 & H3 & H). cbv zeta in H.
  apply (assign_apply_keeps _ _ _ _ _ _ _ Hwf2 H3) in Cg; [|discriminate].
  apply (assign_apply_keeps _ _ _ _ _ _ _ Hwf2 H3) in Ce; [|discriminate].
  pose proof (assign_apply_sets _ _ _ _ _ is_text Hwf2 H3
                (astype_string_text rt)) as Cd.
  apply rbind_ok in H as (d4 & Hsel & H). injection H as <-.
  apply select_spec in Hsel as [Hc Hr].
  unfold fillna_empty. cbn [columns rows]. split; [exact Hc|].
  rewrite Hr, List.map_map. apply List.Forall_forall. intros r Hin.
  apply List.in_map_iff in Hin as (r0 & <- & Hr0).
  destruct Cg as [_ Cg], Ce as [_ Ce], Cd as [_ Cd].
  rewrite List.Forall_forall in Cg, Ce, Cd.
  specialize (Cg r0 Hr0). specialize (Ce r0 Hr0). specialize (Cd r0 Hr0).
  cbn [List.map List.length]. split; [reflexivity|].
  assert (forall v, is_text v ->
            exists s, (if is_null v then VStr "" else v) = VStr s) as Hfill.
  { intros v [->|[s ->]]; eexists; reflexivity. }
  repeat constructor; apply Hfill; assumption.
Qed.

Lemma key_leb_single a b :
  key_leb [a] [b] = true -> cell_leb a b = true.
Proof.
  cbn. destruct (cell_leb b a) eqn:Hba; cbn.
  - destruct (cell_leb a b); [reflexivity | discriminate].
  - intros _. apply cell_leb_total. exact Hba.
Qed.

(** X12.  The equipment frame [_scheduler_get_equipment] returns holds the
    rows of the answer, each once, under the columns of the answer, in
    ascending order of externalId with missing ids last. *)
Theorem equipment_sorted self t equipment t' :
  _scheduler_get_equipment rt self t = (Ok (Some equipment), t') ->
  exists b d v data,
    answers rt t (graphql_request self (equipments_payload self)) b
    /\ getitem b "data" = Ok d
    /\ getitem d "equipments" = Ok v
    /\ DataFrame v = Ok data
    /\ columns equipment = columns data
    /\ Permutation (rows equipment) (rows data)
    /\ has_column equipment "externalId" = true
    /\ StronglySorted
         (fun x y => cell_leb (cell (columns equipment) "externalId" x)
                              (cell (columns equipment) "externalId" y) = true)
         (rows equipment).
Proof.
  unfold _scheduler_get_equipment. cbv zeta. intros H.
  apply bind_ok in H as (b & t1 & Hf & H).
  rewrite fetch_scheduler_graphql_checked, checked_run in Hf.
  destruct (is_error_status _) eqn:Hst; [discriminate Hf|].
  injection Hf as Hbody <-. unfold response_json in Hbody.
  destruct (body _) as [b'|] eqn:Hb; [|discriminate Hbody].
  injection Hbody as ->.
  apply bind_ok in H as (v & t2 & Hv & H). apply lift_ok in Hv as [Hv ->].
  apply rbind_ok in Hv as (d & Hd & Hv).
  destruct (is_null v); [apply ret_ok in H as [H _]; discriminate H|].
  apply bind_ok in H as (data & t3 & Hdf & H). apply lift_ok in Hdf as [Hdf ->].
  apply bind_ok in H as (out & t4 & Hs & H). apply lift_ok in Hs as [Hs ->].
  apply ret_ok in H as [H _]. injection H as <-.
  exists b, d, v, data.
  split; [split; assumption|].
  split; [exact Hd|]. split; [exact Hv|]. split; [exact Hdf|].
  unfold sort_values in Hs. apply rbind_ok in Hs as (idx & Hidx & Hs).
  destruct (forallb (sortable data) idx) eqn:Hsortable; [|discriminate Hs].
  injection Hs as <-. cbn [columns rows].
  split; [reflexivity|]. split; [apply sort_rows_perm|].
  cbn [rmap] in Hidx. unfold key_index in Hidx.
  destruct (index_of "externalId" (columns data)) as [i|] eqn:Hi;
    [|discriminate Hidx].
  injection Hidx as <-.
  split; [unfold has_column; cbn [columns]; rewrite Hi; reflexivity|].
  assert (forall x, cell (columns data) "externalId" x = nth i x VNull) as Hcell
    by (intros x; unfold cell; rewrite Hi; reflexivity).
  cbn [forallb] in Hsortable. rewrite andb_true_r in Hsortable.
  apply Sorted_strongly.
  - intros x y z Hx Hy Hz. rewrite !Hcell. apply cell_leb_trans.
    apply (sortable_same_kind _ _ _ _ _ Hsortable);
      eapply Permutation_in; try apply sort_rows_perm; eassumption.
  - eapply Sorted_impl; [|apply (sort_rows_sorted [i])].
    intros x y Hxy. rewrite !Hcell. apply key_leb_single. exact Hxy.
Qed.


Lemma select_has_column df names out c :
  select df names = Ok out -> In c names -> has_column df c = true.
Proof.
  unfold select, has_column. intros H Hin.
  apply rbind_ok in H as (idx & Hidx & _). apply rmap_Forall2 in Hidx.
  induction Hidx as [|x i names idx Hx _ IH]; [contradiction|].
  destruct Hin as [->|Hin]; [|exact (IH Hin)].
  destruct (index_of c (columns df)); [reflexivity | discriminate Hx].
Qed.

Lemma planned_filter_items ec ei data out :
  planned_filter ec ei data = Ok out ->
  Forall (fun r => isin (cell (columns data) "ProductCode" r) (List.map VStr ei)
                   = false)
         (rows out).
Proof.
  unfold planned_filter. intros H. apply rbind_ok in H as (d1 & H1 & H).
  assert (columns d1 = columns data) as Hc1.
  { destruct ec; [|injection H1 as <-; reflexivity].
    apply drop_isin_spec in H1 as [Hc _]. exact Hc. }
  destruct ei as [|x ei].
  - apply List.Forall_forall. intros r _. reflexivity.
  - cbn [List.length Nat.eqb negb] in H.
    apply drop_isin_spec in H as [_ Hr]. rewrite Hr, Hc1.
    apply List.Forall_forall. intros r Hin.
    apply List.filter_In in Hin as [_ Hin].
    apply negb_true_iff in Hin. exact Hin.
Qed.

(** The columns [planned_derive] does not assign keep their cells. *)
Lemma planned_derive_passes data d c :
  well_formed data ->
  planned_derive rt data = Ok d ->
  ~ In c ["status"; "orderItems"; "orderItemsId"; "orderedQuantity"; "orderUOM";
          "ProductCode"; "orderProperties"; "priority"; "notes"; "externalId"] ->
  getcol d c = getcol data c.
Proof.
  intros Hwf H Hnot. unfold planned_derive, map_col in H.
  assert (forall x, In x ["status"; "orderItems"; "orderItemsId";
                          "orderedQuantity"; "orderUOM"; "ProductCode";
                          "orderProperties"; "priority"; "notes"; "externalId"] ->
                    c <> x) as Hne
    by (intros x Hx ->; exact (Hnot Hx)).
  apply rbind_ok in H as (d1 & H1 & H).
  destruct (assign_apply_spec _ _ _ _ _ Hwf H1) as (Hwf1 & _ & K1).
  apply rbind_ok in H as (d2 & H2 & H).
  destruct (assign_apply_spec _ _ _ _ _ Hwf1 H2) as (Hwf2 & _ & K2).
  apply rbind_ok in H as (items & Hitems & H).
  apply rbind_ok in H as (ids0 & Hids0 & H).
  apply rbind_ok in H as (ids & Hids & H). cbv zeta in H.
  assert (List.length ids = List.length (rows d2)) as Hlen.
  { rewrite (rmap_length _ _ _ Hids), (rmap_length _ _ _ Hids0).
    eapply getcol_length. exact Hitems. }
  destruct (setcol_spec d2 "orderItemsId" ids Hwf2 Hlen) as (Hwf3 & _ & K3 & _).
  apply rbind_ok in H as (d4 & H4 & H).
  destruct (assign_apply_spec _ _ _ _ _ Hwf3 H4) as (Hwf4 & _ & K4).
  apply rbind_ok in H as (d5 & H5 & H).
  destruct (assign_apply_spec _ _ _ _ _ Hwf4 H5) as (Hwf5 & _ & K5).
  apply rbind_ok in H as (d6 & H6 & H).
  destruct (assign_apply_spec _ _ _ _ _ Hwf5 H6) as (Hwf6 & _ & K6).
  apply rbind_ok in H as (d7 & H7 & H).
  destruct (assign_apply_spec _ _ _ _ _ Hwf6 H7) as (Hwf7 & _ & K7).
  apply rbind_ok in H as (d8 & H8 & H).
  destruct (assign_apply_spec _ _ _ _ _ Hwf7 H8) as (Hwf8 & _ & K8).
  apply rbind_ok in H as (d9 & H9 & H).
  destruct (assign_apply_spec _ _ _ _ _ Hwf8 H9) as (Hwf9 & _ & K9).
  apply rbind_ok in H as (d10 & H10 & H).
  destruct (assign_apply_spec _ _ _ _ _ Hwf9 H10) as (Hwf10 & _ & K10).
  destruct (assign_apply_spec _ _ _ _ _ Hwf10 H) as (_ & _ & K11).
  rewrite K11, K10, K9, K8, K7, K6, K5, K4, K3, K2, K1
    by (apply Hne; cbn; tauto).
  reflexivity.
Qed.

(** X13.  The two filters of [_scheduler_get_planned_order].  With
    [excludeCompleted] no returned order has one of the five excluded
    statuses; no returned order has a product code among [excludeItems];
    and with both filters off the frame has one row for each order of the
    answer, in the order of the answer, with id, earliest start date and
    due date as the scheduler gave them. *)
Theorem planned_filters self ec ei t planned t' :
  _scheduler_get_planned_order rt self ec ei t = (Ok (Some planned), t') ->
  (default false ec = true ->
   column_all planned "status" (fun v => isin v excluded_statuses = false))
  /\ column_all planned "ProductCode"
       (fun v => isin v (List.map VStr (default [] ei)) = false)
  /\ (default false ec = false -> default [] ei = [] ->
      exists b d v data,
        answers rt t (graphql_request self (orders_payload self)) b
        /\ getitem b "data" = Ok d
        /\ getitem d "getOrdersForScenario" = Ok v
        /\ DataFrame v = Ok data
        /\ List.length (rows planned) = List.length (rows data)
        /\ Forall (fun c => getcol planned c = getcol data c)
                  ["id"; "earliestStartDate"; "dueDate"]).
Proof.
  unfold _scheduler_get_planned_order. cbv zeta. intros H.
  apply bind_ok in H as (b & t1 & Hf & H).
  rewrite fetch_scheduler_graphql_checked, checked_run in Hf.
  destruct (is_error_status _) eqn:Hst; [discriminate Hf|].
  injection Hf as Hbody <-. unfold response_json in Hbody.
  destruct (body _) as [b'|] eqn:Hb; [|discriminate Hbody].
  injection Hbody as ->.
  apply bind_ok in H as (v & t2 & Hv & H). apply lift_ok in Hv as [Hv ->].
  apply rbind_ok in Hv as (d & Hd & Hv).
  destruct (is_null v); [apply ret_ok in H as [H _]; discriminate H|].
  apply bind_ok in H as (data & t3 & Hdf & H). apply lift_ok in Hdf as [Hdf ->].
  apply bind_ok in H as (out & t4 & Ho & H). apply lift_ok in Ho as [Ho ->].
  apply ret_ok in H as [H _]. injection H as <-.
  pose proof (DataFrame_wf _ _ Hdf) as Hwf.
  unfold planned_frame in Ho.
  apply rbind_ok in Ho as (d1 & H1 & Ho).
  apply rbind_ok in Ho as (d2 & H2 & Ho).
  unfold planned_project in Ho. cbv zeta in Ho.
  apply rbind_ok in Ho as (d3 & Hsel & Ho). injection Ho as <-.
  pose proof (select_spec _ _ _ Hsel) as [Hc3 Hr3].
  pose proof (planned_filter_spec _ _ _ _ H2) as (Hc2 & Hi2 & Hst2).
  pose proof (planned_filter_items _ _ _ _ H2) as Hit2.
  assert (has_column d2 "status" = true) as Hhs
    by (apply (select_has_column _ _ _ _ Hsel); cbn; tauto).
  assert (has_column d2 "ProductCode" = true) as Hhp
    by (apply (select_has_column _ _ _ _ Hsel); cbn; tauto).
  split; [|split].
  - intros Hec.
    apply (rename_column d3 _ _ "status" "status" _ Hc3); [reflexivity|].
    apply (select_column _ _ _ _ _ Hsel); [cbn; tauto|].
    split; [exact Hhs|]. rewrite Hc2. exact (Hst2 Hec).
  - apply (rename_column d3 _ _ "ProductCode" "ProductCode" _ Hc3);
      [reflexivity|].
    apply (select_column _ _ _ _ _ Hsel); [cbn; tauto|].
    split; [exact Hhp|]. rewrite Hc2. exact Hit2.
  - intros Hec Hei. rewrite Hec, Hei in H2. cbn in H2. injection H2 as <-.
    exists b, d, v, data.
    split; [split; assumption|].
    split; [exact Hd|]. split; [exact Hv|]. split; [exact Hdf|].
    assert (forall c, In c ["id"; "earliestStartDate"; "dueDate"] ->
              getcol (rename d3 [("externalId", "orderNumber")]) c
              = getcol data c) as Hpass.
    { intros c Hc.
      rewrite <- (planned_derive_passes _ _ c Hwf H1)
        by (cbn in Hc |- *; intros Hx;
            repeat (destruct Hc as [<-|Hc];
                    [repeat (destruct Hx as [Hx|Hx]; [discriminate Hx|]);
                     exact Hx|]);
            exact Hc).
      assert (has_column d1 c = true) as Hh.
      { apply (select_has_column _ _ _ _ Hsel).
        cbn in Hc |- *. tauto. }
      rewrite (has_column_getcol _ _ Hh).
      unfold getcol, rename. cbn [columns rows]. rewrite Hc3, Hr3.
      cbn in Hc. destruct Hc as [<-|[<-|[<-|[]]]]; cbn;
        rewrite List.map_map; reflexivity. }
    split.
    + pose proof (Hpass "id" (or_introl eq_refl)) as Hid.
      destruct (getcol data "id") as [vals|] eqn:Hg.
      * rewrite <- (getcol_length _ _ _ Hid), (getcol_length _ _ _ Hg).
        reflexivity.
      * exfalso. unfold getcol, rename in Hid. cbn [columns rows] in Hid.
        rewrite Hc3 in Hid. cbn in Hid. discriminate Hid.
    + apply List.Forall_forall. exact Hpass.
Qed.

End Frames.

(** The materials of the demo site. *)
Lemma materials_all_strings_demo :
  exists df t',
    _scheduler_get_materials Demo.rt Demo.self [] = (Ok df, t')
    /\ columns df = ["externalId"; "description"; "materialGroup"]
    /\ Forall (fun r => List.length r = 3%nat
                        /\ Forall (fun v => exists s, v = VStr s) r)
              (rows df).
Proof.
  assert (exists df t',
            _scheduler_get_materials Demo.rt Demo.self [] = (Ok df, t'))
    as (df & t' & Hrun) by (vm_compute; eauto).
  exists df, t'. split; [exact Hrun|].
  exact (materials_all_strings Demo.rt Demo.self _ _ _ Hrun).
Defined.

(** The equipment of the demo site comes back as MIX-A, MIX-B. *)
Lemma equipment_sorted_demo :
  exists equipment t',
    _scheduler_get_equipment Demo.rt Demo.self [] = (Ok (Some equipment), t')
    /\ StronglySorted
         (fun x y => cell_leb (cell (columns equipment) "externalId" x)
                              (cell (columns equipment) "externalId" y) = true)
         (rows equipment).
Proof.
  assert (exists equipment t',
            _scheduler_get_equipment Demo.rt Demo.self []
              = (Ok (Some equipment), t'))
    as (equipment & t' & Hrun) by (vm_compute; eauto).
  exists equipment, t'. split; [exact Hrun|].
  destruct (equipment_sorted Demo.rt Demo.self _ _ _ Hrun)
    as (b & d & v & data & _ & _ & _ & _ & _ & _ & _ & Hsorted).
  exact Hsorted.
Defined.

(** The planned orders of the demo site without product P1, and without
    any filter. *)
Lemma planned_filters_demo :
  (exists planned t',
     _scheduler_get_planned_order Demo.rt Demo.self (Some true) (Some ["P1"]) []
       = (Ok (Some planned), t')
     /\ column_all planned "status" (fun v => isin v excluded_statuses = false)
     /\ column_all planned "ProductCode" (fun v => isin v [VStr "P1"] = false))
  /\ (exists planned t',
        _scheduler_get_planned_order Demo.rt Demo.self None None []
          = (Ok (Some planned), t')
        /\ List.length (rows planned) = 3%nat).
Proof.
  split.
  - assert (exists planned t',
              _scheduler_get_planned_order Demo.rt Demo.self (Some true)
                (Some ["P1"]) [] = (Ok (Some planned), t'))
      as (planned & t' & Hrun) by (vm_compute; eauto).
    exists planned, t'. split; [exact Hrun|].
    destruct (planned_filters Demo.rt Demo.self _ _ _ _ _ Hrun) as (Hs & Hp & _).
    split; [exact (Hs eq_refl) | exact Hp].
  - assert (exists planned t',
              _scheduler_get_planned_order Demo.rt Demo.self None None []
                = (Ok (Some planned), t'))
      as (planned & t' & Hrun) by (vm_compute; eauto).
    exists planned, t'. split; [exact Hrun|].
    destruct (planned_filters Demo.rt Demo.self _ _ _ _ _ Hrun) as (_ & _ & Hall).
    destruct (Hall eq_refl eq_refl)
      as (b & d & v & data & [_ Hb] & Hd & Hv & Hdf & Hlen & _).
    rewrite Hlen. vm_compute in Hb. injection Hb as <-.
    vm_compute in Hd. injection Hd as <-.
    vm_compute in Hv. injection Hv as <-.
    vm_compute in Hdf. injection Hdf as <-. reflexivity.
Defined.

(** ** The BOM view: what its columns hold, and how many rows it has *)

Lemma sort_values_spec df by_ out :
  sort_values df by_ = Ok out ->
  columns out = columns df /\ Permutation (rows out) (rows df).
Proof.
  unfold sort_values. intros H. apply rbind_ok in H as (idx & _ & H).
  destruct (forallb _ idx); [|discriminate H]. injection H as <-.
  cbn [columns rows]. split; [reflexivity | apply sort_rows_perm].
Qed.

Lemma sort_values_column df by_ out c (P : value -> Prop) :
  sort_values df by_ = Ok out -> column_all df c P -> column_all out c P.
Proof.
  intros H [Hh Hall]. apply sort_values_spec in H as [Hc Hp].
  unfold column_all, has_column. rewrite Hc. split; [exact Hh|].
  rewrite List.Forall_forall in *. intros r Hr. apply Hall.
  eapply Permutation_in; eassumption.
Qed.

Section BomColumns.

Variable rt : runtime.

Lemma astype_cell_kind d v v' : astype_cell rt d v = Ok v' -> kind_of d v'.
Proof.
  destruct d; cbn [astype_cell kind_of].
  - apply astype_string_text.
  - apply astype_float_number.
Qed.

Lemma astype_keeps dtypes :
  forall df out c (P : value -> Prop),
    well_formed df -> astype rt df dtypes = Ok out ->
    ~ In c (List.map fst dtypes) ->
    column_all df c P -> column_all out c P.
Proof.
  induction dtypes as [|[c' d] dtypes IH]; intros df out c P Hwf H Hnot Hc.
  - injection H as <-. exact Hc.
  - cbn [astype] in H. apply rbind_ok in H as (df' & H1 & H).
    unfold map_col in H1.
    apply (IH df' out c P (assign_apply_wf _ _ _ _ _ Hwf H1) H).
    + intros Hin. apply Hnot. right. exact Hin.
    + apply (assign_apply_keeps _ _ _ _ _ _ _ Hwf H1); [|exact Hc].
      intros ->. apply Hnot. left. reflexivity.
Qed.

Lemma astype_rows dtypes :
  forall df out,
    well_formed df -> astype rt df dtypes = Ok out ->
    well_formed out /\ List.length (rows out) = List.length (rows df).
Proof.
  induction dtypes as [|[c d] dtypes IH]; intros df out Hwf H.
  - injection H as <-. split; [exact Hwf | reflexivity].
  - cbn [astype] in H. apply rbind_ok in H as (df' & H1 & H).
    unfold map_col in H1.
    destruct (IH df' out (assign_apply_wf _ _ _ _ _ Hwf H1) H) as [Hw Hl].
    split; [exact Hw|]. rewrite Hl. eapply assign_apply_rows; eassumption.
Qed.

(** After [astype] every listed column holds what its dtype says. *)
Lemma astype_typed dtypes :
  forall df out,
    well_formed df -> List.NoDup (List.map fst dtypes) ->
    astype rt df dtypes = Ok out ->
    Forall (fun cd => column_all out (fst cd) (kind_of (snd cd))) dtypes.
Proof.
  induction dtypes as [|[c d] dtypes IH]; intros df out Hwf Hnd H;
    [constructor|].
  cbn [astype] in H. apply rbind_ok in H as (df' & H1 & H).
  unfold map_col in H1. cbn [List.map fst] in Hnd.
  inversion Hnd as [|? ? Hnot Hnd']; subst.
  pose proof (assign_apply_wf _ _ _ _ _ Hwf H1) as Hwf'.
  constructor.
  - cbn [fst snd].
    apply (astype_keeps dtypes df' out c _ Hwf' H Hnot).
    apply (assign_apply_sets _ _ _ _ _ _ Hwf H1). apply astype_cell_kind.
  - exact (IH df' out Hwf' Hnd' H).
Qed.

Lemma bom_dtypes_NoDup : List.NoDup (List.map fst bom_dtypes).
Proof.
  cbn. repeat (constructor; [cbn; intros Hin;
    repeat (destruct Hin as [Hin|Hin]; [discriminate Hin|]); exact Hin|]).
  constructor.
Qed.

Lemma bom_derive_rows merged_df derived :
  well_formed merged_df -> bom_derive rt merged_df = Ok derived ->
  well_formed derived
  /\ List.length (rows derived) = List.length (rows merged_df).
Proof.
  intros Hwf H. unfold bom_derive, map_col in H.
  apply rbind_ok in H as (d1 & H1 & H).
  pose proof (assign_apply_wf _ _ _ _ _ Hwf H1) as Hwf1.
  pose proof (assign_apply_rows _ _ _ _ _ Hwf H1) as L1.
  apply rbind_ok in H as (d2 & H2 & H).
  pose proof (assign_apply_wf _ _ _ _ _ Hwf1 H2) as Hwf2.
  pose proof (assign_apply_rows _ _ _ _ _ Hwf1 H2) as L2.
  apply rbind_ok in H as (d3 & H3 & H).
  pose proof (assign_apply_wf _ _ _ _ _ Hwf2 H3) as Hwf3.
  pose proof (assign_apply_rows _ _ _ _ _ Hwf2 H3) as L3.
  apply rbind_ok in H as (d4 & H4 & H).
  pose proof (assign_apply_wf _ _ _ _ _ Hwf3 H4) as Hwf4.
  pose proof (assign_apply_rows _ _ _ _ _ Hwf3 H4) as L4.
  apply rbind_ok in H as (d5 & H5 & H).
  pose proof (assign_apply_wf _ _ _ _ _ Hwf4 H5) as Hwf5.
  pose proof (assign_apply_rows _ _ _ _ _ Hwf4 H5) as L5.
  apply rbind_ok in H as (d6 & H6 & H).
  pose proof (assign_apply_wf _ _ _ _ _ Hwf5 H6) as Hwf6.
  pose proof (assign_apply_rows _ _ _ _ _ Hwf5 H6) as L6.
  apply rbind_ok in H as (d7 & H7 & H).
  pose proof (assign_apply_wf _ _ _ _ _ Hwf6 H7) as Hwf7.
  pose proof (assign_apply_rows _ _ _ _ _ Hwf6 H7) as L7.
  split; [exact (assign_apply_wf _ _ _ _ _ Hwf7 H)|].
  rewrite (assign_apply_rows _ _ _ _ _ Hwf7 H). lia.
Qed.

(** X14.  Every column of the BOM view holds what the dtype given to its
    source column says: the twelve columns converted to "string" hold
    strings or missing values, the five converted to "float" (Quantity,
    Material Quantity, Fixed Duration, Rate, Rate per Hour) hold numbers or
    NaN. *)
Theorem bom_view_typed self t out t' :
  scheduler_get_bom_setup rt self t = (Ok out, t') ->
  Forall (fun cd => column_all out (default (fst cd) (assoc (fst cd) bom_labels))
                               (kind_of (snd cd)))
         bom_dtypes.
Proof.
  intros H. apply bom_run_inv in H
    as (operations_df & routes_df & materials_df & segments_df & equipments_df
        & segment_materials_df & merged_df & derived & typed
        & _ & Hwf & Hd & Ht & Hp).
  destruct (bom_derive_rows _ _ Hwf Hd) as [Hwfd _].
  pose proof (astype_typed _ _ _ Hwfd bom_dtypes_NoDup Ht) as Htyped.
  unfold bom_project in Hp. apply rbind_ok in Hp as (sel & Hsel & Hsort).
  pose proof (select_spec _ _ _ Hsel) as [Hc _].
  rewrite List.Forall_forall in Htyped. apply List.Forall_forall.
  intros [c d] Hin. specialize (Htyped (c, d) Hin). cbn [fst snd] in *.
  apply (sort_values_column _ _ _ _ _ Hsort).
  apply (select_column _ _ _ _ _ Hsel) in Htyped.
  - apply (rename_column sel bom_labels _ c _ _ Hc); [|exact Htyped].
    cbn in Hin.
    repeat (destruct Hin as [Hin|Hin];
            [injection Hin as <- <-; reflexivity|]).
    destruct Hin.
  - cbn in Hin |- *.
    repeat (destruct Hin as [Hin|Hin]; [injection Hin as <- _; tauto|]).
    destruct Hin.
Qed.

(** The stages of a call of [scheduler_get_bom_setup] that returned. *)
Lemma bom_run_stages self t out t' :
  scheduler_get_bom_setup rt self t = (Ok out, t') ->
  exists operations_df merged_df derived typed,
    bom_merged rt self t t' operations_df merged_df
    /\ well_formed operations_df
    /\ well_formed merged_df
    /\ bom_derive rt merged_df = Ok derived
    /\ astype rt derived bom_dtypes = Ok typed
    /\ bom_project typed = Ok out.
Proof.
  unfold scheduler_get_bom_setup. intros H.
  apply bind_ok in H as (o & t1 & Ho & H).
  apply bind_ok in H as (r & t2 & Hr & H).
  apply bind_ok in H as (m & t3 & Hm & H).
  apply bind_ok in H as (s & t4 & Hs & H).
  apply bind_ok in H as (e & t5 & He & H).
  apply bind_ok in H as (sm & t6 & Hsm & H).
  apply lift_ok in H as [H ->]. unfold bom_view in H.
  apply rbind_ok in H as (merged & Hmerge & H).
  apply rbind_ok in H as (derived & Hd & H).
  apply rbind_ok in H as (typed & Ht & H).
  exists o, merged, derived, typed.
  split.
  { exists r, m, s, e, sm, t1, t2, t3, t4, t5. repeat split; assumption. }
  assert (well_formed o) as Hwo by (eapply fetch_frame_wf; exact Ho).
  split; [exact Hwo|]. split; [|repeat split; assumption].
  eapply merge_chain_wf; [exact Hwo | | exact Hmerge].
  unfold bom_steps.
  repeat constructor; cbn [step_right];
    first [ eapply materials_wf; eassumption
          | eapply fetch_frame_wf; eassumption ].
Qed.

(** X15.  After the five joins [scheduler_get_bom_setup] neither drops nor
    adds a row: the view has exactly as many rows as the merged table of
    the call, and therefore at least as many as the operations frame the
    call fetched first. *)
Theorem bom_view_row_count self t out t' :
  scheduler_get_bom_setup rt self t = (Ok out, t') ->
  exists operations_df merged_df,
    bom_merged rt self t t' operations_df merged_df
    /\ List.length (rows out) = List.length (rows merged_df)
    /\ (List.length (rows operations_df) <= List.length (rows out))%nat.
Proof.
  intros H. apply bom_run_stages in H
    as (operations_df & merged_df & derived & typed
        & Hm & _ & Hwf & Hd & Ht & Hp).
  exists operations_df, merged_df. split; [exact Hm|].
  destruct (bom_derive_rows _ _ Hwf Hd) as [Hwfd Ld].
  destruct (astype_rows _ _ _ Hwfd Ht) as [_ Lt].
  unfold bom_project in Hp. apply rbind_ok in Hp as (sel & Hsel & Hsort).
  apply select_spec in Hsel as [_ Hr].
  apply sort_values_spec in Hsort as [_ Hperm].
  assert (List.length (rows out) = List.length (rows merged_df)) as Hlen.
  { rewrite (Permutation_length Hperm). unfold rename. cbn [rows].
    rewrite Hr, List.length_map, Lt, Ld. reflexivity. }
  split; [exact Hlen|]. rewrite Hlen.
  destruct Hm as (routes_df & materials_df & segments_df & equipments_df
                  & segment_materials_df & t1 & t2 & t3 & t4 & t5
                  & _ & _ & _ & _ & _ & _ & Hchain).
  apply (chain_holds_survival _ _ _ (merge_chain_holds _ _ _ Hchain)).
Qed.

End BomColumns.

(** The columns of the BOM of the demo site. *)
Lemma bom_view_typed_demo :
  exists out t',
    scheduler_get_bom_setup Demo.rt Demo.self [] = (Ok out, t')
    /\ column_all out "Operation Code" is_text
    /\ column_all out "Rate per Hour" is_number.
Proof.
  assert (exists out t',
            scheduler_get_bom_setup Demo.rt Demo.self [] = (Ok out, t'))
    as (out & t' & Hrun) by (vm_compute; eauto).
  exists out, t'. split; [exact Hrun|].
  pose proof (bom_view_typed Demo.rt Demo.self _ _ _ Hrun) as H.
  rewrite List.Forall_forall in H. split.
  - apply (H ("operationCode", DString)). cbn. tauto.
  - apply (H ("rateHour", DFloat)). cbn. tauto.
Defined.

(** Two operations, three rows: the operation with two segments is there
    twice. *)
Lemma bom_view_row_count_demo :
  exists out t',
    scheduler_get_bom_setup Demo.rt Demo.self [] = (Ok out, t')
    /\ List.length (rows out) = 3%nat
    /\ exists operations_df merged_df,
         bom_merged Demo.rt Demo.self [] t' operations_df merged_df
         /\ List.length (rows out) = List.length (rows merged_df)
         /\ (List.length (rows operations_df) <= List.length (rows out))%nat.
Proof.
  assert (exists out t',
            scheduler_get_bom_setup Demo.rt Demo.self [] = (Ok out, t'))
    as (out & t' & Hrun) by (vm_compute; eauto).
  exists out, t'. split; [exact Hrun|].
  pose proof (bom_view_row_count Demo.rt Demo.self _ _ _ Hrun) as Hrows.
  split; [|exact Hrows].
  vm_compute in Hrun. injection Hrun as <- _. reflexivity.
Defined.

(** ** The completed lookup reports, the empty join returns *)

Lemma unique_acc_In v seen l : In v (unique_acc seen l) -> In v l.
Proof.
  revert seen. induction l as [|y l IH]; intros seen Hin; [exact Hin|].
  cbn in Hin. destruct (isin y seen).
  - right. eapply IH. exact Hin.
  - destruct Hin as [->|Hin]; [left; reflexivity | right; eapply IH; exact Hin].
Qed.

Lemma flat_map_nil {A B} (f : A -> list B) l :
  (forall x, In x l -> f x = []) -> flat_map f l = [].
Proof.
  induction l as [|x l IH]; intros H; [reflexivity|]. cbn.
  rewrite (H x (or_introl eq_refl)). apply IH. intros y Hy. apply H.
  right. exact Hy.
Qed.

Section Reports.

Variable rt : runtime.

Lemma reported_later self t t' ext v :
  reported rt self t t' v -> reported rt self t (t' ++ ext) v.
Proof.
  intros (mid & post & orderList & b & df & numbers & -> & H).
  exists mid, (post ++ ext), orderList, b, df, numbers.
  split; [|exact H]. rewrite <- List.app_assoc. reflexivity.
Qed.

Lemma completed_loop_reported self t0 bs :
  forall orders mid out t',
    Forall (reported rt self t0 (t0 ++ mid)) orders ->
    completed_loop rt self bs orders (t0 ++ mid) = (Ok out, t') ->
    Forall (reported rt self t0 t') out.
Proof.
  induction bs as [|b bs IH]; intros orders mid out t' Hall H;
    cbn [completed_loop] in H.
  - apply ret_ok in H as [-> ->]. exact Hall.
  - apply bind_ok in H as (orderList & t1 & Hjoin & H).
    apply lift_ok in Hjoin as [_ ->].
    apply bind_ok in H as (response & t1 & Hfetch & H).
    rewrite fetch_DO_checked, checked_run in Hfetch.
    destruct (is_error_status _) eqn:Hst; [discriminate Hfetch|].
    injection Hfetch as Hbody <-. unfold response_json in Hbody.
    destruct (body _) as [b'|] eqn:Hb; [|discriminate Hbody].
    injection Hbody as ->.
    apply bind_ok in H as (df & t2 & Hdf & H).
    apply lift_ok in Hdf as [Hdf ->].
    apply bind_ok in H as (orders' & t3 & Hadd & H).
    set (q := do_request self (completed_endpoint orderList)) in *.
    assert (t3 = t0 ++ (mid ++ [q])
            /\ Forall (reported rt self t0 (t0 ++ (mid ++ [q]))) orders')
      as [-> Hall'].
    { assert (Forall (reported rt self t0 (t0 ++ (mid ++ [q]))) orders) as Hold.
      { rewrite List.app_assoc. eapply List.Forall_impl; [|exact Hall].
        intros v Hv. apply reported_later. exact Hv. }
      destruct (has_column df "orderNumber").
      - apply bind_ok in Hadd as (c & t4 & Hc & Hadd).
        apply lift_ok in Hc as [Hc ->].
        apply bind_ok in Hadd as (u & t5 & Hu & Hadd).
        apply lift_ok in Hu as [Hu ->].
        apply ret_ok in Hadd as [-> ->].
        split; [symmetry; apply List.app_assoc|].
        apply List.Forall_app. split; [exact Hold|].
        unfold py_unique in Hu.
        destruct (forallb hashable c); [|discriminate Hu].
        injection Hu as <-. apply List.Forall_forall. intros v Hv.
        exists mid, [], orderList, response, df, c.
        split; [rewrite List.app_assoc; reflexivity|].
        split; [split; assumption|]. split; [exact Hdf|]. split; [exact Hc|].
        eapply unique_acc_In. exact Hv.
      - apply ret_ok in Hadd as [-> ->].
        split; [symmetry; apply List.app_assoc | exact Hold]. }
    exact (IH _ _ _ _ Hall' H).
Qed.

(** X16.  [_do_get_completed_orders] never returns an order number of its
    own making: every element of its result is a cell of the [orderNumber]
    column of the frame of an answer the execution service gave to one of
    the lookups this call made.  With no order number to look up it makes
    no request and returns the empty list. *)
Theorem completed_orders_reported self orderNumbers t :
  (forall out t',
     _do_get_completed_orders rt self orderNumbers t = (Ok out, t') ->
     Forall (reported rt self t t') out)
  /\ _do_get_completed_orders rt self [] t = (Ok [], t).
Proof.
  split; [|reflexivity].
  intros out t' H. unfold _do_get_completed_orders in H. cbv zeta in H.
  apply bind_ok in H as (orders & t1 & Hloop & H).
  apply lift_ok in H as [H ->].
  rewrite <- (List.app_nil_r t) in Hloop.
  apply completed_loop_reported in Hloop; [|constructor].
  unfold list_set in H. destruct (forallb hashable orders); [|discriminate H].
  injection H as <-. apply List.Forall_forall. intros v Hv.
  rewrite List.Forall_forall in Hloop. apply Hloop.
  eapply unique_acc_In. exact Hv.
Qed.

(** X17.  When both queries return frames but no planned order has an
    allocation with its order-item id, [scheduler_get_orders] returns the
    empty view: the twenty columns, no row, and no request to the execution
    service. *)
Theorem orders_empty_join self ec ei t planned scheduled t1 t2 :
  _scheduler_get_planned_order rt self (Some (default true ec))
      (Some (default [] ei)) t = (Ok (Some planned), t1) ->
  _scheduler_get_scheduled_order rt self t1 = (Ok (Some scheduled), t2) ->
  (forall p, In p (rows planned) -> allocations_of planned scheduled p = []) ->
  exists out,
    scheduler_get_orders rt self ec ei t = (Ok out, t2)
    /\ columns out = order_view_columns
    /\ rows out = [].
Proof.
  intros Hp Hs Hnone.
  pose proof (planned_run_frame _ _ _ _ _ _ _ Hp) as (pdata & Hpwf & Hpf).
  pose proof (scheduled_run_frame _ _ _ _ _ Hs) as (eq & sdata & Hswf & Hsf).
  pose proof (planned_frame_shape rt _ _ _ _ Hpf) as (Hpc & Hpl & _).
  pose proof (scheduled_frame_shape rt _ _ _ Hsf) as (Hsc & Hsl).
  pose proof (planned_frame_columns _ _ _ _ _ Hpwf Hpf) as (Cid & _ & _ & _ & Cno).
  pose proof (scheduled_frame_columns _ _ _ _ Hswf Hsf) as (Csid & _).
  destruct (order_view_total planned scheduled Hpc Hsc
              (shape_wf _ _ _ Hpc eq_refl Hpl) Cid Cno Csid)
    as (merged & numbers & Hm & Hn & _ & Hrest).
  destruct (Hrest []) as (overlaid & out & Ho & Hf & Hc & Hlen).
  destruct (order_view_rows _ _ _ _ _ _ Hpc Hsc Hsl Hm Ho Hf)
    as ((_ & Hmr) & _ & _).
  assert (rows merged = []) as Hempty.
  { rewrite Hmr. apply flat_map_nil. intros p Hin.
    rewrite (Hnone p Hin). reflexivity. }
  assert (numbers = []) as ->.
  { apply rbind_ok in Hn as (c & Hcol & Hu).
    pose proof (getcol_length _ _ _ Hcol) as Hl. rewrite Hempty in Hl.
    destruct c; [|discriminate Hl]. injection Hu as <-. reflexivity. }
  exists out. unfold scheduler_get_orders. cbv zeta.
  rewrite (bind_step _ _ _ _ _ Hp), (bind_step _ _ _ _ _ Hs).
  rewrite (bind_lift_ok _ _ _ _ Hm), (bind_lift_ok _ _ _ _ Hn).
  assert (_do_get_completed_orders rt self [] t2 = (Ok [], t2)) as Hd
    by reflexivity.
  rewrite (bind_step _ _ _ _ _ Hd), (bind_lift_ok _ _ _ _ Ho).
  unfold lift. rewrite Hf. split; [reflexivity|]. split; [exact Hc|].
  rewrite Hempty in Hlen. destruct (rows out); [reflexivity | discriminate Hlen].
Qed.

End Reports.

(** Asked about ORD-9, the execution service of the demo site reports
    ORD-1, and that is what the lookup returns. *)
Lemma completed_orders_reported_demo :
  exists out t',
    _do_get_completed_orders Demo.rt Demo.self Cases.asked [] = (Ok out, t')
    /\ out = [VStr "ORD-1"]
    /\ Forall (reported Demo.rt Demo.self [] t') out.
Proof.
  assert (exists out t',
            _do_get_completed_orders Demo.rt Demo.self Cases.asked []
              = (Ok out, t'))
    as (out & t' & Hrun) by (vm_compute; eauto).
  exists out, t'. split; [exact Hrun|]. split.
  - vm_compute in Hrun. injection Hrun as <- _. reflexivity.
  - exact (proj1 (completed_orders_reported Demo.rt Demo.self Cases.asked [])
             out t' Hrun).
Defined.

(** Orders and one allocation for an item none of them has. *)
Lemma orders_empty_join_demo :
  exists out t',
    scheduler_get_orders Cases.rt_unscheduled Demo.self None None []
      = (Ok out, t')
    /\ t' = order_queries Demo.self
    /\ columns out = order_view_columns
    /\ rows out = [].
Proof.
  assert (exists planned t1,
            _scheduler_get_planned_order Cases.rt_unscheduled Demo.self
              (Some (default true None)) (Some (default [] None)) []
              = (Ok (Some planned), t1))
    as (planned & t1 & Hp) by (vm_compute; eauto).
  assert (exists scheduled t2,
            _scheduler_get_scheduled_order Cases.rt_unscheduled Demo.self t1
              = (Ok (Some scheduled), t2))
    as (scheduled & t2 & Hs) by (vm_compute; eauto).
  pose proof Hp as Hp'. vm_compute in Hp'. injection Hp' as Ep Et.
  subst planned t1.
  pose proof Hs as Hs'. vm_compute in Hs'. injection Hs' as Es Et.
  subst scheduled t2.
  edestruct (orders_empty_join Cases.rt_unscheduled Demo.self None None [])
    as (out & Hrun & Hc & Hr); [exact Hp | exact Hs | |].
  - intros p Hin. cbn [rows] in Hin.
    repeat (destruct Hin as [<-|Hin]; [reflexivity|]). destruct Hin.
  - exists out. eexists. split; [exact Hrun|]. split; [reflexivity|].
    split; [exact Hc | exact Hr].
Defined.

(** ** Order numbers that are not strings *)

Lemma join_values_not_strings sep l :
  Exists (fun v => forall s, v <> VStr s) l ->
  join_values sep l = Raise TypeError.
Proof.
  unfold join_values. intros H.
  assert (rmap as_str l = Raise TypeError) as ->; [|reflexivity].
  induction H as [v l Hv|v l _ IH]; cbn [rmap].
  - destruct v; try reflexivity. exfalso. exact (Hv s eq_refl).
  - destruct v; try reflexivity. cbn [as_str]. rewrite IH. reflexivity.
Qed.

Lemma batches_first {A} (l : list A) :
  l <> [] -> exists rest, batches l = firstn 80 l :: rest.
Proof.
  intros Hne. rewrite batches_seq.
  destruct ((List.length l + 79) / 80)%nat as [|k] eqn:Hk.
  - exfalso. apply Nat.div_small_iff in Hk; [|discriminate].
    destruct l; [exact (Hne eq_refl) | cbn in Hk; lia].
  - cbn [seq List.map]. eexists. reflexivity.
Qed.

Section Strings.

Variable rt : runtime.

(** X18.  [_do_get_completed_orders] joins each batch with commas before
    it asks: when one of the first eighty order numbers is not a string (a
    missing order number, say) the call raises TypeError and no request is
    made at all. *)
Theorem completed_orders_need_strings self orderNumbers t :
  Exists (fun v => forall s, v <> VStr s) (firstn 80 orderNumbers) ->
  _do_get_completed_orders rt self orderNumbers t = (Raise TypeError, t).
Proof.
  intros H.
  assert (orderNumbers <> []) as Hne
    by (intros ->; inversion H).
  destruct (batches_first orderNumbers Hne) as [rest Hb].
  unfold _do_get_completed_orders. cbv zeta. rewrite Hb.
  cbn [completed_loop]. unfold bind at 1. unfold bind at 1, lift at 1.
  rewrite (join_values_not_strings _ _ H). reflexivity.
Qed.

End Strings.

(** One order without an order number. *)
Lemma completed_orders_need_strings_demo :
  _do_get_completed_orders Demo.rt Demo.self [VStr "ORD-1"; VNull] []
    = (Raise TypeError, []).
Proof.
  apply completed_orders_need_strings.
  cbn [firstn]. right. left. intros s Hs. discriminate Hs.
Defined.

(** ** Construction without a live scenario *)

Section NoScenario.

Variable rt : runtime.

(** X19.  A site without a live scenario does not get the message of
    [__init__]: when the scenario query is answered with an empty list the
    construction raises IndexError, and when it is answered with null it
    raises TypeError, both from [_set_data_template] and after the one
    request.  The exception "Failed to get Scheduler Data Template Id or
    Scenario Id" is left for ids that are not positive. *)
Theorem init_without_scenario site tenant authBase64 isStage t b d :
  let self0 := blank site tenant authBase64 (default false isStage) in
  let q := graphql_request self0 (scenario_query site) in
  answers rt t q b ->
  getitem b "data" = Ok d ->
  (getitem d "scenarios" = Ok (VList []) ->
   __init__ rt site tenant authBase64 isStage t = (Raise IndexError, t ++ [q]))
  /\ (getitem d "scenarios" = Ok VNull ->
      __init__ rt site tenant authBase64 isStage t = (Raise TypeError, t ++ [q])).
Proof.
  cbv zeta. intros Hans Hd.
  split; intros Hs; unfold __init__, _set_data_template; cbv zeta;
    unfold bind at 1; unfold bind at 1;
    rewrite fetch_scheduler_graphql_checked;
    change (_site (blank site tenant authBase64 (default false isStage)))
      with site;
    rewrite (checked_answers _ _ _ _ Hans);
    unfold bind at 1, lift at 1; rewrite Hd; cbn [rbind]; rewrite Hs;
    reflexivity.
Qed.

End NoScenario.

(** The demo site with no live scenario. *)
Lemma init_without_scenario_demo :
  __init__ Cases.rt_no_scenario "S1" "acme" "QUJD" None []
    = (Raise IndexError,
       [graphql_request (blank "S1" "acme" "QUJD" false) (scenario_query "S1")]).
Proof.
  destruct (init_without_scenario Cases.rt_no_scenario "S1" "acme" "QUJD"
              None []
              (VObj [("data", VObj [("scenarios", VList [])])])
              (VObj [("scenarios", VList [])]))
    as [H _]; [split; reflexivity | reflexivity |].
  exact (H eq_refl).
Defined.

(** ** The numeric columns, from the merged table to the view *)

Lemma Forall2_maps {A B C D} (R : C -> D -> Prop) (f : A -> C) (g : B -> D)
    l l' :
  Forall2 R (List.map f l) (List.map g l') ->
  Forall2 (fun x y => R (f x) (g y)) l l'.
Proof.
  revert l'. induction l as [|x l IH]; intros [|y l'] H; inversion H; subst;
    constructor; [assumption | apply IH; assumption].
Qed.

(** Two relations between the rows of two tables, and a property of the
    rows of the second, taken together. *)
Lemma rows_together {A B} (ms : list A) (rs : list B)
    (P Q : A -> B -> Prop) (S : B -> Prop) :
  Forall S rs -> Forall2 P ms rs -> Forall2 Q ms rs ->
  Forall2 (fun m r => P m r /\ Q m r /\ S r) ms rs.
Proof.
  intros HS HP. revert HS. induction HP as [|m r ms rs Hmr _ IH];
    intros HS HQ; [constructor|].
  inversion HS; subst. inversion HQ; subst.
  constructor; [repeat split; assumption | apply IH; assumption].
Qed.

Lemma Forall2_diag {A} (R : A -> A -> Prop) l :
  Forall2 R l l -> Forall (fun x => R x x) l.
Proof.
  induction l as [|x l IH]; intros H; inversion H; subst; constructor; auto.
Qed.

Lemma Forall2_In_right {A B} (R : A -> B -> Prop) l l' y :
  Forall2 R l l' -> In y l' -> exists x, In x l /\ R x y.
Proof.
  intros H. induction H as [|a b l l' Hab _ IH]; intros Hin; [destruct Hin|].
  destruct Hin as [<-|Hin].
  - exists a. split; [left; reflexivity | exact Hab].
  - destruct (IH Hin) as (x & Hx & Hr). exists x. split; [right|]; assumption.
Qed.

Section BomNumeric.

Variable rt : runtime.

(** [astype] leaves a column as it is when each of its cells already is
    what its dtype converts it to. *)
Lemma astype_fixed dtypes :
  forall df out c vals,
    well_formed df -> astype rt df dtypes = Ok out ->
    getcol df c = Ok vals ->
    (forall d v, In (c, d) dtypes -> In v vals -> astype_cell rt d v = Ok v) ->
    getcol out c = Ok vals.
Proof.
  induction dtypes as [|[c0 d0] dtypes IH]; intros df out c vals Hwf H Hg Hfix.
  - injection H as <-. exact Hg.
  - cbn [astype] in H. apply rbind_ok in H as (df' & H1 & H).
    unfold map_col in H1.
    destruct (assign_apply_spec _ _ _ _ _ Hwf H1)
      as (Hwf' & (vals0 & new & Hg0 & Hnew & Hgn) & Hother).
    apply (IH df' out c vals Hwf' H);
      [|intros d v Hin; apply Hfix; right; exact Hin].
    destruct (String.eqb_spec c c0) as [->|Hne].
    + rewrite Hg in Hg0. injection Hg0 as <-. rewrite Hgn. f_equal.
      rewrite (rmap_total (astype_cell rt d0) (fun v => v) vals) in Hnew.
      * injection Hnew as <-. apply List.map_id.
      * intros v Hv. apply Hfix; [left; reflexivity | exact Hv].
    + rewrite (Hother c Hne). exact Hg.
Qed.

Lemma rate_hour_shape r h :
  rate_hour_spec rt r h -> h = VNull \/ exists q, h = VNum q.
Proof. destruct r; cbn; intros ->; eauto. Qed.

Lemma astype_float_fixed v :
  v = VNull \/ (exists q, v = VNum q) -> astype_float rt v = Ok v.
Proof. intros [->|[q ->]]; reflexivity. Qed.

Lemma bom_dtype_float c d :
  In c ["fixedDuration"; "rate"; "rateHour"] -> In (c, d) bom_dtypes ->
  d = DFloat.
Proof.
  cbn. intros Hc Hin.
  destruct Hc as [<-|[<-|[<-|[]]]];
    repeat (destruct Hin as [Hin|Hin];
            [congruence|]);
    destruct Hin.
Qed.

(** The three numeric cells of every row, from the merged table to the
    typed one. *)
Lemma bom_numeric_rows merged_df derived typed :
  well_formed merged_df ->
  bom_derive rt merged_df = Ok derived ->
  astype rt derived bom_dtypes = Ok typed ->
  has_column merged_df "fixedDuration" = true
  /\ has_column merged_df "rate" = true
  /\ Forall2 (fun m r =>
                cell (columns typed) "fixedDuration" r
                  = numeric_spec rt (cell (columns merged_df) "fixedDuration" m)
                /\ cell (columns typed) "rate" r
                   = numeric_spec rt (cell (columns merged_df) "rate" m)
                /\ rate_hour_spec rt (cell (columns typed) "rate" r)
                                  (cell (columns typed) "rateHour" r))
             (rows merged_df) (rows typed).
Proof.
  intros Hwf Hd Ht.
  destruct (bom_derive_numeric rt merged_df derived Hwf Hd)
    as (fd & ra & fd' & ra' & hour & Hfd & Hra & Hfd' & Hra' & Hhour
        & Ffd & Fra & Fhour).
  destruct (bom_derive_rows rt _ _ Hwf Hd) as [Hwfd _].
  assert (forall v, In v fd' -> v = VNull \/ exists q, v = VNum q) as Kfd.
  { intros v Hv. destruct (Forall2_In_right _ _ _ _ Ffd Hv) as (x & _ & ->).
    apply numeric_spec_shape. }
  assert (forall v, In v ra' -> v = VNull \/ exists q, v = VNum q) as Kra.
  { intros v Hv. destruct (Forall2_In_right _ _ _ _ Fra Hv) as (x & _ & ->).
    apply numeric_spec_shape. }
  assert (forall v, In v hour -> v = VNull \/ exists q, v = VNum q) as Khour.
  { intros v Hv. destruct (Forall2_In_right _ _ _ _ Fhour Hv) as (x & _ & Hx).
    eapply rate_hour_shape. exact Hx. }
  assert (getcol typed "fixedDuration" = Ok fd') as Tfd.
  { apply (astype_fixed _ _ _ _ _ Hwfd Ht Hfd'). intros d v Hin Hv.
    rewrite (bom_dtype_float "fixedDuration" d ltac:(cbn; tauto) Hin).
    apply astype_float_fixed. apply Kfd. exact Hv. }
  assert (getcol typed "rate" = Ok ra') as Tra.
  { apply (astype_fixed _ _ _ _ _ Hwfd Ht Hra'). intros d v Hin Hv.
    rewrite (bom_dtype_float "rate" d ltac:(cbn; tauto) Hin).
    apply astype_float_fixed. apply Kra. exact Hv. }
  assert (getcol typed "rateHour" = Ok hour) as Thour.
  { apply (astype_fixed _ _ _ _ _ Hwfd Ht Hhour). intros d v Hin Hv.
    rewrite (bom_dtype_float "rateHour" d ltac:(cbn; tauto) Hin).
    apply astype_float_fixed. apply Khour. exact Hv. }
  apply getcol_cells in Hfd as [Hhfd ->]. apply getcol_cells in Hra as [Hhra ->].
  apply getcol_cells in Tfd as [_ ->]. apply getcol_cells in Tra as [_ ->].
  apply getcol_cells in Thour as [_ ->].
  split; [exact Hhfd|]. split; [exact Hhra|].
  apply Forall2_maps in Ffd, Fra, Fhour.
  apply Forall2_diag in Fhour.
  exact (rows_together _ _ _ _ _ Fhour Ffd Fra).
Qed.

(** C3, as the code has it.  In a call of [scheduler_get_bom_setup] that
    returned [out], take the merged table of the call and the typed table
    the view is projected from.  Row by row, lines 422-424 and the
    [astype] after them turn the [fixedDuration] and [rate] cells of the
    merged table into their [numeric_spec]: "NaN", "null", the empty
    string and a missing value give 0, a number stays, a string gives the
    number it parses to and NaN when it does not parse (not 0); and
    [rateHour] is the converted rate times 60 times 60, each product as the
    float column rounds it, NaN where the rate is NaN.  The rows of the
    view are the rows of the typed table under the selected columns, in
    sorted order, so that every row of the view carries, as Fixed
    Duration, Rate and Rate per Hour, these three cells of one row of the
    merged table. *)
Theorem bom_numeric_columns self t out t' :
  scheduler_get_bom_setup rt self t = (Ok out, t') ->
  exists operations_df merged_df derived typed,
    bom_merged rt self t t' operations_df merged_df
    /\ bom_derive rt merged_df = Ok derived
    /\ astype rt derived bom_dtypes = Ok typed
    /\ bom_project typed = Ok out
    /\ has_column merged_df "fixedDuration" = true
    /\ has_column merged_df "rate" = true
    /\ Forall2 (fun m r =>
                  cell (columns typed) "fixedDuration" r
                    = numeric_spec rt (cell (columns merged_df) "fixedDuration" m)
                  /\ cell (columns typed) "rate" r
                     = numeric_spec rt (cell (columns merged_df) "rate" m)
                  /\ rate_hour_spec rt (cell (columns typed) "rate" r)
                                    (cell (columns typed) "rateHour" r))
               (rows merged_df) (rows typed)
    /\ Permutation (rows out) (List.map (bom_view_row typed) (rows typed))
    /\ Forall (fun r =>
                 cell (columns out) "Fixed Duration" (bom_view_row typed r)
                   = cell (columns typed) "fixedDuration" r
                 /\ cell (columns out) "Rate" (bom_view_row typed r)
                    = cell (columns typed) "rate" r
                 /\ cell (columns out) "Rate per Hour" (bom_view_row typed r)
                    = cell (columns typed) "rateHour" r)
              (rows typed)
    /\ Forall (fun v =>
                 (exists m,
                    In m (rows merged_df)
                    /\ cell (columns out) "Fixed Duration" v
                       = numeric_spec rt
                           (cell (columns merged_df) "fixedDuration" m)
                    /\ cell (columns out) "Rate" v
                       = numeric_spec rt (cell (columns merged_df) "rate" m))
                 /\ rate_hour_spec rt (cell (columns out) "Rate" v)
                                   (cell (columns out) "Rate per Hour" v))
              (rows out).
Proof.
  intros H. apply bom_run_stages in H
    as (operations_df & merged_df & derived & typed
        & Hm & _ & Hwf & Hd & Ht & Hp).
  exists operations_df, merged_df, derived, typed.
  split; [exact Hm|]. split; [exact Hd|]. split; [exact Ht|].
  split; [exact Hp|].
  destruct (bom_numeric_rows _ _ _ Hwf Hd Ht) as (Hhfd & Hhra & Hrows).
  split; [exact Hhfd|]. split; [exact Hhra|]. split; [exact Hrows|].
  unfold bom_project in Hp. apply rbind_ok in Hp as (sel & Hsel & Hsort).
  apply select_spec in Hsel as [Hc Hr].
  apply sort_values_spec in Hsort as [Hco Hperm].
  unfold rename in Hco, Hperm. cbn [columns rows] in Hco, Hperm.
  rewrite Hc in Hco. rewrite Hr in Hperm.
  assert (forall r,
            cell (columns out) "Fixed Duration" (bom_view_row typed r)
              = cell (columns typed) "fixedDuration" r
            /\ cell (columns out) "Rate" (bom_view_row typed r)
               = cell (columns typed) "rate" r
            /\ cell (columns out) "Rate per Hour" (bom_view_row typed r)
               = cell (columns typed) "rateHour" r) as Hcells.
  { intros r. rewrite Hco. repeat split; reflexivity. }
  split; [exact Hperm|].
  split; [apply List.Forall_forall; intros r _; apply Hcells|].
  apply List.Forall_forall. intros v Hv.
  apply (Permutation_in _ Hperm) in Hv.
  change (In v (List.map (bom_view_row typed) (rows typed))) in Hv.
  apply List.in_map_iff in Hv as (r & <- & Hin).
  destruct (Hcells r) as (-> & -> & ->).
  destruct (Forall2_In_right _ _ _ _ Hrows Hin) as (m & Hmin & H1 & H2 & H3).
  split; [|exact H3]. exists m. repeat split; assumption.
Qed.

End BomNumeric.

(** The numeric columns on the demo site. *)
Lemma bom_numeric_columns_demo :
  exists out t',
    scheduler_get_bom_setup Demo.rt Demo.self [] = (Ok out, t')
    /\ Forall (fun v => rate_hour_spec Demo.rt (cell (columns out) "Rate" v)
                                      (cell (columns out) "Rate per Hour" v))
              (rows out).
Proof.
  assert (exists out t',
            scheduler_get_bom_setup Demo.rt Demo.self [] = (Ok out, t'))
    as (out & t' & Hrun) by (vm_compute; eauto).
  exists out, t'. split; [exact Hrun|].
  destruct (bom_numeric_columns Demo.rt Demo.self _ _ _ Hrun)
    as (operations_df & merged_df & derived & typed
        & _ & _ & _ & _ & _ & _ & _ & _ & _ & Hall).
  eapply List.Forall_impl; [|exact Hall]. intros v [_ Hv]. exact Hv.
Defined.

(** Two products by 60 are not one product by 3600: on the double that
    0.57 denotes they differ in the last place. *)
Example rate_hour_rounding :
  Qeq_bool (Demo.fmul (Demo.fmul Demo.rate_057 60) 60)
           (Demo.fmul Demo.rate_057 3600) = false
  /\ Qeq_bool (Demo.fmul Demo.rate_057 3600) 2052 = true
  /\ Qeq_bool (Demo.fmul (Demo.fmul 2 60) 60) 7200 = true.
Proof. vm_compute. repeat split. Qed.
